(** * Insurance-enrollment portal: application lifecycle, approval,
      settlement and access gate of [app.py], as a shallow embedding.

    Conventions of the embedding.
    - A Python [datetime] is its wall-clock reading in microseconds counted
      from the start of proleptic Gregorian ordinal day 0, together with its
      [tzinfo]: [None] for a naive value, [Some off] for an aware one with
      the fixed UTC offset [off].  [KST] (Asia/Seoul) is the fixed offset
      +09:00.  Adding a timedelta that leaves the range of [datetime]
      raises OverflowError: [dt_add] returns [None] there, and the code
      that adds is written with what the exception does to the request.
    - A database table is the list of its rows in row-id order.
    - A handler is a function from the stored state and the request to the
      new stored state and the flashed messages; [safe_commit] is the
      boolean it returns, and a failed commit rolls the request back. *)

From Stdlib Require Import ZArith List String Bool Lia DecimalString.
Import ListNotations.
Open Scope Z_scope.

(** ** datetime, date, timedelta *)

Definition timedelta := Z.

Definition timedelta_hours (h : Z) : timedelta := h * 3600 * 1000000.
Definition timedelta_days (d : Z) : timedelta := d * 86400 * 1000000.

Record date := mkDate { year : Z; month : Z; day : Z }.

Record datetime := mkDatetime { wall : Z; tzinfo : option timedelta }.

Definition KST : timedelta := timedelta_hours 9.

(* datetime._is_leap *)
Definition _is_leap (y : Z) : bool :=
  (y mod 4 =? 0) && (negb (y mod 100 =? 0) || (y mod 400 =? 0)).

(* datetime._days_before_year *)
Definition _days_before_year (y : Z) : Z :=
  let y' := y - 1 in y' * 365 + y' / 4 - y' / 100 + y' / 400.

(* datetime._days_in_month *)
Definition _days_in_month (y m : Z) : Z :=
  if (m =? 2) && _is_leap y then 29
  else nth (Z.to_nat m) [0; 31; 28; 31; 30; 31; 30; 31; 31; 30; 31; 30; 31] 0.

(* datetime._days_before_month *)
Definition _days_before_month (y m : Z) : Z :=
  nth (Z.to_nat m) [0; 0; 31; 59; 90; 120; 151; 181; 212; 243; 273; 304; 334] 0
  + (if (2 <? m) && _is_leap y then 1 else 0).

(* datetime._ymd2ord *)
Definition _ymd2ord (y m d : Z) : Z :=
  _days_before_year y + _days_before_month y m + d.

(* datetime._ord2ymd *)
Definition _ord2ymd (n0 : Z) : Z * Z * Z :=
  let n := n0 - 1 in
  let n400 := n / 146097 in
  let n := n mod 146097 in
  let y := n400 * 400 + 1 in
  let n100 := n / 36524 in
  let n := n mod 36524 in
  let n4 := n / 1461 in
  let n := n mod 1461 in
  let n1 := n / 365 in
  let n := n mod 365 in
  let y := y + n100 * 100 + n4 * 4 + n1 in
  if (n1 =? 4) || (n100 =? 4) then (y - 1, 12, 31)
  else
    let leapyear := (n1 =? 3) && (negb (n4 =? 24) || (n100 =? 3)) in
    let m := Z.shiftr (n + 50) 5 in
    let preceding :=
      nth (Z.to_nat m) [0; 0; 31; 59; 90; 120; 151; 181; 212; 243; 273; 304; 334] 0
      + (if (2 <? m) && leapyear then 1 else 0) in
    if n <? preceding then
      let m' := m - 1 in
      let preceding' :=
        preceding
        - (nth (Z.to_nat m') [0; 31; 28; 31; 30; 31; 30; 31; 31; 30; 31; 30; 31] 0
           + (if (m' =? 2) && leapyear then 1 else 0)) in
      (y, m', n - preceding' + 1)
    else (y, m, n - preceding + 1).

(* The checks of the [date] and [datetime] constructors (ValueError
   otherwise). *)
Definition valid_ymd (y m d : Z) : bool :=
  (1 <=? y) && (y <=? 9999) && (1 <=? m) && (m <=? 12)
  && (1 <=? d) && (d <=? _days_in_month y m).

Definition valid_date (d : date) : bool := valid_ymd (year d) (month d) (day d).

Definition toordinal (d : date) : Z := _ymd2ord (year d) (month d) (day d).

Definition usec_per_day : Z := 86400 * 1000000.

(* datetime(y, m, d, tzinfo=tz); [None] stands for ValueError. *)
Definition datetime_ymd (y m d : Z) (tz : option timedelta) : option datetime :=
  if valid_ymd y m d then Some (mkDatetime (_ymd2ord y m d * usec_per_day) tz)
  else None.

(* datetime.combine(d, datetime.min.time(), tzinfo=tz) *)
Definition combine_min (d : date) (tz : option timedelta) : datetime :=
  mkDatetime (toordinal d * usec_per_day) tz.

(* date.max.toordinal() *)
Definition _MAXORDINAL : Z := 3652059.

(* dt + timedelta: wall-clock arithmetic, tzinfo kept; [None] stands for
   the OverflowError of a result whose day is not in 1 .. _MAXORDINAL. *)
Definition dt_add (dt : datetime) (td : timedelta) : option datetime :=
  let delta := wall dt + td in
  let days := delta / usec_per_day in
  if (0 <? days) && (days <=? _MAXORDINAL)
  then Some (mkDatetime delta (tzinfo dt))
  else None.

(* The instant an aware value denotes; comparisons below are only applied
   to aware values (Python refuses to order a naive and an aware one). *)
Definition utc_usec (dt : datetime) : Z :=
  wall dt - match tzinfo dt with Some off => off | None => 0 end.

(* a >= b *)
Definition dt_ge (a b : datetime) : bool := utc_usec b <=? utc_usec a.
(* a < b *)
Definition dt_lt (a b : datetime) : bool := utc_usec a <? utc_usec b.

(* datetime.now(KST); [clock] is the reading of the Seoul wall clock. *)
Definition datetime_now (clock : Z) : datetime := mkDatetime clock (Some KST).

(* now.year, now.month *)
Definition dt_year (dt : datetime) : Z :=
  let '(y, _, _) := _ord2ymd (wall dt / usec_per_day) in y.
Definition dt_month (dt : datetime) : Z :=
  let '(_, m, _) := _ord2ymd (wall dt / usec_per_day) in m.

Definition replace_tz_KST (dt : datetime) : datetime :=
  mkDatetime (wall dt) (Some KST).

Definition _ensure_aware (dt : option datetime) : option datetime :=
  match dt with
  | None => None
  | Some d =>
      match tzinfo d with
      | None => Some (replace_tz_KST d)
      | Some _ => Some d
      end
  end.

(** ** Entities *)

(* CheckConstraint status IN ('신청','조합승인','가입','종료') *)
Inductive app_status : Type :=
  | Applied        (* '신청' *)
  | UnionApproved  (* '조합승인' *)
  | Active         (* '가입' *)
  | Expired.       (* '종료' *)

Definition app_status_eqb (a b : app_status) : bool :=
  match a, b with
  | Applied, Applied | UnionApproved, UnionApproved
  | Active, Active | Expired, Expired => true
  | _, _ => false
  end.

Record InsuranceApplication := mkInsuranceApplication {
  id : Z;
  partner_group_id : Z;
  created_at : option datetime;
  desired_start_date : date;          (* nullable=False *)
  start_at : option datetime;
  end_at : option datetime;
  approved_at : option datetime;
  insured_code : option string;
  contractor_code : option string;
  car_plate : option string;
  vin : option string;
  car_name : option string;
  car_registered_at : option date;
  premium : Z;
  status : app_status;
  memo : option string;
  insurance_policy_path : option string;
  insurance_policy_url : option string;
  created_by_member_id : option Z
}.

Definition set_status (s : app_status) (a : InsuranceApplication) :=
  mkInsuranceApplication (id a) (partner_group_id a) (created_at a)
    (desired_start_date a) (start_at a) (end_at a) (approved_at a)
    (insured_code a) (contractor_code a) (car_plate a) (vin a) (car_name a)
    (car_registered_at a) (premium a) s (memo a)
    (insurance_policy_path a) (insurance_policy_url a) (created_by_member_id a).

Definition set_start_at (v : option datetime) (a : InsuranceApplication) :=
  mkInsuranceApplication (id a) (partner_group_id a) (created_at a)
    (desired_start_date a) v (end_at a) (approved_at a)
    (insured_code a) (contractor_code a) (car_plate a) (vin a) (car_name a)
    (car_registered_at a) (premium a) (status a) (memo a)
    (insurance_policy_path a) (insurance_policy_url a) (created_by_member_id a).

Definition set_end_at (v : option datetime) (a : InsuranceApplication) :=
  mkInsuranceApplication (id a) (partner_group_id a) (created_at a)
    (desired_start_date a) (start_at a) v (approved_at a)
    (insured_code a) (contractor_code a) (car_plate a) (vin a) (car_name a)
    (car_registered_at a) (premium a) (status a) (memo a)
    (insurance_policy_path a) (insurance_policy_url a) (created_by_member_id a).

Definition set_approved_at (v : option datetime) (a : InsuranceApplication) :=
  mkInsuranceApplication (id a) (partner_group_id a) (created_at a)
    (desired_start_date a) (start_at a) (end_at a) v
    (insured_code a) (contractor_code a) (car_plate a) (vin a) (car_name a)
    (car_registered_at a) (premium a) (status a) (memo a)
    (insurance_policy_path a) (insurance_policy_url a) (created_by_member_id a).

(** ** InsuranceApplication.recompute_status *)

(* How a call of a method ends: it returned, or it raised OverflowError;
   in both cases with the object as the call left it. *)
Inductive call (A : Type) : Type :=
  | Returned (a : A)
  | Raised (a : A).
Arguments Returned {A} a.
Arguments Raised {A} a.

Definition object_after {A} (c : call A) : A :=
  match c with Returned a | Raised a => a end.

Definition recompute_status (clock : Z) (self : InsuranceApplication)
  : call InsuranceApplication :=
  let now := datetime_now clock in
  let approved_at_local := _ensure_aware (approved_at self) in
  let end_at_local := _ensure_aware (end_at self) in
  (* the test of the expiry that ends the method *)
  let expiry (self : InsuranceApplication) :=
    match end_at_local with
    | Some e => if dt_ge now e then set_status Expired self else self
    | None => self
    end in
  match status self with
  | Applied | UnionApproved =>
      match approved_at_local with
      | Some a =>
          match dt_add a (timedelta_hours 2) with
          | None => Raised self
          | Some due =>
              if dt_ge now due then
                let self := set_status Active self in
                match start_at self with
                | None =>
                    let start_date :=
                      combine_min (desired_start_date self) (Some KST) in
                    let self := set_start_at (Some start_date) self in
                    match dt_add start_date (timedelta_days 30) with
                    | None => Raised self
                    | Some e => Returned (expiry (set_end_at (Some e) self))
                    end
                | Some _ => Returned (expiry self)
                end
              else Returned (expiry self)
          end
      | None => Returned (expiry self)
      end
  | _ => Returned (expiry self)
  end.


(** ** Remaining field updates of an application *)

Definition set_desired_start_date (v : date) (a : InsuranceApplication) :=
  mkInsuranceApplication (id a) (partner_group_id a) (created_at a)
    v (start_at a) (end_at a) (approved_at a)
    (insured_code a) (contractor_code a) (car_plate a) (vin a) (car_name a)
    (car_registered_at a) (premium a) (status a) (memo a)
    (insurance_policy_path a) (insurance_policy_url a) (created_by_member_id a).

Definition set_vehicle (plate vin' name : string) (registered : option date)
    (a : InsuranceApplication) :=
  mkInsuranceApplication (id a) (partner_group_id a) (created_at a)
    (desired_start_date a) (start_at a) (end_at a) (approved_at a)
    (insured_code a) (contractor_code a) (Some plate) (Some vin') (Some name)
    registered (premium a) (status a) (memo a)
    (insurance_policy_path a) (insurance_policy_url a) (created_by_member_id a).

Definition set_codes (insured contractor : string) (a : InsuranceApplication) :=
  mkInsuranceApplication (id a) (partner_group_id a) (created_at a)
    (desired_start_date a) (start_at a) (end_at a) (approved_at a)
    (Some insured) (Some contractor) (car_plate a) (vin a) (car_name a)
    (car_registered_at a) (premium a) (status a) (memo a)
    (insurance_policy_path a) (insurance_policy_url a) (created_by_member_id a).

Definition set_memo (v : option string) (a : InsuranceApplication) :=
  mkInsuranceApplication (id a) (partner_group_id a) (created_at a)
    (desired_start_date a) (start_at a) (end_at a) (approved_at a)
    (insured_code a) (contractor_code a) (car_plate a) (vin a) (car_name a)
    (car_registered_at a) (premium a) (status a) v
    (insurance_policy_path a) (insurance_policy_url a) (created_by_member_id a).

Definition set_policy (path url : option string) (a : InsuranceApplication) :=
  mkInsuranceApplication (id a) (partner_group_id a) (created_at a)
    (desired_start_date a) (start_at a) (end_at a) (approved_at a)
    (insured_code a) (contractor_code a) (car_plate a) (vin a) (car_name a)
    (car_registered_at a) (premium a) (status a) (memo a)
    path url (created_by_member_id a).

(** ** The application table and the request *)

Definition app_table := list InsuranceApplication.

(* db.session.get(InsuranceApplication, i) *)
Definition get_app (i : Z) (t : app_table) : option InsuranceApplication :=
  find (fun a => id a =? i) t.

(* the row with the key of [a'] now holds [a'] *)
Definition put_app (a' : InsuranceApplication) (t : app_table) : app_table :=
  map (fun a => if id a =? id a' then a' else a) t.

(* db.session.delete(row) *)
Definition delete_app (i : Z) (t : app_table) : app_table :=
  filter (fun a => negb (id a =? i)) t.

Definition is_none {A} (o : option A) : bool :=
  match o with None => true | Some _ => false end.

Definition opt_Z_eqb (o : option Z) (z : Z) : bool :=
  match o with Some x => x =? z | None => false end.

(* flash(message, category) *)
Record flash := mkFlash { message : string; category : string }.

(* What a handler leaves behind: the table, the messages flashed, the
   endpoint it redirects to. *)
Record outcome := mkOutcome {
  table : app_table;
  flashed : list flash;
  target : string
}.

(* A form field read with int(...): absent or empty, not a number, a number. *)
Inductive int_field := IntAbsent | IntMalformed | IntOk (z : Z).

(* A form field read with parse_date. *)
Inductive date_field := DateBlank | DateMalformed | DateOk (d : date).

Definition parse_date (f : date_field) : option date :=
  match f with DateOk d => Some d | _ => None end.

(* truth value of the raw field *)
Definition date_field_given (f : date_field) : bool :=
  match f with DateBlank => false | _ => true end.

(* parse_datetime on a field holding the wall-clock reading [w], if any *)
Definition parse_datetime (f : option Z) : option datetime :=
  match f with
  | Some w => _ensure_aware (Some (mkDatetime w None))
  | None => None
  end.

(* The fields of the edit forms, text fields after [.strip()]. *)
Record edit_form := mkEditForm {
  f_desired_start_date : date_field;
  f_car_plate : string;
  f_vin : string;
  f_car_name : string;
  f_car_registered_at : date_field;
  f_insured_code : string;
  f_contractor_code : string;
  f_start_at : option Z;
  f_end_at : option Z;
  f_insurance_policy_path : string;
  f_insurance_policy_url : string
}.

Record session := mkSession {
  user_type : option string;
  session_partner_group_id : option Z
}.

Definition str_or_none (s : string) : option string :=
  if String.eqb s "" then None else Some s.

(** ** Approval: the blocks that stamp one application *)

(* partner_admin_insurance_approval, actions 'approve' and 'bulk_approve'.
   [desired_start_date] is a NOT NULL date, so the test
   `application.desired_start_date and not application.start_at` is the
   test on start_at.  [None] stands for the OverflowError of
   `application.start_at + timedelta(days=30)`. *)
Definition partner_approve_one (now : datetime) (application : InsuranceApplication)
  : option InsuranceApplication :=
  let application := set_approved_at (Some now) application in
  let application := set_status UnionApproved application in
  let application :=
    if is_none (start_at application) then
      set_start_at
        (Some (combine_min (desired_start_date application) (Some KST)))
        application
    else application in
  match start_at application with
  | Some s =>
      if is_none (end_at application) then
        match dt_add s (timedelta_days 30) with
        | Some e => Some (set_end_at (Some e) application)
        | None => None
        end
      else Some application
  | None => Some application
  end.

(* admin_insurance, 'approve' and bulk_approve; [None] stands for the
   OverflowError of `start_date_aware + timedelta(days=30)`. *)
Definition admin_approve_one (now : datetime) (row : InsuranceApplication)
  : option InsuranceApplication :=
  let row := set_approved_at (Some now) row in
  let row := set_status UnionApproved row in
  if is_none (start_at row) then
    let start_date_aware := combine_min (desired_start_date row) (Some KST) in
    let row := set_start_at (Some start_date_aware) row in
    match dt_add start_date_aware (timedelta_days 30) with
    | Some e => Some (set_end_at (Some e) row)
    | None => None
    end
  else Some row.

(* A loop over the rows of a table whose body may raise: the table with
   every row as the body left it, or [None] when the body raised on one of
   them (the exception leaves the loop, and nothing of it is committed). *)
Fixpoint for_each {A} (body : A -> option A) (rows : list A) : option (list A) :=
  match rows with
  | [] => Some []
  | r :: rows' =>
      match body r, for_each body rows' with
      | Some r', Some rows'' => Some (r' :: rows'')
      | _, _ => None
      end
  end.

(** ** Handlers that approve, edit and delete applications

    Each definition embeds the request with method POST to the view of the
    same name.  [action] is the form field `action` (an absent field equals
    none of the literals it is compared with, like the empty string). *)

Definition opt_str_eqb (o : option string) (s : string) : bool :=
  match o with Some x => String.eqb x s | None => false end.

Definition count_str {A} (l : list A) : string :=
  NilZero.string_of_uint (Nat.to_uint (List.length l)).

Definition text_field (f : option string) : string :=
  match f with Some s => s | None => "" end.

(* The assignments of a 'save' that come from parse_date; the column is
   NOT NULL, so a save without a parsable date cannot be committed. *)
Definition saved_date (f : date_field) (a : InsuranceApplication)
  : option InsuranceApplication :=
  match parse_date f with
  | Some d => Some (set_desired_start_date d a)
  | None => None
  end.

Definition partner_admin_insurance_approval
    (sess : session) (clock : Z) (commit_ok : bool)
    (action : string) (app_id : int_field) (form : edit_form) (f_memo : option string)
    (t : app_table) : outcome :=
  if negb (opt_str_eqb (user_type sess) "partner_admin") then
    mkOutcome t [mkFlash "파트너그룹 관리자만 접근 가능합니다." "warning"]
      "partner_dashboard"
  else
    match session_partner_group_id sess with
    | None =>
        mkOutcome t [mkFlash "파트너그룹 정보가 없습니다." "warning"] "partner_dashboard"
    | Some g =>
      if g =? 0 then
        mkOutcome t [mkFlash "파트너그룹 정보가 없습니다." "warning"] "partner_dashboard"
      else if String.eqb action "bulk_approve" then
        let pending := fun a =>
          (partner_group_id a =? g) && is_none (approved_at a) in
        let applications := filter pending t in
        let now := datetime_now clock in
        match for_each (fun a => if pending a then partner_approve_one now a
                                 else Some a) t with
        | Some approved =>
          if commit_ok then
            mkOutcome approved
              [mkFlash (count_str applications ++ "건이 일괄 승인되었습니다.") "success"]
              "partner_admin_insurance_approval"
          else
            mkOutcome t [mkFlash "일괄 승인 처리 중 오류가 발생했습니다." "danger"]
              "partner_admin_insurance_approval"
        | None =>
            (* the OverflowError reaches the `except Exception` of the view *)
            mkOutcome t [mkFlash "페이지 로드 중 오류가 발생했습니다." "danger"]
              "partner_admin"
        end
      else if String.eqb action "save" || String.eqb action "delete"
              || String.eqb action "approve" then
        match app_id with
        | IntAbsent => mkOutcome t [] "partner_admin_insurance_approval"
        | IntMalformed =>
            mkOutcome t [mkFlash "페이지 로드 중 오류가 발생했습니다." "danger"]
              "partner_admin"
        | IntOk i =>
          match get_app i t with
          | None => mkOutcome t [] "partner_admin_insurance_approval"
          | Some application =>
            if negb (partner_group_id application =? g) then
              mkOutcome t [] "partner_admin_insurance_approval"
            else if String.eqb action "approve" then
              let now := datetime_now clock in
              match partner_approve_one now application with
              | Some application =>
                if commit_ok then
                  mkOutcome (put_app application t)
                    [mkFlash "승인되었습니다." "success"]
                    "partner_admin_insurance_approval"
                else
                  mkOutcome t [mkFlash "승인 처리 중 오류가 발생했습니다." "danger"]
                    "partner_admin_insurance_approval"
              | None =>
                  (* `except Exception` of the action: rollback *)
                  mkOutcome t [mkFlash "승인 처리 중 오류가 발생했습니다." "danger"]
                    "partner_admin_insurance_approval"
              end
            else if String.eqb action "delete" then
              if commit_ok then
                mkOutcome (delete_app (id application) t)
                  [mkFlash "삭제되었습니다." "success"]
                  "partner_admin_insurance_approval"
              else
                mkOutcome t [mkFlash "삭제 처리 중 오류가 발생했습니다." "danger"]
                  "partner_admin_insurance_approval"
            else
              match saved_date (f_desired_start_date form) application with
              | Some application =>
                let application :=
                  set_vehicle (f_car_plate form) (f_vin form) (f_car_name form)
                    (parse_date (f_car_registered_at form)) application in
                let application :=
                  set_codes (f_insured_code form) (f_contractor_code form)
                    application in
                let application := set_memo (Some (text_field f_memo)) application in
                if commit_ok then
                  mkOutcome (put_app application t)
                    [mkFlash "저장되었습니다." "success"]
                    "partner_admin_insurance_approval"
                else
                  mkOutcome t [mkFlash "저장 처리 중 오류가 발생했습니다." "danger"]
                    "partner_admin_insurance_approval"
              | None =>
                  mkOutcome t [mkFlash "저장 처리 중 오류가 발생했습니다." "danger"]
                    "partner_admin_insurance_approval"
              end
          end
        end
      else mkOutcome t [] "partner_admin_insurance_approval"
    end.

(* The listing that ends admin_insurance: recompute_status on every row
   the filters of the query string select, then safe_commit.  [listed] is
   that selection as a test on the rows, [list_clock i] the reading of
   the Seoul wall clock when the row with id [i] is recomputed.  [None]
   stands for the OverflowError of a recomputation, which leaves the loop
   and the view. *)
Definition recompute_listed (list_clock : Z -> Z)
    (listed : InsuranceApplication -> bool) (rows : app_table) : option app_table :=
  for_each (fun r =>
              if listed r then
                match recompute_status (list_clock (id r)) r with
                | Returned r' => Some r'
                | Raised _ => None
                end
              else Some r) rows.

(* An exception that leaves admin_insurance is answered by admin_required
   with its own message and a redirect to login; what was committed
   before stays, the messages flashed before stay. *)
Definition admin_insurance_raised (stored : app_table) (messages : list flash)
  : outcome :=
  mkOutcome stored
    (messages ++ [mkFlash "권한 확인 중 오류가 발생했습니다. 다시 로그인해주세요." "danger"])
    "login".

(* The rest of admin_insurance after the POST block: the listing, its
   safe_commit [list_commit_ok], and the page. *)
Definition admin_insurance_listing (list_clock : Z -> Z) (list_commit_ok : bool)
    (listed : InsuranceApplication -> bool) (stored : app_table)
    (messages : list flash) : outcome :=
  match recompute_listed list_clock listed stored with
  | Some rows =>
      mkOutcome (if list_commit_ok then rows else stored) messages
        "admin/insurance.html"
  | None => admin_insurance_raised stored messages
  end.

(* admin_insurance (behind admin_required), POST: the block of the action,
   and the listing that every action but 'save' goes on to in the same
   request.  [commit_ok] is the safe_commit of the action. *)
Definition admin_insurance
    (clock : Z) (list_clock : Z -> Z) (commit_ok list_commit_ok : bool)
    (bulk_approve : string) (action : string) (row_id : int_field)
    (form : edit_form) (f_memo : option string)
    (listed : InsuranceApplication -> bool) (t : app_table) : outcome :=
  let raised := admin_insurance_raised in
  let listing := admin_insurance_listing list_clock list_commit_ok listed in
  if String.eqb bulk_approve "1" then
    let now := datetime_now clock in
    match for_each (fun r => if is_none (approved_at r) then admin_approve_one now r
                             else Some r) t with
    | Some approved =>
      if commit_ok then listing approved [mkFlash "일괄 승인되었습니다." "success"]
      else listing t [mkFlash "일괄 승인 처리 중 오류가 발생했습니다." "danger"]
    | None => raised t []
    end
  else
    let row :=
      match row_id with
      | IntOk i => get_app i t
      | _ => None
      end in
    match row with
    | None => listing t []
    | Some row =>
      if String.eqb action "approve" then
        match admin_approve_one (datetime_now clock) row with
        | Some row =>
          if commit_ok then
            listing (put_app row t) [mkFlash "승인되었습니다." "success"]
          else listing t [mkFlash "승인 처리 중 오류가 발생했습니다." "danger"]
        | None => raised t []
        end
      else if String.eqb action "delete" then
        if commit_ok then
          listing (delete_app (id row) t) [mkFlash "삭제되었습니다." "success"]
        else listing t [mkFlash "삭제 처리 중 오류가 발생했습니다." "danger"]
      else if String.eqb action "save_memo" then
        let row :=
          set_memo (match f_memo with Some s => Some s | None => memo row end) row in
        if commit_ok then
          listing (put_app row t) [mkFlash "비고가 저장되었습니다." "success"]
        else listing t [mkFlash "비고 저장 중 오류가 발생했습니다." "danger"]
      else if String.eqb action "save" then
        match saved_date (f_desired_start_date form) row with
        | Some row =>
          let row :=
            set_vehicle (f_car_plate form) (f_vin form) (f_car_name form)
              (parse_date (f_car_registered_at form)) row in
          let row := set_start_at (parse_datetime (f_start_at form)) row in
          let row := set_end_at (parse_datetime (f_end_at form)) row in
          let row := set_memo (Some (text_field f_memo)) row in
          let row :=
            set_policy (str_or_none (f_insurance_policy_path form))
              (str_or_none (f_insurance_policy_url form)) row in
          if commit_ok then
            mkOutcome (put_app row t) [mkFlash "저장되었습니다." "success"]
              "admin_insurance"
          else
            mkOutcome t [mkFlash "저장 처리 중 오류가 발생했습니다." "danger"]
              "admin_insurance"
        | None =>
            mkOutcome t [mkFlash "저장 처리 중 오류가 발생했습니다." "danger"]
              "admin_insurance"
        end
      else listing t []
    end.

(* The two actions of the member screens that touch a stored row. *)
Inductive edit_action := Save | Delete.

(* insurance (behind login_required): the block for action 'save' or
   'delete' of a member on the applications they created. *)
Definition insurance
    (current_user_id : Z) (commit_ok : bool)
    (action : edit_action) (row_id : int_field) (form : edit_form) (f_memo : option string)
    (t : app_table) : outcome :=
  match row_id with
  | IntAbsent => mkOutcome t [] "insurance"
  | IntMalformed =>
      (* ValueError reaches handle_unexpected_error *)
      mkOutcome t [mkFlash "서버 처리 중 오류가 발생했습니다." "danger"] "dashboard"
  | IntOk i =>
    match get_app i t with
    | None => mkOutcome t [] "insurance"
    | Some row =>
      if negb (opt_Z_eqb (created_by_member_id row) current_user_id) then
        mkOutcome t [] "insurance"
      else
      match action with
      | Delete =>
        if is_none (approved_at row) then
          if commit_ok then
            mkOutcome (delete_app (id row) t) [mkFlash "삭제되었습니다." "success"]
              "insurance"
          else
            mkOutcome t [mkFlash "삭제 처리 중 오류가 발생했습니다." "danger"] "insurance"
        else
          mkOutcome t [mkFlash "조합승인 후에는 삭제할 수 없습니다." "warning"] "insurance"
      | Save =>
        if is_none (approved_at row) then
          let edited :=
            if date_field_given (f_desired_start_date form) then
              match saved_date (f_desired_start_date form) row with
              | Some row =>
                  Some (set_vehicle (f_car_plate form) (f_vin form) (f_car_name form)
                          (parse_date (f_car_registered_at form)) row)
              | None => None
              end
            else Some row in
          match edited with
          | Some row =>
            let row := set_memo (Some (text_field f_memo)) row in
            if commit_ok then
              mkOutcome (put_app row t) [mkFlash "저장되었습니다." "success"] "insurance"
            else
              mkOutcome t [mkFlash "저장 처리 중 오류가 발생했습니다." "danger"] "insurance"
          | None =>
              mkOutcome t [mkFlash "저장 처리 중 오류가 발생했습니다." "danger"] "insurance"
          end
        else
          mkOutcome t [mkFlash "조합승인 후에는 수정할 수 없습니다." "warning"] "insurance"
      end
    end
  end.

(* Who calls partner_insurance: a partner-admin session, a logged-in
   member (id, role, partner group), or nobody. *)
Inductive caller :=
  | PartnerAdminSession (g : option Z)
  | MemberLogin (uid : Z) (role : string) (g : option Z)
  | Anonymous.

(* partner_insurance: the access prelude and the block for 'save' and
   'delete'. *)
Definition partner_insurance
    (who : caller) (commit_ok : bool)
    (action : edit_action) (app_id : int_field) (form : edit_form) (f_memo : option string)
    (t : app_table) : outcome :=
  let resolved : (option Z * bool) + outcome :=
    match who with
    | PartnerAdminSession g => inl (g, true)
    | Anonymous => inr (mkOutcome t [mkFlash "로그인이 필요합니다." "warning"] "login")
    | MemberLogin _ role g =>
        if String.eqb role "member" && negb (is_none g) && negb (opt_Z_eqb g 0)
        then inl (g, false)
        else inr (mkOutcome t
                    [mkFlash "파트너그룹 접근 권한이 없습니다." "warning"] "login")
    end in
  match resolved with
  | inr o => o
  | inl (None, _) =>
      mkOutcome t [mkFlash "파트너그룹 정보를 찾을 수 없습니다." "danger"] "login"
  | inl (Some g, is_partner_admin) =>
    if g =? 0 then
      mkOutcome t [mkFlash "파트너그룹 정보를 찾을 수 없습니다." "danger"] "login"
    else
    match app_id with
    | IntAbsent => mkOutcome t [] "partner_insurance"
    | IntMalformed =>
        mkOutcome t [mkFlash "페이지 로드 중 오류가 발생했습니다." "danger"]
          "partner_dashboard"
    | IntOk i =>
      match get_app i t with
      | None => mkOutcome t [] "partner_insurance"
      | Some application =>
        if negb (partner_group_id application =? g) then
          mkOutcome t [] "partner_insurance"
        else
          let owner :=
            match who with
            | MemberLogin uid _ _ =>
                opt_Z_eqb (created_by_member_id application) uid
            | _ => false
            end in
          if negb is_partner_admin && negb owner then
            mkOutcome t [mkFlash "권한이 없습니다." "warning"] "partner_insurance"
          else if negb (is_none (approved_at application)) then
            mkOutcome t [mkFlash "조합승인 후에는 수정/삭제할 수 없습니다." "warning"]
              "partner_insurance"
          else
          match action with
          | Delete =>
            if commit_ok then
              mkOutcome (delete_app (id application) t)
                [mkFlash "삭제되었습니다." "success"] "partner_insurance"
            else
              mkOutcome t [mkFlash "삭제 처리 중 오류가 발생했습니다." "danger"]
                "partner_insurance"
          | Save =>
            match saved_date (f_desired_start_date form) application with
            | Some application =>
              let application :=
                set_vehicle (f_car_plate form) (f_vin form) (f_car_name form)
                  (parse_date (f_car_registered_at form)) application in
              let application := set_memo (Some (text_field f_memo)) application in
              if commit_ok then
                mkOutcome (put_app application t)
                  [mkFlash "저장되었습니다." "success"] "partner_insurance"
              else
                mkOutcome t [mkFlash "저장 처리 중 오류가 발생했습니다." "danger"]
                  "partner_insurance"
            | None =>
                mkOutcome t [mkFlash "저장 처리 중 오류가 발생했습니다." "danger"]
                  "partner_insurance"
            end
          end
      end
    end
  end.

(** ** Members, partner groups, the database *)

(* CheckConstraint approval_status IN ('신청','승인') *)
Inductive approval := ApprovalApplied (* '신청' *) | ApprovalApproved (* '승인' *).

Record Member := mkMember {
  member_id : Z;
  member_partner_group_id : option Z;
  username : string;
  password_hash : string;
  company_name : option string;
  address : option string;
  business_number : option string;
  corporation_number : option string;
  representative : option string;
  phone : option string;
  mobile : option string;
  email : option string;
  registration_cert_path : option string;
  member_type : option string;
  privacy_agreement : bool;
  approval_status : option approval;
  role : option string;
  member_memo : option string
}.

Record PartnerGroup := mkPartnerGroup {
  group_id : Z;
  name : string;
  admin_username : string;
  admin_password_hash : string;
  group_business_number : string;
  group_representative : string;
  group_phone : string;
  group_mobile : option string;
  group_address : option string;
  bank_name : option string;
  account_number : option string;
  group_registration_cert_path : option string;
  logo_path : option string;
  group_memo : option string
}.

Record database := mkDatabase {
  partner_groups : list PartnerGroup;
  members : list Member;
  insurance_applications : app_table
}.

(* db.session.get(Member, i) and the relationship created_by_member *)
Definition get_member (i : Z) (ms : list Member) : option Member :=
  find (fun m => member_id m =? i) ms.

Definition created_by_member (db : database) (a : InsuranceApplication)
  : option Member :=
  match created_by_member_id a with
  | Some i => get_member i (members db)
  | None => None
  end.

Definition get_group (i : Z) (gs : list PartnerGroup) : option PartnerGroup :=
  find (fun g => group_id g =? i) gs.

(* the relationship partner_group *)
Definition partner_group (db : database) (a : InsuranceApplication)
  : option PartnerGroup :=
  get_group (partner_group_id a) (partner_groups db).

(* the next primary key of a table with the keys [ids] *)
Definition next_id (ids : list Z) : Z := fold_right Z.max 0 ids + 1.

(** ** Python dictionaries in insertion order *)

Section Dict.
Context {K V : Type} (eqb : K -> K -> bool).

Fixpoint dict_get (k : K) (d : list (K * V)) : option V :=
  match d with
  | [] => None
  | (k', v) :: d' => if eqb k' k then Some v else dict_get k d'
  end.

(* d[k] = v *)
Fixpoint dict_set (k : K) (v : V) (d : list (K * V)) : list (K * V) :=
  match d with
  | [] => [(k, v)]
  | (k', v') :: d' =>
      if eqb k' k then (k', v) :: d' else (k', v') :: dict_set k v d'
  end.

Definition dict_values (d : list (K * V)) : list V := map snd d.
End Dict.

Definition sum_Z (l : list Z) : Z := fold_right Z.add 0 l.

Definition opt_string_eqb (a b : option string) : bool :=
  match a, b with
  | Some x, Some y => String.eqb x y
  | None, None => true
  | _, _ => false
  end.

(** ** Settlement *)

(* start_period and next_month of the settlement views; [None] stands for
   the ValueError of the datetime constructor. *)
Definition month_bounds (y m : Z) : option (datetime * datetime) :=
  match datetime_ymd y m 1 (Some KST) with
  | None => None
  | Some start_period =>
      match (if m =? 12 then datetime_ymd (y + 1) 1 1 (Some KST)
             else datetime_ymd y (m + 1) 1 (Some KST)) with
      | None => None
      | Some next_month => Some (start_period, next_month)
      end
  end.

(* The filter  start_at IS NOT NULL AND start_at >= :start_period AND
   start_at < :next_month ; a stored value without zone reads as Seoul
   time. *)
Definition in_period (start_period next_month : datetime)
    (a : InsuranceApplication) : bool :=
  match _ensure_aware (start_at a) with
  | Some s => dt_ge s start_period && dt_lt s next_month
  | None => false
  end.

Record settlement := mkSettlement {
  s_company_name : string;
  s_representative : string;
  s_business_number : string;
  count : Z;
  amount : Z
}.

Definition key3 : Type := string * string * string.

Definition key3_eqb (a b : key3) : bool :=
  let '(a1, a2, a3) := a in
  let '(b1, b2, b3) := b in
  String.eqb a1 b1 && String.eqb a2 b2 && String.eqb a3 b3.

Record partner_settlement_page := mkPartnerPage {
  p_settlements : list settlement;
  p_year : Z;
  p_month : Z;
  p_total_count : Z;
  p_total_amount : Z
}.

(* one turn of the loop `for app in applications` of partner_admin_settlement *)
Definition partner_settle_step (db : database)
    (settlements : list (key3 * settlement)) (app : InsuranceApplication)
  : list (key3 * settlement) :=
  match created_by_member db app with
  | Some m =>
      let company_name := text_field (company_name m) in
      let representative := text_field (representative m) in
      let business_number := text_field (business_number m) in
      let company_key := (company_name, representative, business_number) in
      let settlements :=
        match dict_get key3_eqb company_key settlements with
        | None =>
            dict_set key3_eqb company_key
              (mkSettlement company_name representative business_number 0 0)
              settlements
        | Some _ => settlements
        end in
      match dict_get key3_eqb company_key settlements with
      | Some s =>
          let s := mkSettlement (s_company_name s) (s_representative s)
                     (s_business_number s) (count s + 1) (amount s) in
          let settlements := dict_set key3_eqb company_key s settlements in
          let s := mkSettlement (s_company_name s) (s_representative s)
                     (s_business_number s) (count s) (amount s + 9500) in
          dict_set key3_eqb company_key s settlements
      | None => settlements
      end
  | None => settlements
  end.

(* year and month of the query string, as partner_admin_settlement reads
   and checks them *)
Definition partner_year_month (now : datetime) (arg_year arg_month : int_field)
  : Z * Z :=
  let year := match arg_year with IntOk y => y | _ => dt_year now end in
  let month := match arg_month with IntOk m => m | _ => dt_month now end in
  let month := if (month <? 1) || (12 <? month) then dt_month now else month in
  let year := if (year <? 2000) || (2100 <? year) then dt_year now else year in
  (year, month).

(* partner_admin_settlement for a partner-admin session of group [g] that
   exists; [None] stands for the view's `except Exception` (flash and
   redirect). *)
Definition partner_admin_settlement (db : database) (g : Z) (clock : Z)
    (arg_year arg_month : int_field) : option partner_settlement_page :=
  let now := datetime_now clock in
  let '(year, month) := partner_year_month now arg_year arg_month in
  match month_bounds year month with
  | None => None
  | Some (start_period, next_month) =>
      let applications :=
        filter (fun a => (partner_group_id a =? g)
                         && in_period start_period next_month a)
               (insurance_applications db) in
      let settlements := fold_left (partner_settle_step db) applications [] in
      let values := dict_values settlements in
      Some (mkPartnerPage values year month
              (sum_Z (map count values)) (sum_Z (map amount values)))
  end.

Definition okey3 : Type := option string * option string * option string.

Definition okey3_eqb (a b : okey3) : bool :=
  let '(a1, a2, a3) := a in
  let '(b1, b2, b3) := b in
  opt_string_eqb a1 b1 && opt_string_eqb a2 b2 && opt_string_eqb a3 b3.

Record admin_settlement_row := mkAdminRow {
  r_company : option string;
  r_representative : option string;
  r_business_number : option string;
  r_count : Z;
  r_amount : Z
}.

Record admin_settlement_page := mkAdminPage {
  a_settlements : list admin_settlement_row;
  a_total_count : Z;
  a_total_amount : Z
}.

(* one turn of the grouping loop of admin_settlement *)
Definition admin_group_step (db : database)
    (by_company : list (okey3 * Z)) (r : InsuranceApplication)
  : list (okey3 * Z) :=
  let key :=
    match created_by_member db r with
    | Some m => (company_name m, representative m, business_number m)
    | None => (Some "미상"%string, Some ""%string, Some ""%string)
    end in
  let by_company :=
    match dict_get okey3_eqb key by_company with
    | None => dict_set okey3_eqb key 0 by_company
    | Some _ => by_company
    end in
  match dict_get okey3_eqb key by_company with
  | Some c => dict_set okey3_eqb key (c + 1) by_company
  | None => by_company
  end.

(* the loop that prices the groups of admin_settlement: one turn, and the
   loop over by_company.items() *)
Definition admin_price_step (page : admin_settlement_page) (kv : okey3 * Z)
  : admin_settlement_page :=
  let '((company, rep, biz), count) := kv in
  let amount := count * 9500 in
  mkAdminPage
    (a_settlements page ++ [mkAdminRow company rep biz count amount])
    (a_total_count page + count) (a_total_amount page + amount).

Definition admin_price (by_company : list (okey3 * Z)) : admin_settlement_page :=
  fold_left admin_price_step by_company (mkAdminPage [] 0 0).

(* admin_settlement (behind admin_required) for the year and month read
   from the query string; [None] stands for an exception leaving the view
   (ValueError of int or of the datetime constructor). *)
Definition admin_settlement (db : database) (local_clock : Z)
    (arg_year arg_month : int_field) : option admin_settlement_page :=
  let local_now := mkDatetime local_clock None in
  let read (f : int_field) (dflt : Z) : option Z :=
    match f with
    | IntAbsent => Some dflt
    | IntMalformed => None
    | IntOk z => Some z
    end in
  match read arg_year (dt_year local_now), read arg_month (dt_month local_now) with
  | Some year, Some month =>
      match month_bounds year month with
      | None => None
      | Some (start_period, next_month) =>
          let rows :=
            filter (in_period start_period next_month) (insurance_applications db) in
          Some (admin_price (fold_left (admin_group_step db) rows []))
      end
  | _, _ => None
  end.

Definition okey2 : Type := option string * option string.

Definition okey2_eqb (a b : okey2) : bool :=
  opt_string_eqb (fst a) (fst b) && opt_string_eqb (snd a) (snd b).

Record overview_company := mkOverviewCompany {
  oc_company_name : option string;
  oc_representative : option string;
  oc_count : Z;
  oc_amount : Z
}.

Record overview_group := mkOverviewGroup {
  group_name : string;
  companies : list (okey2 * overview_company);
  total_count : Z;
  total_amount : Z
}.

Record overview_page := mkOverviewPage {
  settlements_by_group : list (Z * overview_group);
  grand_total_count : Z;
  grand_total_amount : Z
}.

(* one turn of the loop of admin_settlement_overview *)
Definition overview_step (db : database)
    (settlements_by_group : list (Z * overview_group)) (app : InsuranceApplication)
  : list (Z * overview_group) :=
  match partner_group db app, created_by_member db app with
  | Some pg, Some m =>
      let group_key := partner_group_id app in
      let company_key := (company_name m, representative m) in
      let settlements_by_group :=
        match dict_get Z.eqb group_key settlements_by_group with
        | None =>
            dict_set Z.eqb group_key (mkOverviewGroup (name pg) [] 0 0)
              settlements_by_group
        | Some _ => settlements_by_group
        end in
      match dict_get Z.eqb group_key settlements_by_group with
      | None => settlements_by_group
      | Some grp =>
          let companies :=
            match dict_get okey2_eqb company_key (companies grp) with
            | None =>
                dict_set okey2_eqb company_key
                  (mkOverviewCompany (company_name m) (representative m) 0 0)
                  (companies grp)
            | Some _ => companies grp
            end in
          let companies :=
            match dict_get okey2_eqb company_key companies with
            | Some c =>
                dict_set okey2_eqb company_key
                  (mkOverviewCompany (oc_company_name c) (oc_representative c)
                     (oc_count c + 1) (oc_amount c + 95000))
                  companies
            | None => companies
            end in
          dict_set Z.eqb group_key
            (mkOverviewGroup (group_name grp) companies
               (total_count grp + 1) (total_amount grp + 95000))
            settlements_by_group
      end
  | _, _ => settlements_by_group
  end.

(* admin_settlement_overview (behind admin_required) *)
Definition admin_settlement_overview (db : database) (local_clock : Z)
    (arg_year arg_month : int_field) (arg_partner_group_id : int_field)
  : option overview_page :=
  let local_now := mkDatetime local_clock None in
  let read (f : int_field) (dflt : Z) : option Z :=
    match f with
    | IntAbsent => Some dflt
    | IntMalformed => None
    | IntOk z => Some z
    end in
  match read arg_year (dt_year local_now), read arg_month (dt_month local_now) with
  | Some year, Some month =>
      match month_bounds year month with
      | None => None
      | Some (start_period, next_month) =>
          let q := filter (in_period start_period next_month)
                     (insurance_applications db) in
          let applications :=
            match arg_partner_group_id with
            | IntOk g => filter (fun a => partner_group_id a =? g) q
            | _ => q
            end in
          let by_group := fold_left (overview_step db) applications [] in
          let groups := dict_values by_group in
          Some (mkOverviewPage by_group
                  (sum_Z (map total_count groups)) (sum_Z (map total_amount groups)))
      end
  | _, _ => None
  end.

(** ** Creating members and partner groups *)

Record db_outcome := mkDbOutcome {
  db_after : database;
  db_flashed : list flash;
  db_target : string
}.

(* The fields of the registration form after [.strip()];
   [rf_registration_cert_path] is what the upload step leaves. *)
Record register_form := mkRegisterForm {
  rf_partner_group_id : int_field;
  rf_member_type : string;
  rf_privacy_agreement : bool;
  rf_username : string;
  rf_password : string;
  rf_company_name : string;
  rf_address : string;
  rf_business_number : string;
  rf_corporation_number : string;
  rf_representative : string;
  rf_phone : string;
  rf_mobile : string;
  rf_email : string;
  rf_registration_cert_path : option string
}.

Record group_form := mkGroupForm {
  gf_name : string;
  gf_admin_username : string;
  gf_admin_password : string;
  gf_business_number : string;
  gf_representative : string;
  gf_phone : string;
  gf_mobile : string;
  gf_address : string;
  gf_bank_name : string;
  gf_account_number : string;
  gf_memo : string;
  gf_registration_cert_path : option string;
  gf_logo_path : option string
}.

Definition is_empty (s : string) : bool := String.eqb s "".

Definition dquote : string := String (Ascii.ascii_of_nat 34) "".

Section Accounts.
(* werkzeug.security.generate_password_hash *)
Variable generate_password_hash : string -> string.

(* Member.username == username, Member.partner_group_id == g *)
Definition username_taken (db : database) (u : string) (g : Z) : bool :=
  existsb (fun m => String.eqb (username m) u
                    && opt_Z_eqb (member_partner_group_id m) g)
          (members db).

(* filter_by(business_number=bn) *)
Definition business_number_taken (db : database) (bn : string) : bool :=
  existsb (fun m => opt_string_eqb (business_number m) (Some bn)) (members db).

(* register, POST *)
Definition register (db : database) (commit_ok : bool) (form : register_form)
  : db_outcome :=
  let page := "auth/register.html"%string in
  if String.eqb (rf_member_type form) "개인" && negb (rf_privacy_agreement form) then
    mkDbOutcome db
      [mkFlash "개인 회원가입 시 개인정보이용동의서에 동의해주세요." "warning"] page
  else
    match rf_partner_group_id form with
    | IntAbsent => mkDbOutcome db [mkFlash "파트너그룹을 선택해주세요." "warning"] page
    | IntMalformed => mkDbOutcome db [mkFlash "잘못된 파트너그룹입니다." "danger"] page
    | IntOk partner_group_id_int =>
      match get_group partner_group_id_int (partner_groups db) with
      | None =>
          mkDbOutcome db [mkFlash "선택한 파트너그룹이 존재하지 않습니다." "danger"] page
      | Some _ =>
        if username_taken db (rf_username form) partner_group_id_int then
          mkDbOutcome db
            [mkFlash "해당 파트너그룹에 이미 존재하는 아이디입니다." "danger"] page
        else if negb (is_empty (rf_business_number form))
                && business_number_taken db (rf_business_number form) then
          mkDbOutcome db [mkFlash "이미 등록된 사업자번호입니다." "danger"] page
        else
          let member :=
            mkMember (next_id (map member_id (members db)))
              (Some partner_group_id_int) (rf_username form)
              (generate_password_hash (rf_password form))
              (Some (rf_company_name form)) (Some (rf_address form))
              (Some (rf_business_number form)) (Some (rf_corporation_number form))
              (Some (rf_representative form)) (Some (rf_phone form))
              (Some (rf_mobile form)) (Some (rf_email form))
              (rf_registration_cert_path form) (Some (rf_member_type form))
              (if String.eqb (rf_member_type form) "개인"
               then rf_privacy_agreement form else false)
              (Some ApprovalApplied) (Some "member"%string) None in
          if commit_ok then
            mkDbOutcome
              (mkDatabase (partner_groups db) (members db ++ [member])
                 (insurance_applications db))
              [mkFlash "신청이 접수되었습니다. 파트너그룹 관리자 승인 후 로그인 가능합니다."
                 "success"]
              "login"
          else
            mkDbOutcome db
              [mkFlash "회원가입 처리 중 오류가 발생했습니다. 다시 시도해주세요." "danger"]
              page
      end
    end.

(* PartnerGroup.name == name | business_number == ... | admin_username == ... *)
Definition group_taken (db : database) (form : group_form) : bool :=
  existsb (fun g => String.eqb (name g) (gf_name form)
                    || String.eqb (group_business_number g) (gf_business_number form)
                    || String.eqb (admin_username g) (gf_admin_username form))
          (partner_groups db).

(* admin_partner_groups (behind admin_required), action 'create' *)
Definition admin_partner_groups (db : database) (commit_ok : bool)
    (form : group_form) : db_outcome :=
  if is_empty (gf_name form) || is_empty (gf_business_number form)
     || is_empty (gf_representative form) || is_empty (gf_phone form) then
    mkDbOutcome db
      [mkFlash "파트너그룹명, 사업자등록번호, 대표자, 유선번호는 필수항목입니다." "warning"]
      "admin_partner_groups"
  else if group_taken db form then
    mkDbOutcome db
      [mkFlash "이미 존재하는 파트너그룹명, 사업자번호 또는 관리자 아이디입니다." "danger"]
      "admin_partner_groups"
  else
    let partner_group :=
      mkPartnerGroup (next_id (map group_id (partner_groups db)))
        (gf_name form) (gf_admin_username form)
        (generate_password_hash (gf_admin_password form))
        (gf_business_number form) (gf_representative form) (gf_phone form)
        (Some (gf_mobile form)) (Some (gf_address form))
        (Some (gf_bank_name form)) (Some (gf_account_number form))
        (gf_registration_cert_path form) (gf_logo_path form)
        (Some (gf_memo form)) in
    if commit_ok then
      mkDbOutcome
        (mkDatabase (partner_groups db ++ [partner_group]) (members db)
           (insurance_applications db))
        [mkFlash ("파트너그룹 " ++ dquote ++ gf_name form ++ dquote
                  ++ "이 생성되었습니다.") "success"]
        "admin_partner_groups"
    else
      mkDbOutcome db [mkFlash "파트너그룹 생성 중 오류가 발생했습니다." "danger"]
        "admin_partner_groups".
End Accounts.

(** ** admin_required *)

(* Which of the storage reads of one request raise. *)
Record faults := mkFaults {
  load_user_raises : bool;       (* db.session.get(Member, int(user_id)) of load_user *)
  role_query_raises : bool;      (* query(Member.role).filter(...).first() *)
  get_raises : bool;             (* db.session.get(Member, user_id) *)
  role_scalar_raises : bool;     (* query(Member.role).filter(...).scalar() *)
  attr_role_raises : bool;       (* getattr(current_user, 'role', 'member') *)
  approval_query_raises : bool;  (* query(Member.approval_status)...scalar() *)
  view_raises : bool             (* the wrapped view *)
}.

(* The value user_role holds: a string, or the result of
   query(Member.role)...first() itself.  That result is a Row, which is no
   instance of tuple (db.session.get is of the same SQLAlchemy), so
   `result[0] if isinstance(result, tuple) else result` is the Row. *)
Inductive role_value := RoleStr (s : string) | RoleRow (r : option string).

(* user_role != 'admin' is false for the string 'admin' only *)
Definition role_is_admin (r : option role_value) : bool :=
  match r with
  | Some (RoleStr s) => String.eqb s "admin"
  | _ => false
  end.

Definition truthy (o : option string) : bool :=
  match o with Some s => negb (is_empty s) | None => false end.

(* How a request to a decorated view ends: the view's response, a redirect
   to login with a flashed message, or HTTP 500. *)
Inductive gate_result :=
  | ViewReturned
  | RedirectLogin (f : flash)
  | ServerError.

Definition approval_eqb (a : option approval) (b : approval) : bool :=
  match a, b with
  | Some ApprovalApproved, ApprovalApproved => true
  | Some ApprovalApplied, ApprovalApplied => true
  | _, _ => false
  end.

(* load_user, the user loader of flask-login *)
Definition load_user (ms : list Member) (db_present : bool) (f : faults)
    (user_id : Z) : option Member :=
  if negb db_present then None
  else if load_user_raises f then None
  else get_member user_id ms.

(* current_user of a request: the member flask-login loads for the id the
   session holds; [None] is the anonymous user. *)
Definition current_user (ms : list Member) (db_present : bool) (f : faults)
    (session_user_id : option Z) : option Member :=
  match session_user_id with
  | Some user_id => load_user ms db_present f user_id
  | None => None
  end.

(* Outcome of the role lookup in storage: user_role and what is assigned
   to session['user_role'], or the redirect of a user that is not there. *)
Definition lookup_role (ms : list Member) (f : faults) (current_user : Member)
    (user_id : Z) (user_role : option role_value)
  : (option role_value * option role_value) + flash :=
  let fallback : (option role_value * option role_value) + flash :=
    if attr_role_raises f then inl (Some (RoleStr "member"), None)
    else if truthy (role current_user) then
      inl (Some (RoleStr (text_field (role current_user))),
           Some (RoleStr (text_field (role current_user))))
    else inl (Some (RoleStr "member"), None) in
  if role_query_raises f then fallback
  else
    match get_member user_id ms with
    | Some m =>
        (* a Row of one column is true whatever the column holds *)
        inl (Some (RoleRow (role m)), Some (RoleRow (role m)))
    | None =>
        if get_raises f then fallback
        else
          match get_member user_id ms with
          | Some user =>
              if role_scalar_raises f then fallback
              else if truthy (role user) then
                inl (Some (RoleStr (text_field (role user))),
                     Some (RoleStr (text_field (role user))))
              else inl (Some (RoleStr "member"), None)
          | None =>
              inr (mkFlash "사용자 정보를 찾을 수 없습니다. 다시 로그인해주세요." "danger")
          end
    end.

(* user_role after the block that consults the session first and storage
   only when the session holds no role or 'member' *)
Definition resolve_role (ms : list Member) (f : faults) (current_user : Member)
    (user_id : Z) (session_user_role : option string)
  : (option role_value * option role_value) + flash :=
  let user_role := option_map RoleStr session_user_role in
  if is_none session_user_role || opt_str_eqb session_user_role "member" then
    lookup_role ms f current_user user_id user_role
  else inl (user_role, None).

(* A request to a view behind admin_required: how it ends, and
   session['user_role'] as the response leaves it.  [session_user_id] is
   the user id flask-login keeps in the session.  login_required answers
   the anonymous user through LoginManager.unauthorized (login_view is
   'login', the message and its category are flask-login's own).  A Row
   assigned to the session cannot be written into the cookie: the
   response fails outside the decorator's handlers, HTTP 500, and the
   session stays as it was. *)
Definition admin_required (ms : list Member) (db_present : bool) (f : faults)
    (session_user_id : option Z) (session_user_role : option string)
  : gate_result * option string :=
  let respond (answer : gate_result) (written : option role_value) :=
    match written with
    | Some (RoleRow _) => (ServerError, session_user_role)
    | Some (RoleStr s) => (answer, Some s)
    | None => (answer, session_user_role)
    end in
  match current_user ms db_present f session_user_id with
  | None =>
      (RedirectLogin (mkFlash "Please log in to access this page." "message"),
       session_user_role)
  | Some current_user =>
    (* a Member: `current_user is None or not hasattr(current_user, 'id')`
       is false, and int(current_user.id) is its id *)
    let user_id := member_id current_user in
    if negb db_present then
      respond (RedirectLogin (mkFlash "데이터베이스 연결 오류가 발생했습니다." "danger"))
        None
    else
      match resolve_role ms f current_user user_id session_user_role with
      | inr fl => respond (RedirectLogin fl) None
      | inl (user_role, written) =>
        if negb (role_is_admin user_role) then
          respond (RedirectLogin (mkFlash "관리자만 접근 가능합니다." "warning")) written
        else if approval_query_raises f then
          respond
            (RedirectLogin (mkFlash "회원가입 승인 상태를 확인할 수 없습니다." "warning"))
            written
        else
          let approval_status :=
            match get_member user_id ms with
            | Some m => approval_status m
            | None => None
            end in
          if negb (approval_eqb approval_status ApprovalApproved) then
            respond
              (RedirectLogin
                 (mkFlash "회원가입 승인이 완료된 관리자만 접근 가능합니다." "warning"))
              written
          else if view_raises f then
            respond
              (RedirectLogin
                 (mkFlash "권한 확인 중 오류가 발생했습니다. 다시 로그인해주세요." "danger"))
              written
          else respond ViewReturned written
      end
  end.

(** ** Vocabulary of the statements *)

(* a stored timestamp as the comparisons read it *)
Definition aware (d : datetime) : datetime :=
  match tzinfo d with
  | None => replace_tz_KST d
  | Some _ => d
  end.

(* midnight (Asia/Seoul) of a date *)
Definition midnight (d : date) : datetime := combine_min d (Some KST).

(* the order applied -> union_approved -> active -> expired *)
Definition status_rank (s : app_status) : Z :=
  match s with
  | Applied => 0
  | UnionApproved => 1
  | Active => 2
  | Expired => 3
  end.

Definition pending (s : app_status) : Prop := s = Applied \/ s = UnionApproved.

(* The two phases of recompute_status, named for the proofs: the
   activation of a pending application, which may raise, and the expiry
   test against the end read before the activation. *)
Definition started (self : InsuranceApplication) : InsuranceApplication :=
  set_start_at (Some (midnight (desired_start_date self))) (set_status Active self).

Definition activate (clock : Z) (self : InsuranceApplication)
  : call InsuranceApplication :=
  match status self with
  | Applied | UnionApproved =>
      match _ensure_aware (approved_at self) with
      | Some a =>
          match dt_add a (timedelta_hours 2) with
          | None => Raised self
          | Some due =>
              if dt_ge (datetime_now clock) due then
                match start_at self with
                | None =>
                    match dt_add (midnight (desired_start_date self))
                            (timedelta_days 30) with
                    | None => Raised (started self)
                    | Some e => Returned (set_end_at (Some e) (started self))
                    end
                | Some _ => Returned (set_status Active self)
                end
              else Returned self
          end
      | None => Returned self
      end
  | _ => Returned self
  end.

Definition expire (clock : Z) (end_at_local : option datetime)
    (self : InsuranceApplication) : InsuranceApplication :=
  match end_at_local with
  | Some e => if dt_ge (datetime_now clock) e then set_status Expired self else self
  | None => self
  end.

(* The dates of [self] that recompute_status adds to stay inside the range
   of datetime: approved_at + 2 hours, and, while start_at is unset,
   midnight of desired_start_date + 30 days. *)
Definition in_range (self : InsuranceApplication) : Prop :=
  (forall t, approved_at self = Some t ->
             dt_add (aware t) (timedelta_hours 2) <> None)
  /\ (start_at self = None ->
      dt_add (midnight (desired_start_date self)) (timedelta_days 30) <> None).

(** ** Sample data *)

(* y-m-d hh:mm on the Seoul wall clock *)
Definition clock_at (y m d hh mm : Z) : Z :=
  _ymd2ord y m d * usec_per_day + (hh * 3600 + mm * 60) * 1000000.

Definition kst_at (y m d hh mm : Z) : datetime :=
  mkDatetime (clock_at y m d hh mm) (Some KST).

Definition sample_app (i g : Z) (desired : date) (st : app_status)
    (approved started ended : option datetime) (creator : option Z)
  : InsuranceApplication :=
  mkInsuranceApplication i g None desired started ended approved
    None None None None None None 9500 st None None None creator.

(* The scenario of the specification: desired start 2024-03-15, approved
   2024-03-01 10:00. *)
Definition scenario_app : InsuranceApplication :=
  sample_app 1 1 (mkDate 2024 3 15) UnionApproved
    (Some (kst_at 2024 3 1 10 0)) None None (Some 7).

(* An active application whose start and end an administrator blanked in
   the edit form of admin_insurance. *)
Definition active_blanked_app : InsuranceApplication :=
  sample_app 2 1 (mkDate 2024 3 15) Active
    (Some (kst_at 2024 3 1 10 0)) None None (Some 7).

(* An active application, and an expired one whose end an administrator
   moved into the future: same approved_at, start_at and end_at. *)
Definition running_app : InsuranceApplication :=
  sample_app 3 1 (mkDate 2024 3 15) Active
    (Some (kst_at 2024 3 1 10 0)) (Some (kst_at 2024 3 15 0 0))
    (Some (kst_at 2024 4 14 0 0)) (Some 7).

Definition extended_app : InsuranceApplication :=
  sample_app 3 1 (mkDate 2024 3 15) Expired
    (Some (kst_at 2024 3 1 10 0)) (Some (kst_at 2024 3 15 0 0))
    (Some (kst_at 2024 4 14 0 0)) (Some 7).

(* Approved (through the overview form) with a desired start more than
   thirty days back and no start yet. *)
Definition backdated_app : InsuranceApplication :=
  sample_app 4 1 (mkDate 2024 1 10) UnionApproved
    (Some (kst_at 2024 3 1 10 0)) None None (Some 7).

(* A desired start of 9999-12-15 (the application form stores every date
   it can parse), approved through the overview form, which stores
   approved_at alone; the end entered in the edit form. *)
Definition far_dated_app : InsuranceApplication :=
  sample_app 7 1 (mkDate 9999 12 15) UnionApproved
    (Some (kst_at 2024 3 1 10 0)) None (Some (kst_at 2024 4 14 0 0)) (Some 7).

(** ** Vocabulary of the approval statements *)

(* a partner-admin session of group [g] *)
Definition partner_session (sess : session) (g : Z) : Prop :=
  user_type sess = Some "partner_admin"%string
  /\ session_partner_group_id sess = Some g /\ g <> 0.

(* the approval blocks return on [a]: the thirty days they add stay inside
   the range of datetime *)
Definition admin_approvable (a : InsuranceApplication) : Prop :=
  start_at a = None ->
  dt_add (midnight (desired_start_date a)) (timedelta_days 30) <> None.

Definition partner_approvable (a : InsuranceApplication) : Prop :=
  end_at a = None ->
  dt_add (match start_at a with
          | Some s => s
          | None => midnight (desired_start_date a)
          end) (timedelta_days 30) <> None.

(* [r] is [a] right after an approval at [now]: stamped, with the coverage
   window fixed from desired_start_date, and not yet active *)
Definition window_fixed (now : datetime) (a r : InsuranceApplication) : Prop :=
  approved_at r = Some now
  /\ start_at r = Some (midnight (desired_start_date a))
  /\ (exists e,
        dt_add (midnight (desired_start_date a)) (timedelta_days 30) = Some e
        /\ end_at r = Some e)
  /\ status r = UnionApproved.

(* [r] is [a] after an approval at [now] and the listing that ends the same
   request of admin_insurance, which recomputes the row at [list_now]: the
   stamp and the window are those of the approval; the status is
   union_approved unless the listing found the window over, or the two
   hours passed *)
Definition window_fixed_listed (now list_now : datetime)
    (a r : InsuranceApplication) : Prop :=
  approved_at r = Some now
  /\ start_at r = Some (midnight (desired_start_date a))
  /\ exists e,
       dt_add (midnight (desired_start_date a)) (timedelta_days 30) = Some e
       /\ end_at r = Some e
       /\ (status r = UnionApproved
           \/ (status r = Expired /\ dt_ge list_now e = true)
           \/ (status r = Active
               /\ exists due, dt_add now (timedelta_hours 2) = Some due
                              /\ dt_ge list_now due = true)).

(* the bodies of the two bulk loops *)
Definition partner_bulk_body (g : Z) (now : datetime) (a : InsuranceApplication)
  : option InsuranceApplication :=
  if (partner_group_id a =? g) && is_none (approved_at a)
  then partner_approve_one now a else Some a.

Definition admin_bulk_body (now : datetime) (r : InsuranceApplication)
  : option InsuranceApplication :=
  if is_none (approved_at r) then admin_approve_one now r else Some r.

(* the body of the loop of the listing *)
Definition listing_body (list_clock : Z -> Z)
    (listed : InsuranceApplication -> bool) (r : InsuranceApplication)
  : option InsuranceApplication :=
  if listed r then
    match recompute_status (list_clock (id r)) r with
    | Returned r' => Some r'
    | Raised _ => None
    end
  else Some r.

(* every row is listed (no filter in the query string); one clock reading
   for the whole listing *)
Definition all_listed (r : InsuranceApplication) : bool := true.
Definition at_clock (clock : Z) (i : Z) : Z := clock.

Definition sample_session : session :=
  mkSession (Some "partner_admin"%string) (Some 1).

Definition blank_form : edit_form :=
  mkEditForm DateBlank "" "" "" DateBlank "" "" None None "" "".

(* A pending application whose end alone was entered by an administrator
   (the overview form stores each timestamp it is given). *)
Definition end_only_app : InsuranceApplication :=
  sample_app 5 1 (mkDate 2024 3 15) Applied
    None None (Some (kst_at 2024 12 31 0 0)) (Some 7).

Definition fresh_app : InsuranceApplication :=
  sample_app 6 1 (mkDate 2024 3 15) Applied None None None (Some 7).

(* A new application with a desired start more than thirty days back, and
   one with a desired start of 9999-12-15. *)
Definition backdated_new_app : InsuranceApplication :=
  sample_app 8 1 (mkDate 2024 1 10) Applied None None None (Some 7).

Definition far_dated_new_app : InsuranceApplication :=
  sample_app 9 1 (mkDate 9999 12 15) Applied None None None (Some 7).

(** ** Vocabulary of the edit lock *)

(* the caller of partner_insurance acts inside partner group [g] *)
Definition caller_in_group (who : caller) (g : Z) : Prop :=
  match who with
  | PartnerAdminSession (Some g') => g' = g /\ g <> 0
  | MemberLogin _ role (Some g') => role = "member"%string /\ g' = g /\ g <> 0
  | _ => False
  end.

Definition dated_form (d : date) : edit_form :=
  mkEditForm (DateOk d) "12가3456" "" "" DateBlank "" "" None None "" "".

(** ** Vocabulary of the settlement statements *)

Definition has_creator (db : database) (a : InsuranceApplication) : bool :=
  negb (is_none (created_by_member db a)).

Definition has_group (db : database) (a : InsuranceApplication) : bool :=
  negb (is_none (partner_group db a)).

(* the month after (y, m) *)
Definition next_month_of (y m : Z) : Z * Z :=
  if m =? 12 then (y + 1, 1) else (y, m + 1).

Definition sample_group : PartnerGroup :=
  mkPartnerGroup 1 "부산조합" "busan" "hash" "111-11-11111" "대표" "051-000-0000"
    None None None None None None None.

Definition sample_member : Member :=
  mkMember 7 (Some 1) "dealer" "hash" (Some "상사A"%string) None
    (Some "222-22-22222"%string) None (Some "김대표"%string) None None None None
    (Some "법인"%string) false (Some ApprovalApproved) (Some "member"%string) None.

(* One application of member 7 that started on 2024-03-15. *)
Definition march_db : database :=
  mkDatabase [sample_group] [sample_member] [running_app].

(* An application a partner admin entered as proxy (no creating member),
   approved on 2024-03-20 with desired start 2024-04-01. *)
Definition proxy_app : InsuranceApplication :=
  sample_app 9 1 (mkDate 2024 4 1) UnionApproved
    (Some (kst_at 2024 3 20 10 0)) (Some (kst_at 2024 4 1 0 0))
    (Some (kst_at 2024 5 1 0 0)) None.

Definition proxy_db : database :=
  mkDatabase [sample_group] [sample_member] [proxy_app].

(* amount = count x unit price, for the rows of the three views *)
Definition priced_9500 (s : settlement) : Prop := amount s = count s * 9500.

Definition admin_priced_9500 (r : admin_settlement_row) : Prop :=
  r_amount r = r_count r * 9500.

Definition company_priced_95000 (c : overview_company) : Prop :=
  oc_amount c = oc_count c * 95000.

Definition group_priced_95000 (g : overview_group) : Prop :=
  Forall company_priced_95000 (dict_values (companies g))
  /\ total_amount g = total_count g * 95000.

(** ** Vocabulary of the account statements *)

(* a registration that passes the checks made before the duplicate tests:
   consent given where required, and an existing partner group [g] chosen *)
Definition registration_admissible (db : database) (form : register_form) (g : Z)
  : Prop :=
  (rf_member_type form = "개인"%string -> rf_privacy_agreement form = true)
  /\ rf_partner_group_id form = IntOk g
  /\ get_group g (partner_groups db) <> None.

(* the required fields of a partner group are filled in *)
Definition group_form_complete (form : group_form) : Prop :=
  gf_name form <> ""%string /\ gf_business_number form <> ""%string
  /\ gf_representative form <> ""%string /\ gf_phone form <> ""%string.

Definition duplicate_member_flash (f : flash) : Prop :=
  f = mkFlash "해당 파트너그룹에 이미 존재하는 아이디입니다." "danger"
  \/ f = mkFlash "이미 등록된 사업자번호입니다." "danger".

Definition duplicate_group_flash : flash :=
  mkFlash "이미 존재하는 파트너그룹명, 사업자번호 또는 관리자 아이디입니다." "danger".

(* A member who registered without a business number. *)
Definition blank_number_member : Member :=
  mkMember 8 (Some 1) "walkin" "hash" (Some "개인상사"%string) None
    (Some ""%string) None (Some "박대표"%string) None None None None
    (Some "법인"%string) false (Some ApprovalApplied) (Some "member"%string) None.

Definition accounts_db : database :=
  mkDatabase [sample_group] [sample_member; blank_number_member] [].

Definition registration (u bn : string) : register_form :=
  mkRegisterForm (IntOk 1) "법인" false u "pw" "새상사" "" bn "" "이대표" "" "" ""
    None.

Definition sample_group_form (n bn admin : string) : group_form :=
  mkGroupForm n admin "pw" bn "대표" "051-111-1111" "" "" "" "" "" None None.

(* An administrator account, approved, and one still waiting. *)
Definition admin_member : Member :=
  mkMember 1 None "admin" "hash" None None None None None None None None None
    (Some "법인"%string) false (Some ApprovalApproved) (Some "admin"%string) None.

Definition waiting_admin : Member :=
  mkMember 2 None "admin2" "hash" None None None None None None None None None
    (Some "법인"%string) false (Some ApprovalApplied) (Some "admin"%string) None.

Definition no_faults : faults :=
  mkFaults false false false false false false false.

(** ** Vocabulary of the further lifecycle statements *)

Definition is_pending (s : app_status) : bool :=
  match s with Applied | UnionApproved => true | _ => false end.

(* the two tests of recompute_status at the clock reading [clock] *)
Definition due (clock : Z) (a : InsuranceApplication) : bool :=
  match _ensure_aware (approved_at a) with
  | Some t =>
      match dt_add t (timedelta_hours 2) with
      | Some d => dt_ge (datetime_now clock) d
      | None => false
      end
  | None => false
  end.

Definition ended (clock : Z) (a : InsuranceApplication) : bool :=
  match _ensure_aware (end_at a) with
  | Some e => dt_ge (datetime_now clock) e
  | None => false
  end.

(** ** Vocabulary of the table statements *)

(* the rows of the other partner groups *)
Definition outside_group (g : Z) (t : app_table) : app_table :=
  filter (fun a => negb (partner_group_id a =? g)) t.

(* the rows that member [uid] did not create *)
Definition created_by_others (uid : Z) (t : app_table) : app_table :=
  filter (fun a => negb (opt_Z_eqb (created_by_member_id a) uid)) t.

(* what only approval and the passing of time may change, and what
   nothing changes *)
Definition lifecycle (a : InsuranceApplication)
  : app_status * option datetime * option datetime * option datetime
    * Z * option Z :=
  (status a, approved_at a, start_at a, end_at a,
   partner_group_id a, created_by_member_id a).

(* An application of another partner group, and one of another member. *)
Definition other_group_app : InsuranceApplication :=
  sample_app 11 2 (mkDate 2024 3 15) Applied None None None (Some 20).

Definition other_member_app : InsuranceApplication :=
  sample_app 12 1 (mkDate 2024 3 15) Applied None None None (Some 8).

(** ** Vocabulary of the further settlement statements *)

(* the company a settlement line stands for *)
Definition settlement_key (s : settlement) : key3 :=
  (s_company_name s, s_representative s, s_business_number s).

Definition admin_row_key (r : admin_settlement_row) : okey3 :=
  (r_company r, r_representative r, r_business_number r).

(* a group's total is the sum over its companies *)
Definition group_balanced (g : overview_group) : Prop :=
  total_count g = sum_Z (map oc_count (dict_values (companies g))).

(* Two companies of one group with three applications that start in
   March 2024. *)
Definition second_member : Member :=
  mkMember 8 (Some 1) "dealer2" "hash" (Some "상사B"%string) None
    (Some "333-33-33333"%string) None (Some "박대표"%string) None None None None
    (Some "법인"%string) false (Some ApprovalApproved) (Some "member"%string) None.

Definition second_app : InsuranceApplication :=
  sample_app 13 1 (mkDate 2024 3 20) Active
    (Some (kst_at 2024 3 2 10 0)) (Some (kst_at 2024 3 20 0 0))
    (Some (kst_at 2024 4 19 0 0)) (Some 8).

Definition third_app : InsuranceApplication :=
  sample_app 14 1 (mkDate 2024 3 25) UnionApproved
    (Some (kst_at 2024 3 24 10 0)) (Some (kst_at 2024 3 25 0 0))
    (Some (kst_at 2024 4 24 0 0)) (Some 7).

Definition two_company_db : database :=
  mkDatabase [sample_group] [sample_member; second_member]
    [running_app; second_app; third_app].

(** ** Logging in and out *)

(* What login, logout and the handlers read and write of the Flask
   session: the user flask-login holds (login_user, logout_user),
   session.permanent, and the eight keys. *)
Record web_session := mkWebSession {
  ws_user_id : option Z;
  ws_permanent : bool;
  ws_user_role : option string;
  ws_user_name : option string;
  ws_admin_selected_partner_group_id : option Z;
  ws_admin_selected_partner_group_name : option string;
  ws_partner_group_id : option Z;
  ws_partner_group_name : option string;
  ws_user_type : option string;
  ws_username : option string
}.

(* The form field partner_group_id of the login page after [.strip()]:
   empty, the literal 'admin', not a number, a number. *)
Inductive group_choice :=
  | ChoiceBlank
  | ChoiceAdmin
  | ChoiceMalformed
  | ChoiceId (g : Z).

Record login_form := mkLoginForm {
  lf_username : string;          (* after .strip() *)
  lf_password : string;
  lf_partner_group_id : group_choice
}.

Record login_outcome := mkLoginOutcome {
  lo_db : database;
  lo_session : web_session;
  lo_flashed : list flash;
  lo_target : string
}.

Definition set_members (ms : list Member) (db : database) : database :=
  mkDatabase (partner_groups db) ms (insurance_applications db).

Definition set_partner_groups (gs : list PartnerGroup) (db : database) : database :=
  mkDatabase gs (members db) (insurance_applications db).

(* the row with the key of [m'] now holds [m'] *)
Definition put_member (m' : Member) (ms : list Member) : list Member :=
  map (fun m => if member_id m =? member_id m' then m' else m) ms.

Definition put_group (g' : PartnerGroup) (gs : list PartnerGroup) : list PartnerGroup :=
  map (fun g => if group_id g =? group_id g' then g' else g) gs.

(* user.company_name if user.company_name else user.username *)
Definition display_name (user : Member) : string :=
  if truthy (company_name user) then text_field (company_name user)
  else username user.

(* Member.username == username, partner_group_id IS NULL, role == 'admin' *)
Definition find_global_admin (db : database) (u : string) : option Member :=
  find (fun m => String.eqb (username m) u
                 && is_none (member_partner_group_id m)
                 && opt_str_eqb (role m) "admin")
       (members db).

(* Member.username == username, partner_group_id == g, role == 'member' *)
Definition find_group_member (db : database) (u : string) (g : Z) : option Member :=
  find (fun m => String.eqb (username m) u
                 && opt_Z_eqb (member_partner_group_id m) g
                 && opt_str_eqb (role m) "member")
       (members db).

Definition is_special_admin (u p : string) : bool :=
  String.eqb u "hyundai" && String.eqb p "#admin1004".

(* the unique constraint on partner_group.admin_username, for the row
   [g'] about to be written *)
Definition admin_username_conflict (g' : PartnerGroup) (gs : list PartnerGroup) : bool :=
  existsb (fun g => negb (group_id g =? group_id g')
                    && String.eqb (admin_username g) (admin_username g')) gs.

(* login_user(user, remember=True); session.permanent = True;
   session['user_role'] = 'admin'; session['user_name'] = ... *)
Definition admin_logged_in (user : Member) (sess : web_session) : web_session :=
  mkWebSession (Some (member_id user)) true (Some "admin"%string)
    (Some (display_name user))
    (ws_admin_selected_partner_group_id sess)
    (ws_admin_selected_partner_group_name sess)
    (ws_partner_group_id sess) (ws_partner_group_name sess)
    (ws_user_type sess) (ws_username sess).

Definition select_group (g : Z) (group_name' : string) (sess : web_session)
  : web_session :=
  mkWebSession (ws_user_id sess) (ws_permanent sess) (ws_user_role sess)
    (ws_user_name sess) (Some g) (Some group_name')
    (ws_partner_group_id sess) (ws_partner_group_name sess)
    (ws_user_type sess) (ws_username sess).

Definition unselect_group (sess : web_session) : web_session :=
  mkWebSession (ws_user_id sess) (ws_permanent sess) (ws_user_role sess)
    (ws_user_name sess) None None
    (ws_partner_group_id sess) (ws_partner_group_name sess)
    (ws_user_type sess) (ws_username sess).

Section Login.
(* werkzeug.security *)
Variable generate_password_hash : string -> string.
Variable check_password_hash : string -> string -> bool.

(* The special account, created or repaired: the member table to be
   committed and the account. *)
Definition special_admin_account (db : database) (u p : string)
    (user : option Member) : list Member * Member :=
  match user with
  | None =>
      let user :=
        mkMember (next_id (map member_id (members db))) None u
          (generate_password_hash p) (Some "현대해상 관리자"%string) None None None
          None None None (Some "admin@hyundai.com"%string) None
          (Some "법인"%string) false (Some ApprovalApproved)
          (Some "admin"%string) None in
      (members db ++ [user], user)
  | Some user =>
      let user :=
        mkMember (member_id user) (member_partner_group_id user) (username user)
          (generate_password_hash p) (company_name user) (address user)
          (business_number user) (corporation_number user) (representative user)
          (phone user) (mobile user) (email user) (registration_cert_path user)
          (member_type user) (privacy_agreement user) (Some ApprovalApproved)
          (Some "admin"%string) (member_memo user) in
      (put_member user (members db), user)
  end.

(* login, POST.  The reads of storage, the password hashing and
   login_user return; safe_commit may fail ([commit_ok]) and fails on the
   unique constraint of admin_username. *)
Definition login (db : database) (db_present commit_ok : bool)
    (sess : web_session) (form : login_form) : login_outcome :=
  let page := "auth/login.html"%string in
  let username := lf_username form in
  let password := lf_password form in
  let wrong :=
    mkLoginOutcome db sess
      [mkFlash "아이디 또는 비밀번호가 올바르지 않습니다." "danger"] page in
  let blank :=
    mkLoginOutcome db sess [mkFlash "모든 필드를 입력해주세요." "warning"] page in
  if is_empty username || is_empty password then blank
  else
  match lf_partner_group_id form with
  | ChoiceBlank => blank
  | choice =>
    if negb db_present then
      mkLoginOutcome db sess
        [mkFlash "데이터베이스가 초기화되지 않았습니다." "danger"] page
    else
    match choice with
    | ChoiceBlank => blank
    | ChoiceAdmin =>
      let user := find_global_admin db username in
      if is_special_admin username password then
        let '(ms, user) := special_admin_account db username password user in
        if commit_ok then
          mkLoginOutcome (set_members ms db)
            (unselect_group (admin_logged_in user sess)) [] "admin_dashboard"
        else
          mkLoginOutcome db sess
            [mkFlash "관리자 계정 설정 중 오류가 발생했습니다." "danger"] page
      else
        match user with
        | Some user =>
            if check_password_hash (password_hash user) password then
              mkLoginOutcome db (unselect_group (admin_logged_in user sess)) []
                "admin_dashboard"
            else wrong
        | None =>
            mkLoginOutcome db sess
              [mkFlash "전체관리자 계정을 찾을 수 없습니다." "danger"] page
        end
    | ChoiceMalformed =>
        mkLoginOutcome db sess [mkFlash "잘못된 파트너그룹입니다." "danger"] page
    | ChoiceId partner_group_id_int =>
      match get_group partner_group_id_int (partner_groups db) with
      | None =>
          mkLoginOutcome db sess
            [mkFlash "선택한 파트너그룹이 존재하지 않습니다." "danger"] page
      | Some partner_group =>
        if is_special_admin username password then
          let '(ms, admin_user) :=
            special_admin_account db username password
              (find_global_admin db username) in
          let partner_group :=
            mkPartnerGroup (group_id partner_group) (name partner_group) username
              (generate_password_hash password)
              (group_business_number partner_group)
              (group_representative partner_group) (group_phone partner_group)
              (group_mobile partner_group) (group_address partner_group)
              (bank_name partner_group) (account_number partner_group)
              (group_registration_cert_path partner_group)
              (logo_path partner_group) (group_memo partner_group) in
          if commit_ok
             && negb (admin_username_conflict partner_group (partner_groups db)) then
            let sess := admin_logged_in admin_user sess in
            let sess := select_group partner_group_id_int (name partner_group) sess in
            mkLoginOutcome
              (set_partner_groups (put_group partner_group (partner_groups db))
                 (set_members ms db))
              (mkWebSession (ws_user_id sess) (ws_permanent sess)
                 (ws_user_role sess) (ws_user_name sess)
                 (ws_admin_selected_partner_group_id sess)
                 (ws_admin_selected_partner_group_name sess)
                 (Some partner_group_id_int) (Some (name partner_group))
                 (Some "partner_admin"%string) (ws_username sess))
              [] "partner_dashboard"
          else
            mkLoginOutcome db sess
              [mkFlash "권한 부여 중 오류가 발생했습니다. 다시 시도해주세요." "danger"] page
        else
          match find_global_admin db username with
          | Some admin_user =>
              if check_password_hash (password_hash admin_user) password then
                mkLoginOutcome db
                  (admin_logged_in admin_user
                     (select_group partner_group_id_int (name partner_group) sess))
                  [] "partner_dashboard"
              else wrong
          | None =>
            if String.eqb (admin_username partner_group) username then
              if check_password_hash (admin_password_hash partner_group) password
              then
                mkLoginOutcome db
                  (mkWebSession (ws_user_id sess) (ws_permanent sess)
                     (Some "partner_admin"%string) (Some (name partner_group))
                     (ws_admin_selected_partner_group_id sess)
                     (ws_admin_selected_partner_group_name sess)
                     (Some partner_group_id_int) (Some (name partner_group))
                     (Some "partner_admin"%string) (Some username))
                  [] "partner_dashboard"
              else wrong
            else
              match find_group_member db username partner_group_id_int with
              | Some user =>
                  if check_password_hash (password_hash user) password then
                    if negb (approval_eqb (approval_status user) ApprovalApproved)
                    then
                      mkLoginOutcome db sess
                        [mkFlash "관리자 승인 후 로그인 가능합니다." "warning"] "login"
                    else
                      mkLoginOutcome db
                        (mkWebSession (Some (member_id user)) true (role user)
                           (Some (display_name user))
                           (ws_admin_selected_partner_group_id sess)
                           (ws_admin_selected_partner_group_name sess)
                           (ws_partner_group_id sess) (ws_partner_group_name sess)
                           (ws_user_type sess) (ws_username sess))
                        [] "partner_dashboard"
                  else wrong
              | None => wrong
              end
          end
      end
    end
  end.
End Login.

(* logout *)
Definition logout (sess : web_session) : web_session * string :=
  (mkWebSession None (ws_permanent sess) None None None None None None None None,
   "login"%string).

(* The session as the partner-admin handlers read it. *)
Definition handler_session (sess : web_session) : session :=
  mkSession (ws_user_type sess) (ws_partner_group_id sess).

(* The caller as partner_insurance resolves it: the partner-admin keys of
   the session first, then current_user as load_user reads it from
   storage. *)
Definition caller_of (db : database) (sess : web_session) : caller :=
  if opt_str_eqb (ws_user_type sess) "partner_admin" then
    PartnerAdminSession (ws_partner_group_id sess)
  else
    match ws_user_id sess with
    | Some i =>
        match get_member i (members db) with
        | Some m =>
            MemberLogin (member_id m) (text_field (role m))
              (member_partner_group_id m)
        | None => Anonymous
        end
    | None => Anonymous
    end.

(** ** partner_admin_member_approval *)

(* The fields of the member form after [.strip()]; approval_status is
   the field as action 'add' (after strip) and action 'save' (as sent)
   read it, absent or a text. *)
Record member_form := mkMemberForm {
  mf_company_name : string;
  mf_username : string;
  mf_password : string;
  mf_address : string;
  mf_business_number : string;
  mf_corporation_number : string;
  mf_representative : string;
  mf_phone : string;
  mf_mobile : string;
  mf_email : string;
  mf_approval_status : option string;
  mf_memo : string
}.

(* What the file step of 'save' leaves: no file (or an empty one), the
   stored path, a refused extension, an exception. *)
Inductive cert_upload :=
  | NoCert
  | CertStored (path : string)
  | CertRefused
  | CertFailed.

(* The actions of the form but the Excel upload. *)
Inductive member_action :=
  | AddMember
  | SaveMember (member_id_field : int_field)
  | DeleteMember (member_id_field : int_field)
  | OtherAction.

Record member_outcome := mkMemberOutcome {
  mo_members : list Member;
  mo_flashed : list flash;
  mo_target : string
}.

(* CheckConstraint approval_status IN ('신청','승인') *)
Definition approval_of (s : string) : option approval :=
  if String.eqb s "신청" then Some ApprovalApplied
  else if String.eqb s "승인" then Some ApprovalApproved
  else None.

(* member.partner_group_id == partner_group_id *)
Definition opt_Z_eq (a b : option Z) : bool :=
  match a, b with
  | Some x, Some y => x =? y
  | None, None => true
  | _, _ => false
  end.

(* UniqueConstraint('username', 'partner_group_id'), for the row [m']
   about to be written *)
Definition username_conflict (m' : Member) (ms : list Member) : bool :=
  existsb (fun m => negb (member_id m =? member_id m')
                    && String.eqb (username m) (username m')
                    && match member_partner_group_id m, member_partner_group_id m' with
                       | Some a, Some b => a =? b
                       | _, _ => false
                       end) ms.

Definition delete_member (i : Z) (ms : list Member) : list Member :=
  filter (fun m => negb (member_id m =? i)) ms.

Section MemberApproval.
Variable generate_password_hash : string -> string.

(* The assignments of action 'save'. *)
Definition saved_member (form : member_form) (cert : cert_upload)
    (approval : approval) (member : Member) : Member :=
  mkMember (member_id member) (member_partner_group_id member)
    (mf_username form)
    (if is_empty (mf_password form) then password_hash member
     else generate_password_hash (mf_password form))
    (Some (mf_company_name form)) (Some (mf_address form))
    (Some (mf_business_number form)) (Some (mf_corporation_number form))
    (Some (mf_representative form)) (Some (mf_phone form))
    (Some (mf_mobile form)) (Some (mf_email form))
    (match cert with
     | CertStored path => Some path
     | _ => registration_cert_path member
     end)
    (member_type member) (privacy_agreement member) (Some approval)
    (role member) (Some (mf_memo form)).

(* partner_admin_member_approval, POST, on the member table; a commit
   fails when safe_commit does ([commit_ok]) and on the constraints of the
   table. *)
Definition partner_admin_member_approval (sess : session) (commit_ok : bool)
    (action : member_action) (form : member_form) (cert : cert_upload)
    (ms : list Member) : member_outcome :=
  let back := "partner_admin_member_approval"%string in
  if negb (opt_str_eqb (user_type sess) "partner_admin") then
    mkMemberOutcome ms [mkFlash "파트너그룹 관리자만 접근 가능합니다." "warning"]
      "partner_dashboard"
  else
    let partner_group_id := session_partner_group_id sess in
    let edit (member_id_field : int_field) (k : Member -> member_outcome)
      : member_outcome :=
      match member_id_field with
      | IntAbsent => mkMemberOutcome ms [] back
      | IntMalformed =>
          mkMemberOutcome ms [mkFlash "페이지 로드 중 오류가 발생했습니다." "danger"]
            "partner_admin"
      | IntOk i =>
          match get_member i ms with
          | Some member =>
              if opt_Z_eq (member_partner_group_id member) partner_group_id
              then k member
              else mkMemberOutcome ms [] back
          | None => mkMemberOutcome ms [] back
          end
      end in
    match action with
    | AddMember =>
      if is_empty (mf_company_name form) || is_empty (mf_username form)
         || is_empty (mf_password form) || is_empty (mf_business_number form) then
        mkMemberOutcome ms
          [mkFlash "상사명, 아이디, 패스워드, 사업자번호는 필수입니다." "warning"] back
      else if existsb
                (fun m => opt_Z_eq (member_partner_group_id m) partner_group_id
                          && (String.eqb (username m) (mf_username form)
                              || opt_string_eqb (business_number m)
                                   (Some (mf_business_number form))))
                ms then
        mkMemberOutcome ms
          [mkFlash "이미 존재하는 아이디 또는 사업자번호입니다." "danger"] back
      else
        match approval_of (match mf_approval_status form with
                           | Some s => s
                           | None => "신청"%string
                           end) with
        | Some approval =>
          let new_member :=
            mkMember (next_id (map member_id ms)) partner_group_id
              (mf_username form) (generate_password_hash (mf_password form))
              (Some (mf_company_name form)) (Some (mf_address form))
              (Some (mf_business_number form)) (Some (mf_corporation_number form))
              (Some (mf_representative form)) (Some (mf_phone form))
              (Some (mf_mobile form)) (Some (mf_email form)) None
              (Some "법인"%string) false (Some approval) (Some "member"%string)
              (Some (mf_memo form)) in
          if commit_ok then
            mkMemberOutcome (ms ++ [new_member])
              [mkFlash "회원이 추가되었습니다." "success"] back
          else
            mkMemberOutcome ms [mkFlash "회원 추가 중 오류가 발생했습니다." "danger"]
              back
        | None =>
            mkMemberOutcome ms [mkFlash "회원 추가 중 오류가 발생했습니다." "danger"]
              back
        end
    | DeleteMember member_id_field =>
      edit member_id_field (fun member =>
        if commit_ok then
          mkMemberOutcome (delete_member (member_id member) ms)
            [mkFlash "회원이 삭제되었습니다." "success"] back
        else
          mkMemberOutcome ms [mkFlash "회원 삭제 중 오류가 발생했습니다." "danger"] back)
    | SaveMember member_id_field =>
      edit member_id_field (fun member =>
        let upload_flash :=
          match cert with
          | CertRefused =>
              [mkFlash "허용되지 않은 파일 형식입니다. (PDF, JPG, PNG만 가능)" "warning"]
          | CertFailed =>
              [mkFlash "사업자등록증 파일 업로드 중 오류가 발생했습니다." "warning"]
          | _ => []
          end in
        let failed :=
          mkMemberOutcome ms
            (upload_flash ++ [mkFlash "회원 정보 저장 중 오류가 발생했습니다." "danger"])
            back in
        match approval_of (match mf_approval_status form with
                           | Some s => s
                           | None => "신청"%string
                           end) with
        | Some approval =>
          let member := saved_member form cert approval member in
          if commit_ok && negb (username_conflict member ms) then
            mkMemberOutcome (put_member member ms)
              (upload_flash ++ [mkFlash "회원 정보가 저장되었습니다." "success"]) back
          else failed
        | None => failed
        end)
    | OtherAction => mkMemberOutcome ms [] back
    end.
End MemberApproval.
(** ** partner_insurance, action 'apply' *)

Definition set_applications (t : app_table) (db : database) : database :=
  mkDatabase (partner_groups db) (members db) t.

(* partner_insurance: the access prelude and the block of action 'apply'.
   [clock] is the reading of the Seoul wall clock that the default of
   created_at takes. *)
Definition partner_insurance_apply (db : database) (who : caller) (clock : Z)
    (commit_ok : bool) (form : edit_form) (f_memo : option string) : db_outcome :=
  let resolved : (option Z * bool) + db_outcome :=
    match who with
    | PartnerAdminSession g => inl (g, true)
    | Anonymous => inr (mkDbOutcome db [mkFlash "로그인이 필요합니다." "warning"] "login")
    | MemberLogin _ role g =>
        if String.eqb role "member" && negb (is_none g) && negb (opt_Z_eqb g 0)
        then inl (g, false)
        else inr (mkDbOutcome db
                    [mkFlash "파트너그룹 접근 권한이 없습니다." "warning"] "login")
    end in
  match resolved with
  | inr o => o
  | inl (None, _) =>
      mkDbOutcome db [mkFlash "파트너그룹 정보를 찾을 수 없습니다." "danger"] "login"
  | inl (Some partner_group_id, is_partner_admin) =>
    if partner_group_id =? 0 then
      mkDbOutcome db [mkFlash "파트너그룹 정보를 찾을 수 없습니다." "danger"] "login"
    else
      match parse_date (f_desired_start_date form) with
      | None =>
          mkDbOutcome db [mkFlash "가입희망일자와 차량번호는 필수입니다." "warning"]
            "partner_insurance"
      | Some desired_start_date =>
        if is_empty (f_car_plate form) then
          mkDbOutcome db [mkFlash "가입희망일자와 차량번호는 필수입니다." "warning"]
            "partner_insurance"
        else
          let partner_group_name :=
            match get_group partner_group_id (partner_groups db) with
            | Some partner_group => name partner_group
            | None => ""%string
            end in
          let current_user :=
            match who with
            | MemberLogin uid _ _ => get_member uid (members db)
            | _ => None
            end in
          let insured_code :=
            if is_partner_admin then f_insured_code form
            else
              match current_user with
              | Some m => text_field (business_number m)
              | None => ""%string
              end in
          let application :=
            mkInsuranceApplication
              (next_id (map id (insurance_applications db)))
              partner_group_id (Some (datetime_now clock)) desired_start_date
              None None None (Some insured_code) (Some partner_group_name)
              (Some (f_car_plate form)) (Some (f_vin form))
              (Some (f_car_name form)) (parse_date (f_car_registered_at form))
              9500 Applied (Some (text_field f_memo)) None None
              (match who with
               | MemberLogin uid _ _ => Some uid
               | _ => None
               end) in
          if commit_ok then
            mkDbOutcome
              (set_applications (insurance_applications db ++ [application]) db)
              [mkFlash "보험 신청이 등록되었습니다." "success"] "partner_insurance"
          else
            mkDbOutcome db [mkFlash "신청 처리 중 오류가 발생했습니다." "danger"]
              "partner_insurance"
      end
  end.
(** ** Vocabulary of the login statements *)

(* The credentials of [form] are those of an account: the special
   account, a global administrator, an approved member of the chosen
   group, or the administrator of the chosen group. *)
Definition authenticated (check : string -> string -> bool) (db : database)
    (form : login_form) : Prop :=
  is_special_admin (lf_username form) (lf_password form) = true
  \/ (exists m, In m (members db)
                /\ username m = lf_username form
                /\ check (password_hash m) (lf_password form) = true
                /\ ((member_partner_group_id m = None
                     /\ role m = Some "admin"%string)
                    \/ (exists g, lf_partner_group_id form = ChoiceId g
                                  /\ member_partner_group_id m = Some g
                                  /\ role m = Some "member"%string
                                  /\ approval_status m = Some ApprovalApproved)))
  \/ (exists g grp, lf_partner_group_id form = ChoiceId g
                    /\ get_group g (partner_groups db) = Some grp
                    /\ admin_username grp = lf_username form
                    /\ check (admin_password_hash grp) (lf_password form) = true).

(* a login that was turned down: nothing stored, the session as it was,
   a message, and the login page *)
Definition turned_down (db : database) (sess : web_session) (o : login_outcome)
  : Prop :=
  lo_db o = db /\ lo_session o = sess /\ lo_flashed o <> []
  /\ (lo_target o = "auth/login.html"%string \/ lo_target o = "login"%string).

(* the members outside the partner group of a session *)
Definition members_outside (pg : option Z) (ms : list Member) : list Member :=
  filter (fun m => negb (opt_Z_eq (member_partner_group_id m) pg)) ms.

(* A password hashing for the examples. *)
Definition sample_hash (p : string) : string := ("h:" ++ p)%string.
Definition sample_check (h p : string) : bool := String.eqb h (sample_hash p).

Definition no_session : web_session :=
  mkWebSession None false None None None None None None None None.

(* A member of group 1 with the password pw, waiting for approval. *)
Definition waiting_member : Member :=
  mkMember 9 (Some 1) "newdealer" (sample_hash "pw") (Some "새상사"%string) None
    (Some "444-44-44444"%string) None (Some "이대표"%string) None None None None
    (Some "법인"%string) false (Some ApprovalApplied) (Some "member"%string) None.

Definition login_db : database :=
  mkDatabase
    [mkPartnerGroup 1 "부산조합" "busan" (sample_hash "adminpw") "111-11-11111"
       "대표" "051-000-0000" None None None None None None None]
    [sample_member; waiting_member] [fresh_app].

Definition approving_form : member_form :=
  mkMemberForm "새상사" "newdealer" "" "" "444-44-44444" "" "이대표" "" "" ""
    (Some "승인"%string) "".

(** ** admin_administrators *)

(* The fields of the administrator form, text fields after [.strip()];
   [adf_is_active] is the test  is_active == 'on'. *)
Record admin_form := mkAdminForm {
  adf_name : string;
  adf_username : string;
  adf_password : string;
  adf_is_active : bool;
  adf_permission : option string
}.

Inductive admin_action :=
  | CreateAdmin
  | SaveAdmin (admin_id : int_field)
  | DeleteAdmin (admin_id : int_field)
  | OtherAdminAction.

(* CheckConstraint role IN ('member','admin','partner_admin') *)
Definition role_allowed (r : string) : bool :=
  String.eqb r "member" || String.eqb r "admin" || String.eqb r "partner_admin".

(* 'admin' if permission == 'admin' else 'viewer' *)
Definition permission_role (permission : option string) : string :=
  if opt_str_eqb permission "admin" then "admin"%string else "viewer"%string.

Definition active_approval (is_active : bool) : approval :=
  if is_active then ApprovalApproved else ApprovalApplied.

Section Administrators.
Variable generate_password_hash : string -> string.

(* admin_administrators (behind admin_required), POST, on the member
   table; [None] stands for an exception leaving the view (ValueError of
   int).  A commit fails when safe_commit does ([commit_ok]) and on the
   role constraint of the table. *)
Definition admin_administrators (current_user_id : Z) (commit_ok : bool)
    (action : admin_action) (form : admin_form) (ms : list Member)
  : option member_outcome :=
  let back := "admin_administrators"%string in
  let role := permission_role (adf_permission form) in
  let edit (admin_id : int_field) (k : Member -> member_outcome)
    : option member_outcome :=
    match admin_id with
    | IntAbsent => Some (mkMemberOutcome ms [] back)
    | IntMalformed => None
    | IntOk i =>
        match get_member i ms with
        | Some admin =>
            if is_none (member_partner_group_id admin) then Some (k admin)
            else Some (mkMemberOutcome ms [] back)
        | None => Some (mkMemberOutcome ms [] back)
        end
    end in
  match action with
  | CreateAdmin =>
    if is_empty (adf_name form) || is_empty (adf_username form)
       || is_empty (adf_password form) then
      Some (mkMemberOutcome ms [mkFlash "이름, 아이디, 비밀번호는 필수입니다." "warning"]
              back)
    else if existsb (fun m => String.eqb (username m) (adf_username form)
                              && is_none (member_partner_group_id m)) ms then
      Some (mkMemberOutcome ms [mkFlash "이미 존재하는 아이디입니다." "danger"] back)
    else
      let admin :=
        mkMember (next_id (map member_id ms)) None (adf_username form)
          (generate_password_hash (adf_password form)) (Some (adf_name form))
          None None None (Some (adf_name form)) None None None None
          (Some "법인"%string) false (Some (active_approval (adf_is_active form)))
          (Some role) None in
      if commit_ok && role_allowed role then
        Some (mkMemberOutcome (ms ++ [admin])
                [mkFlash "관리자가 추가되었습니다." "success"] back)
      else
        Some (mkMemberOutcome ms [mkFlash "관리자 추가 중 오류가 발생했습니다." "danger"]
                back)
  | DeleteAdmin admin_id =>
    edit admin_id (fun admin =>
      if member_id admin =? current_user_id then
        mkMemberOutcome ms [mkFlash "자기 자신은 삭제할 수 없습니다." "warning"] back
      else if commit_ok then
        mkMemberOutcome (delete_member (member_id admin) ms)
          [mkFlash "관리자가 삭제되었습니다." "success"] back
      else
        mkMemberOutcome ms [mkFlash "삭제 처리 중 오류가 발생했습니다." "danger"] back)
  | SaveAdmin admin_id =>
    edit admin_id (fun admin =>
      let admin :=
        mkMember (member_id admin) (member_partner_group_id admin)
          (adf_username form)
          (if is_empty (adf_password form) then password_hash admin
           else generate_password_hash (adf_password form))
          (Some (adf_name form)) (address admin) (business_number admin)
          (corporation_number admin) (Some (adf_name form)) (phone admin)
          (mobile admin) (email admin) (registration_cert_path admin)
          (member_type admin) (privacy_agreement admin)
          (Some (active_approval (adf_is_active form))) (Some role)
          (member_memo admin) in
      if commit_ok && role_allowed role then
        mkMemberOutcome (put_member admin ms)
          [mkFlash "관리자 정보가 저장되었습니다." "success"] back
      else
        mkMemberOutcome ms [mkFlash "저장 처리 중 오류가 발생했습니다." "danger"] back)
  | OtherAdminAction => Some (mkMemberOutcome ms [] back)
  end.
End Administrators.

(* the members that belong to a partner group *)
Definition group_members (ms : list Member) : list Member :=
  filter (fun m => negb (is_none (member_partner_group_id m))) ms.

Definition viewer_form : admin_form :=
  mkAdminForm "열람자" "viewer1" "pw" true (Some "viewer"%string).

(** * Theorems *)

(* 2024-03-15, the scenario of the specification *)
Example ymd2ord_2024_03_15 : _ord2ymd (_ymd2ord 2024 3 15 + 30) = (2024, 4, 14).
Proof. reflexivity. Qed.

Example ord2ymd_roundtrips :
  map (fun '(y, m, d) => _ord2ymd (_ymd2ord y m d))
    [(2024, 2, 29); (2023, 12, 31); (2000, 1, 1); (1900, 3, 1); (2100, 12, 31);
     (1, 1, 1); (2024, 1, 1)]
  = [(2024, 2, 29); (2023, 12, 31); (2000, 1, 1); (1900, 3, 1); (2100, 12, 31);
     (1, 1, 1); (2024, 1, 1)].
Proof. reflexivity. Qed.

(* date(1970, 1, 1).toordinal() == 719163 *)
Example ymd2ord_epoch : _ymd2ord 1970 1 1 = 719163.
Proof. reflexivity. Qed.

Example now_year_month :
  dt_year (datetime_now (clock_at 2024 12 31 23 59)) = 2024
  /\ dt_month (datetime_now (clock_at 2024 12 31 23 59)) = 12.
Proof. split; reflexivity. Qed.

(** ** Time *)

Lemma ensure_aware_Some (d : datetime) : _ensure_aware (Some d) = Some (aware d).
Proof. unfold _ensure_aware, aware. destruct (tzinfo d); reflexivity. Qed.

Lemma aware_idem (d : datetime) : aware (aware d) = aware d.
Proof. unfold aware. destruct d as [w [o|]]; reflexivity. Qed.

Lemma aware_midnight (d : date) : aware (midnight d) = midnight d.
Proof. reflexivity. Qed.

Lemma dt_ge_lt (a b : datetime) : dt_lt a b = negb (dt_ge a b).
Proof. unfold dt_lt, dt_ge. apply Z.ltb_antisym. Qed.


Lemma dt_add_Some (dt : datetime) (td : timedelta) (e : datetime) :
  dt_add dt td = Some e -> e = mkDatetime (wall dt + td) (tzinfo dt).
Proof.
  unfold dt_add. destruct (_ && _); [|discriminate]. congruence.
Qed.

Lemma dt_add_tzinfo (dt : datetime) (td : timedelta) (e : datetime) :
  dt_add dt td = Some e -> tzinfo e = tzinfo dt.
Proof. intros H. apply dt_add_Some in H. subst e. reflexivity. Qed.

Lemma dt_add_aware (dt : datetime) (td : timedelta) (e : datetime) :
  dt_add (aware dt) td = Some e -> aware e = e.
Proof.
  intros H. apply dt_add_Some in H. subst e.
  destruct dt as [w [o|]]; reflexivity.
Qed.

(* date.max is 9999-12-31 *)
Example ymd2ord_max : _ymd2ord 9999 12 31 = _MAXORDINAL.
Proof. reflexivity. Qed.

Example dt_add_range :
  dt_add (midnight (mkDate 9999 12 1)) (timedelta_days 30)
  = Some (midnight (mkDate 9999 12 31))
  /\ dt_add (midnight (mkDate 9999 12 2)) (timedelta_days 30) = None
  /\ dt_add (midnight (mkDate 1 1 1)) (timedelta_days (-1)) = None.
Proof. repeat split. Qed.
(** ** recompute_status *)

Lemma status_set_status (s : app_status) (a : InsuranceApplication) :
  status (set_status s a) = s.
Proof. reflexivity. Qed.

Ltac split_bools :=
  repeat match goal with
         | |- context [if ?c then _ else _] =>
             lazymatch type of c with bool => destruct c eqn:? end
         end.

Ltac aware_norm :=
  repeat match goal with
         | |- context [_ensure_aware (Some ?x)] => rewrite (ensure_aware_Some x)
         end.

Lemma recompute_status_phases (clock : Z) (a : InsuranceApplication) :
  recompute_status clock a
  = match activate clock a with
    | Returned x => Returned (expire clock (_ensure_aware (end_at a)) x)
    | Raised x => Raised x
    end.
Proof.
  unfold recompute_status, activate, expire, midnight.
  destruct (status a); try reflexivity;
    (destruct (_ensure_aware (approved_at a)) as [t|]; [|reflexivity]);
    (destruct (dt_add t _); [|reflexivity]);
    (destruct (dt_ge _ _); [|reflexivity]);
    simpl; (destruct (start_at a); [reflexivity|]);
    destruct (dt_add _ _); reflexivity.
Qed.

Lemma activate_settled (clock : Z) (a : InsuranceApplication) :
  status a = Active \/ status a = Expired -> activate clock a = Returned a.
Proof. unfold activate. intros [H|H]; rewrite H; reflexivity. Qed.

Lemma activate_cases (clock : Z) (a : InsuranceApplication) :
  activate clock a = Returned a
  \/ (pending (status a) /\ start_at a <> None
      /\ activate clock a = Returned (set_status Active a))
  \/ (pending (status a) /\ start_at a = None
      /\ exists e,
           dt_add (midnight (desired_start_date a)) (timedelta_days 30) = Some e
           /\ activate clock a = Returned (set_end_at (Some e) (started a)))
  \/ (pending (status a)
      /\ (exists t, approved_at a = Some t
                    /\ dt_add (aware t) (timedelta_hours 2) = None)
      /\ activate clock a = Raised a)
  \/ (pending (status a) /\ start_at a = None
      /\ dt_add (midnight (desired_start_date a)) (timedelta_days 30) = None
      /\ activate clock a = Raised (started a)).
Proof.
  unfold activate, started, pending.
  destruct (status a); auto;
    (destruct (approved_at a) as [t|] eqn:Ht;
     [rewrite ensure_aware_Some|simpl; auto]);
    (destruct (dt_add (aware t) _) eqn:Hd;
     [|right; right; right; left; eauto 6]);
    (destruct (dt_ge _ _); [|auto]);
    (destruct (start_at a) eqn:Hs;
     [right; left; split; [auto|split; [discriminate|reflexivity]]|]);
    (destruct (dt_add (midnight _) _) eqn:He;
     [right; right; left; eauto 6|right; right; right; right; auto]).
Qed.

(* the dates in range: the activation returns *)
Lemma activate_in_range (clock : Z) (a : InsuranceApplication) :
  in_range a -> exists x, activate clock a = Returned x.
Proof.
  intros [H1 H2].
  destruct (activate_cases clock a)
    as [E|[(_ & _ & E)|[(_ & _ & e & _ & E)|[(_ & (t & Ht & Hd) & _)|(_ & Hs & He & _)]]]];
    eauto.
  - exfalso. exact (H1 t Ht Hd).
  - exfalso. exact (H2 Hs He).
Qed.

Lemma recompute_status_in_range (clock : Z) (a : InsuranceApplication) :
  in_range a -> exists r, recompute_status clock a = Returned r.
Proof.
  intros H. rewrite recompute_status_phases.
  destruct (activate_in_range clock a H) as [x ->]. eauto.
Qed.

Lemma expire_settled (clock : Z) (e : option datetime) (a : InsuranceApplication) :
  status a = Active \/ status a = Expired ->
  status (expire clock e a) = Active \/ status (expire clock e a) = Expired.
Proof.
  unfold expire. destruct e as [e|]; auto. destruct (dt_ge _ _); auto.
Qed.

Lemma end_at_expire (clock : Z) (e : option datetime) (a : InsuranceApplication) :
  end_at (expire clock e a) = end_at a.
Proof. unfold expire. destruct e as [e|]; auto. destruct (dt_ge _ _); auto. Qed.

Lemma expire_twice (clock : Z) (e : option datetime) (a : InsuranceApplication) :
  expire clock e (expire clock e a) = expire clock e a.
Proof.
  unfold expire. destruct e as [e|]; auto. destruct (dt_ge _ _) eqn:H; rewrite ?H; auto.
Qed.

Lemma expire_ahead (clock : Z) (e : datetime) (a : InsuranceApplication) :
  dt_ge (datetime_now clock) e = false -> expire clock (Some e) a = a.
Proof. unfold expire. intros ->. reflexivity. Qed.

Lemma expire_cases (clock : Z) (e : option datetime) (x : InsuranceApplication) :
  expire clock e x = x \/ expire clock e x = set_status Expired x.
Proof.
  unfold expire. destruct e as [e|]; auto. destruct (dt_ge _ _); auto.
Qed.

Lemma activate_expire (clock : Z) (e : option datetime) (a : InsuranceApplication) :
  activate clock a = Returned a ->
  activate clock (expire clock e a) = Returned (expire clock e a).
Proof.
  intros E. unfold expire. destruct e as [e|]; auto.
  destruct (dt_ge _ _); auto.
Qed.

Lemma recompute_status_twice (clock : Z) (a r : InsuranceApplication) :
  start_at a <> None
  \/ (forall e,
        dt_add (midnight (desired_start_date a)) (timedelta_days 30) = Some e ->
        dt_ge (datetime_now clock) e = false) ->
  recompute_status clock a = Returned r ->
  recompute_status clock r = Returned r.
Proof.
  intros H. rewrite recompute_status_phases.
  destruct (activate_cases clock a)
    as [E|[(_ & Hs & E)|[(_ & Hs & e & He & E)|[(_ & _ & E)|(_ & _ & _ & E)]]]];
    rewrite E; try discriminate; intros R; injection R as <-;
    rewrite recompute_status_phases.
  - rewrite activate_expire by exact E.
    rewrite end_at_expire, expire_twice. reflexivity.
  - rewrite activate_settled by (apply expire_settled; left; reflexivity).
    rewrite end_at_expire, expire_twice. reflexivity.
  - rewrite activate_settled by (apply expire_settled; left; reflexivity).
    rewrite end_at_expire.
    destruct H as [H|H]; [congruence|].
    change (_ensure_aware (end_at (set_end_at (Some e) (started a))))
      with (_ensure_aware (Some e)).
    rewrite ensure_aware_Some.
    replace (aware e) with e
      by (symmetry; apply (dt_add_aware (midnight (desired_start_date a)) _ e He)).
    rewrite expire_ahead by (apply H, He). reflexivity.
Qed.

Lemma status_rank_recompute (clock : Z) (a : InsuranceApplication) :
  status_rank (status a)
  <= status_rank (status (object_after (recompute_status clock a))).
Proof.
  rewrite recompute_status_phases.
  destruct (activate_cases clock a)
    as [E|[(P & Hs & E)|[(P & Hs & e & He & E)|[(P & _ & E)|(P & _ & _ & E)]]]];
    rewrite E; cbn [object_after];
    try (destruct (expire_cases clock (_ensure_aware (end_at a)) a) as [X|X];
         rewrite X);
    try (destruct (expire_cases clock (_ensure_aware (end_at a))
                     (set_status Active a)) as [X|X]; rewrite X);
    try (destruct (expire_cases clock (_ensure_aware (end_at a))
                     (set_end_at (Some e) (started a))) as [X|X]; rewrite X);
    try (destruct P as [P|P]; rewrite P);
    simpl; try (destruct (status a)); simpl; lia.
Qed.

(* what a recomputation leaves alone: everything but status, start_at and
   end_at, also on the object it leaves when it raises *)
Lemma recompute_status_writes (clock : Z) (a : InsuranceApplication) :
  set_end_at (end_at a)
    (set_start_at (start_at a)
       (set_status (status a) (object_after (recompute_status clock a)))) = a.
Proof.
  rewrite recompute_status_phases.
  destruct (activate_cases clock a)
    as [E|[(_ & _ & E)|[(_ & _ & e & _ & E)|[(_ & _ & E)|(_ & _ & _ & E)]]]];
    rewrite E; cbn [object_after];
    try (destruct (expire_cases clock (_ensure_aware (end_at a)) a) as [X|X];
         rewrite X);
    try (destruct (expire_cases clock (_ensure_aware (end_at a))
                     (set_status Active a)) as [X|X]; rewrite X);
    try (destruct (expire_cases clock (_ensure_aware (end_at a))
                     (set_end_at (Some e) (started a))) as [X|X]; rewrite X);
    destruct a; reflexivity.
Qed.

Lemma recompute_status_id (clock : Z) (a : InsuranceApplication) :
  id (object_after (recompute_status clock a)) = id a.
Proof.
  pose proof (recompute_status_writes clock a) as H.
  apply (f_equal id) in H. exact H.
Qed.

Lemma recompute_status_approved_at (clock : Z) (a : InsuranceApplication) :
  approved_at (object_after (recompute_status clock a)) = approved_at a.
Proof.
  pose proof (recompute_status_writes clock a) as H.
  apply (f_equal approved_at) in H. exact H.
Qed.

Lemma recompute_status_keeps_window (clock : Z) (a : InsuranceApplication) :
  start_at a <> None ->
  start_at (object_after (recompute_status clock a)) = start_at a
  /\ end_at (object_after (recompute_status clock a)) = end_at a.
Proof.
  intros H. rewrite recompute_status_phases.
  destruct (activate_cases clock a)
    as [E|[(_ & _ & E)|[(_ & Hs & _)|[(_ & _ & E)|(_ & Hs & _)]]]];
    try congruence; rewrite E; cbn [object_after];
    try (destruct (expire_cases clock (_ensure_aware (end_at a)) a) as [X|X];
         rewrite X);
    try (destruct (expire_cases clock (_ensure_aware (end_at a))
                     (set_status Active a)) as [X|X]; rewrite X);
    split; reflexivity.
Qed.

(** C2, as amended.  Let end_at be T (read as Seoul time when stored
    without zone) and now >= T.  Whenever the recomputation returns, the
    status it leaves is expired, whatever the stored status and the other
    fields; it returns whenever the dates it adds to stay inside the range
    of datetime; and when it raises instead, the status it leaves on the
    object is not expired. *)
Theorem recompute_status_expired (clock : Z) (self : InsuranceApplication)
    (T : datetime) :
  end_at self = Some T ->
  dt_ge (datetime_now clock) (aware T) = true ->
  (forall r, recompute_status clock self = Returned r -> status r = Expired)
  /\ (in_range self ->
      exists r, recompute_status clock self = Returned r /\ status r = Expired)
  /\ (forall x, recompute_status clock self = Raised x ->
                pending (status self) /\ status x <> Expired).
Proof.
  intros Hend Hge.
  assert (Hr : forall r, recompute_status clock self = Returned r ->
                         status r = Expired).
  { intros r. rewrite recompute_status_phases.
    destruct (activate clock self); [|discriminate].
    intros R; injection R as <-.
    unfold expire. rewrite Hend, ensure_aware_Some, Hge. reflexivity. }
  split; [exact Hr|split].
  - intros H. destruct (recompute_status_in_range clock self H) as [r E].
    exists r. split; [exact E|apply Hr, E].
  - intros x. rewrite recompute_status_phases.
    destruct (activate_cases clock self)
      as [E|[(_ & Hs & E)|[(_ & Hs & e & He & E)|[(P & _ & E)|(P & _ & _ & E)]]]];
      rewrite E; try discriminate; intros R; injection R as <-;
      (split; [exact P|]).
    + destruct P as [P|P]; rewrite P; discriminate.
    + discriminate.
Qed.

Lemma recompute_status_expired_witness :
  exists r, recompute_status (clock_at 2024 4 14 0 0) running_app = Returned r
            /\ status r = Expired.
Proof.
  apply (recompute_status_expired (clock_at 2024 4 14 0 0) running_app
           (kst_at 2024 4 14 0 0)); [reflexivity|reflexivity|].
  split; [intros t Ht; injection Ht as <-|intros H]; discriminate.
Defined.

(** C2 as stated fails: an application with a desired start of 9999-12-15
    that was approved without a window (the overview form stores
    approved_at alone) and whose end_at was entered in the edit form is
    recomputed after that end.  The activation adds thirty days to the
    desired start, which raises OverflowError before the expiry test: the
    object is left active, not expired. *)
Lemma recompute_status_expired_counterexample :
  end_at far_dated_app = Some (kst_at 2024 4 14 0 0)
  /\ valid_date (desired_start_date far_dated_app) = true
  /\ dt_ge (datetime_now (clock_at 2024 5 1 0 0)) (aware (kst_at 2024 4 14 0 0))
     = true
  /\ recompute_status (clock_at 2024 5 1 0 0) far_dated_app
     = Raised (set_start_at (Some (kst_at 9999 12 15 0 0))
                 (set_status Active far_dated_app)).
Proof. repeat split. Qed.

(** C1, as amended.  Let approved_at be T and start_at be unset, with
    T + 2 hours inside the range of datetime.  A recomputation before
    T + 2 hours returns and never newly makes the application active.
    From T + 2 hours on, an application whose stored status is applied or
    union_approved, whose end_at is unset or still ahead of now, and whose
    desired_start_date + 30 days is inside the range of datetime, becomes
    active with start_at at Seoul midnight of desired_start_date and end_at
    thirty days later.  When desired_start_date + 30 days is outside the
    range, the recomputation of such an application raises, leaving the
    object active with start_at set and end_at as it was. *)
Theorem recompute_status_activation (clock : Z) (self : InsuranceApplication)
    (T due : datetime) :
  approved_at self = Some T ->
  start_at self = None ->
  dt_add (aware T) (timedelta_hours 2) = Some due ->
  let now := datetime_now clock in
  let start := midnight (desired_start_date self) in
  (dt_ge now due = false ->
   exists r, recompute_status clock self = Returned r
             /\ (status r = Active -> status self = Active))
  /\ (dt_ge now due = true ->
      pending (status self) ->
      (forall e, end_at self = Some e -> dt_ge now (aware e) = false) ->
      forall e, dt_add start (timedelta_days 30) = Some e ->
      exists r, recompute_status clock self = Returned r
                /\ status r = Active
                /\ start_at r = Some start
                /\ end_at r = Some e)
  /\ (dt_ge now due = true ->
      pending (status self) ->
      dt_add start (timedelta_days 30) = None ->
      exists x, recompute_status clock self = Raised x
                /\ status x = Active
                /\ start_at x = Some start
                /\ end_at x = end_at self).
Proof.
  intros Happr Hstart Hdue now start. subst now start.
  unfold recompute_status. rewrite Happr, ensure_aware_Some, Hdue.
  split; [|split].
  - intros Hearly. rewrite Hearly.
    destruct (end_at self) as [e|]; [rewrite ensure_aware_Some|]; simpl;
      destruct (status self) eqn:Hs; split_bools; simpl;
      eexists; (split; [reflexivity|]); simpl; rewrite ?Hs; congruence.
  - intros Hd [Hst|Hst] Hend e He; rewrite Hst, Hd; simpl; rewrite Hstart;
      fold (midnight (desired_start_date self)); rewrite He;
      (destruct (end_at self) as [e'|] eqn:He';
       [ rewrite ensure_aware_Some, (Hend e' eq_refl) | ]; simpl;
       eexists; (split; [reflexivity|]); simpl; auto).
  - intros Hd [Hst|Hst] He; rewrite Hst, Hd; simpl; rewrite Hstart;
      fold (midnight (desired_start_date self)); rewrite He;
      eexists; (split; [reflexivity|]); simpl; auto.
Qed.

Lemma recompute_status_activation_witness :
  (exists r, recompute_status (clock_at 2024 3 1 11 59) scenario_app = Returned r
             /\ (status r = Active -> status scenario_app = Active))
  /\ (exists r, recompute_status (clock_at 2024 3 1 12 1) scenario_app = Returned r
                /\ status r = Active
                /\ start_at r = Some (kst_at 2024 3 15 0 0)
                /\ end_at r = Some (kst_at 2024 4 14 0 0)).
Proof.
  split.
  - apply (recompute_status_activation (clock_at 2024 3 1 11 59) scenario_app
             (kst_at 2024 3 1 10 0) (kst_at 2024 3 1 12 0) eq_refl eq_refl eq_refl).
    reflexivity.
  - apply (recompute_status_activation (clock_at 2024 3 1 12 1) scenario_app
             (kst_at 2024 3 1 10 0) (kst_at 2024 3 1 12 0) eq_refl eq_refl eq_refl).
    + reflexivity.
    + right; reflexivity.
    + intros e He; discriminate He.
    + reflexivity.
Defined.

(** C1 as stated fails: an active application with approved_at set and
    start_at unset (blanked in the administrator's edit form) keeps
    start_at and end_at unset when recomputed after T + 2 hours. *)
Lemma recompute_status_activation_counterexample :
  approved_at active_blanked_app = Some (kst_at 2024 3 1 10 0)
  /\ start_at active_blanked_app = None
  /\ dt_add (kst_at 2024 3 1 10 0) (timedelta_hours 2) = Some (kst_at 2024 3 1 12 0)
  /\ dt_ge (datetime_now (clock_at 2024 3 1 13 0)) (kst_at 2024 3 1 12 0) = true
  /\ recompute_status (clock_at 2024 3 1 13 0) active_blanked_app
     = Returned active_blanked_app
  /\ start_at active_blanked_app = None
  /\ end_at active_blanked_app = None.
Proof. repeat split. Qed.




(* The expiry test reads end_at before the activation writes it: an
   application activated with a window that is already over is active after
   one recomputation and expired after the second, at the same now. *)
Lemma recompute_status_twice_backdated :
  exists r r',
    recompute_status (clock_at 2024 3 1 12 1) backdated_app = Returned r
    /\ status r = Active
    /\ recompute_status (clock_at 2024 3 1 12 1) r = Returned r'
    /\ status r' = Expired.
Proof. do 2 eexists. repeat split. Qed.
(** ** Table lemmas *)

Lemma get_app_id (i : Z) (t : app_table) (a : InsuranceApplication) :
  get_app i t = Some a -> id a = i.
Proof.
  unfold get_app. intros H. apply find_some in H. destruct H as [_ H].
  apply Z.eqb_eq, H.
Qed.

Lemma get_app_In (i : Z) (t : app_table) (a : InsuranceApplication) :
  get_app i t = Some a -> In a t.
Proof. unfold get_app. intros H. apply find_some in H. apply H. Qed.

Lemma get_app_put_app (i : Z) (t : app_table) (a a' : InsuranceApplication) :
  get_app i t = Some a -> id a' = i -> get_app i (put_app a' t) = Some a'.
Proof.
  unfold get_app, put_app. intros H Hid. subst i.
  induction t as [|x t IH]; simpl in *; [discriminate|].
  destruct (id x =? id a') eqn:E.
  - simpl. rewrite Z.eqb_refl. reflexivity.
  - simpl. rewrite E. apply IH, H.
Qed.

Lemma get_app_delete_app (i : Z) (t : app_table) :
  get_app i (delete_app i t) = None.
Proof.
  unfold get_app, delete_app.
  induction t as [|x t IH]; simpl; [reflexivity|].
  destruct (id x =? i) eqn:E; simpl; [exact IH|]. rewrite E. exact IH.
Qed.


(** ** Loops whose body may raise *)

Lemma for_each_cons {A} (body : A -> option A) (x : A) (l l' : list A) :
  for_each body (x :: l) = Some l' ->
  exists y l'', body x = Some y /\ for_each body l = Some l'' /\ l' = y :: l''.
Proof.
  simpl. destruct (body x) as [y|]; [|discriminate].
  destruct (for_each body l) as [l''|]; [|discriminate].
  intros H. injection H as <-. eauto.
Qed.

Lemma for_each_map {A} (body : A -> option A) (g : A -> A) (l : list A) :
  (forall x, In x l -> body x = Some (g x)) -> for_each body l = Some (map g l).
Proof.
  induction l as [|x l IH]; simpl; intros H; [reflexivity|].
  rewrite (H x) by auto. rewrite IH by auto. reflexivity.
Qed.

Lemma for_each_same {A} (body : A -> option A) (l : list A) :
  (forall x, In x l -> body x = Some x) -> for_each body l = Some l.
Proof.
  intros H. rewrite (for_each_map body (fun x => x)) by exact H.
  rewrite map_id. reflexivity.
Qed.

Lemma for_each_returns {A} (body : A -> option A) (l : list A) :
  (forall x, In x l -> body x <> None) -> exists l', for_each body l = Some l'.
Proof.
  induction l as [|x l IH]; simpl; intros H; [eauto|].
  destruct (body x) as [y|] eqn:E; [|exfalso; apply (H x); auto].
  destruct IH as [l' ->]; eauto.
Qed.

Lemma for_each_raises {A} (body : A -> option A) (l : list A) (x : A) :
  In x l -> body x = None -> for_each body l = None.
Proof.
  induction l as [|y l IH]; simpl; [contradiction|].
  intros [->|H] E.
  - rewrite E. reflexivity.
  - rewrite (IH H E). destruct (body y); reflexivity.
Qed.

Lemma for_each_In {A} (body : A -> option A) (l l' : list A) (x : A) :
  for_each body l = Some l' -> In x l ->
  exists y, body x = Some y /\ In y l'.
Proof.
  revert l'. induction l as [|z l IH]; simpl; [contradiction|].
  intros l' H Hx. apply for_each_cons in H.
  destruct H as (y & l'' & Hy & Hl & ->).
  destruct Hx as [->|Hx]; [exists y; simpl; auto|].
  destruct (IH l'' Hl Hx) as (y' & H1 & H2). exists y'. simpl; auto.
Qed.

Lemma for_each_In_inv {A} (body : A -> option A) (l l' : list A) (y : A) :
  for_each body l = Some l' -> In y l' ->
  exists x, In x l /\ body x = Some y.
Proof.
  revert l'. induction l as [|z l IH]; simpl.
  - intros l' H. injection H as <-. contradiction.
  - intros l' H Hy. apply for_each_cons in H.
    destruct H as (y0 & l'' & Hy0 & Hl & ->).
    destruct Hy as [<-|Hy]; [exists z; auto|].
    destruct (IH l'' Hl Hy) as (x & H1 & H2). exists x; auto.
Qed.

Lemma for_each_map_eq {A B} (body : A -> option A) (h : A -> B) (l l' : list A) :
  (forall x y, In x l -> body x = Some y -> h y = h x) ->
  for_each body l = Some l' -> map h l' = map h l.
Proof.
  revert l'. induction l as [|z l IH]; simpl; intros l' Hh H.
  - injection H as <-. reflexivity.
  - apply for_each_cons in H. destruct H as (y & l'' & Hy & Hl & ->).
    simpl. rewrite (Hh z y) by auto. rewrite (IH l'') by auto. reflexivity.
Qed.

Lemma for_each_filter {A} (body : A -> option A) (p : A -> bool) (l l' : list A) :
  (forall x y, In x l -> body x = Some y ->
               y = x \/ (p x = false /\ p y = false)) ->
  for_each body l = Some l' -> filter p l' = filter p l.
Proof.
  revert l'. induction l as [|z l IH]; simpl; intros l' Hp H.
  - injection H as <-. reflexivity.
  - apply for_each_cons in H. destruct H as (y & l'' & Hy & Hl & ->).
    simpl. rewrite (IH l'') by auto.
    destruct (Hp z y) as [->|[E1 E2]]; auto. rewrite E1, E2. reflexivity.
Qed.

Lemma for_each_get_app (body : InsuranceApplication -> option InsuranceApplication)
    (t t' : app_table) (i : Z) :
  (forall x y, In x t -> body x = Some y -> id y = id x) ->
  for_each body t = Some t' ->
  match get_app i t with
  | Some r => exists r', body r = Some r' /\ get_app i t' = Some r'
  | None => get_app i t' = None
  end.
Proof.
  unfold get_app. revert t'. induction t as [|z t IH]; simpl; intros t' Hid H.
  - injection H as <-. reflexivity.
  - apply for_each_cons in H. destruct H as (y & t'' & Hy & Hl & ->).
    simpl. rewrite (Hid z y) by auto.
    destruct (id z =? i); [eauto|]. apply IH; auto.
Qed.
(** ** The approval blocks *)

Lemma partner_approve_one_stamp (now : datetime) (a r : InsuranceApplication) :
  partner_approve_one now a = Some r ->
  approved_at r = Some now
  /\ status r = UnionApproved
  /\ id r = id a
  /\ partner_group_id r = partner_group_id a.
Proof.
  unfold partner_approve_one.
  destruct a as [i g c d [st|] [en|] ap ic cc cp v cn cr pr s m pp pu cb]; simpl;
    try destruct (dt_add _ _); intros H; try discriminate;
    injection H as <-; repeat split.
Qed.

Lemma admin_approve_one_stamp (now : datetime) (a r : InsuranceApplication) :
  admin_approve_one now a = Some r ->
  approved_at r = Some now
  /\ status r = UnionApproved
  /\ id r = id a.
Proof.
  unfold admin_approve_one.
  destruct a as [i g c d [st|] en ap ic cc cp v cn cr pr s m pp pu cb]; simpl;
    try destruct (dt_add _ _); intros H; try discriminate;
    injection H as <-; repeat split.
Qed.

(* an approval writes approved_at, status, start_at and end_at, nothing
   else *)
Lemma partner_approve_one_frame (now : datetime) (a r : InsuranceApplication) :
  partner_approve_one now a = Some r ->
  set_end_at (end_at a)
    (set_start_at (start_at a)
       (set_status (status a) (set_approved_at (approved_at a) r))) = a.
Proof.
  unfold partner_approve_one.
  destruct a as [i g c d [st|] [en|] ap ic cc cp v cn cr pr s m pp pu cb]; simpl;
    try destruct (dt_add _ _); intros H; try discriminate;
    injection H as <-; reflexivity.
Qed.

Lemma admin_approve_one_frame (now : datetime) (a r : InsuranceApplication) :
  admin_approve_one now a = Some r ->
  set_end_at (end_at a)
    (set_start_at (start_at a)
       (set_status (status a) (set_approved_at (approved_at a) r))) = a.
Proof.
  unfold admin_approve_one.
  destruct a as [i g c d [st|] en ap ic cc cp v cn cr pr s m pp pu cb]; simpl;
    try destruct (dt_add _ _); intros H; try discriminate;
    injection H as <-; reflexivity.
Qed.

(* an approval returns exactly when the thirty days it adds stay inside the
   range of datetime; the time of the approval plays no part *)
Lemma partner_approve_one_returns (now : datetime) (a : InsuranceApplication) :
  partner_approvable a <-> partner_approve_one now a <> None.
Proof.
  unfold partner_approvable, partner_approve_one.
  destruct a as [i g c d [st|] [en|] ap ic cc cp v cn cr pr s m pp pu cb]; simpl;
    try (split; [discriminate|intros _ H; discriminate H]);
    (split; [intros H; specialize (H eq_refl)|intros H _]);
    fold (midnight d) in *; destruct (dt_add _ _); congruence.
Qed.

Lemma admin_approve_one_returns (now : datetime) (a : InsuranceApplication) :
  admin_approvable a <-> admin_approve_one now a <> None.
Proof.
  unfold admin_approvable, admin_approve_one.
  destruct a as [i g c d [st|] en ap ic cc cp v cn cr pr s m pp pu cb]; simpl;
    try (split; [discriminate|intros _ H; discriminate H]);
    (split; [intros H; specialize (H eq_refl)|intros H _]);
    fold (midnight d) in *; destruct (dt_add _ _); congruence.
Qed.

Lemma partner_approve_one_Some (now : datetime) (a : InsuranceApplication) :
  partner_approvable a -> exists r, partner_approve_one now a = Some r.
Proof.
  intros H. apply (partner_approve_one_returns now) in H.
  destruct (partner_approve_one now a) as [r|]; [eauto|congruence].
Qed.

Lemma admin_approve_one_Some (now : datetime) (a : InsuranceApplication) :
  admin_approvable a -> exists r, admin_approve_one now a = Some r.
Proof.
  intros H. apply (admin_approve_one_returns now) in H.
  destruct (admin_approve_one now a) as [r|]; [eauto|congruence].
Qed.

Lemma partner_approve_one_None (now now' : datetime) (a : InsuranceApplication) :
  partner_approve_one now a = None -> partner_approve_one now' a = None.
Proof.
  intros H. destruct (partner_approve_one now' a) eqn:E; [|reflexivity].
  exfalso. assert (Hp : partner_approvable a).
  { apply (partner_approve_one_returns now'). congruence. }
  apply (partner_approve_one_returns now) in Hp. congruence.
Qed.

Lemma admin_approve_one_None (now now' : datetime) (a : InsuranceApplication) :
  admin_approve_one now a = None -> admin_approve_one now' a = None.
Proof.
  intros H. destruct (admin_approve_one now' a) eqn:E; [|reflexivity].
  exfalso. assert (Hp : admin_approvable a).
  { apply (admin_approve_one_returns now'). congruence. }
  apply (admin_approve_one_returns now) in Hp. congruence.
Qed.

Lemma partner_approve_one_window (now : datetime) (a : InsuranceApplication)
    (e : datetime) :
  start_at a = None -> end_at a = None ->
  dt_add (midnight (desired_start_date a)) (timedelta_days 30) = Some e ->
  exists r, partner_approve_one now a = Some r /\ window_fixed now a r.
Proof.
  unfold partner_approve_one.
  destruct a as [i g c d st en ap ic cc cp v cn cr pr s m pp pu cb]; simpl.
  intros -> -> He. simpl. fold (midnight d). rewrite He.
  eexists. split; [reflexivity|]. repeat split. exists e. auto.
Qed.

Lemma admin_approve_one_window (now : datetime) (a : InsuranceApplication)
    (e : datetime) :
  start_at a = None ->
  dt_add (midnight (desired_start_date a)) (timedelta_days 30) = Some e ->
  exists r, admin_approve_one now a = Some r /\ window_fixed now a r.
Proof.
  unfold admin_approve_one.
  destruct a as [i g c d st en ap ic cc cp v cn cr pr s m pp pu cb]; simpl.
  intros -> He. simpl. fold (midnight d). rewrite He.
  eexists. split; [reflexivity|]. repeat split. exists e. auto.
Qed.
(** ** What the approval actions store *)

Lemma partner_session_gate (sess : session) (g : Z) :
  partner_session sess g ->
  opt_str_eqb (user_type sess) "partner_admin" = true
  /\ session_partner_group_id sess = Some g /\ (g =? 0) = false.
Proof.
  intros (Hu & Hg & Hz). rewrite Hu. repeat split; auto.
  apply Z.eqb_neq, Hz.
Qed.

Lemma partner_approve_stored (sess : session) (g clock i : Z) (form : edit_form)
    (f_memo : option string) (t : app_table) (a r : InsuranceApplication) :
  partner_session sess g ->
  get_app i t = Some a -> partner_group_id a = g ->
  partner_approve_one (datetime_now clock) a = Some r ->
  table (partner_admin_insurance_approval sess clock true "approve" (IntOk i)
           form f_memo t)
  = put_app r t.
Proof.
  intros Hs Ha Hg Hr. apply partner_session_gate in Hs. destruct Hs as (Hu & Hp & Hz).
  unfold partner_admin_insurance_approval.
  rewrite Hu, Hp, Hz, Ha. simpl. rewrite Hg, Z.eqb_refl. simpl.
  rewrite Hr. reflexivity.
Qed.

Lemma partner_approve_raised (sess : session) (g clock i : Z) (commit_ok : bool)
    (form : edit_form) (f_memo : option string) (t : app_table)
    (a : InsuranceApplication) :
  partner_session sess g ->
  get_app i t = Some a -> partner_group_id a = g ->
  partner_approve_one (datetime_now clock) a = None ->
  table (partner_admin_insurance_approval sess clock commit_ok "approve" (IntOk i)
           form f_memo t)
  = t.
Proof.
  intros Hs Ha Hg Hr. apply partner_session_gate in Hs. destruct Hs as (Hu & Hp & Hz).
  unfold partner_admin_insurance_approval.
  rewrite Hu, Hp, Hz, Ha. simpl. rewrite Hg, Z.eqb_refl. simpl.
  rewrite Hr. reflexivity.
Qed.

Lemma partner_bulk_stored (sess : session) (g clock : Z) (commit_ok : bool)
    (app_id : int_field) (form : edit_form) (f_memo : option string)
    (t : app_table) :
  partner_session sess g ->
  table (partner_admin_insurance_approval sess clock commit_ok "bulk_approve" app_id
           form f_memo t)
  = match for_each (partner_bulk_body g (datetime_now clock)) t with
    | Some approved => if commit_ok then approved else t
    | None => t
    end.
Proof.
  intros Hs. apply partner_session_gate in Hs. destruct Hs as (Hu & Hp & Hz).
  unfold partner_admin_insurance_approval. rewrite Hu, Hp, Hz. simpl.
  change (fun a => if (partner_group_id a =? g) && is_none (approved_at a)
                   then partner_approve_one (datetime_now clock) a else Some a)
    with (partner_bulk_body g (datetime_now clock)).
  destruct (for_each _ t); [|reflexivity]. destruct commit_ok; reflexivity.
Qed.

Lemma admin_approve_stored (clock : Z) (list_clock : Z -> Z)
    (list_commit_ok : bool) (i : Z) (form : edit_form) (f_memo : option string)
    (listed : InsuranceApplication -> bool) (t : app_table)
    (a r : InsuranceApplication) :
  get_app i t = Some a ->
  admin_approve_one (datetime_now clock) a = Some r ->
  admin_insurance clock list_clock true list_commit_ok "" "approve" (IntOk i)
    form f_memo listed t
  = admin_insurance_listing list_clock list_commit_ok listed (put_app r t)
      [mkFlash "승인되었습니다." "success"].
Proof.
  intros Ha Hr. unfold admin_insurance. simpl. rewrite Ha. simpl. rewrite Hr.
  reflexivity.
Qed.

Lemma admin_approve_raised (clock : Z) (list_clock : Z -> Z)
    (commit_ok list_commit_ok : bool) (i : Z) (form : edit_form)
    (f_memo : option string) (listed : InsuranceApplication -> bool)
    (t : app_table) (a : InsuranceApplication) :
  get_app i t = Some a ->
  admin_approve_one (datetime_now clock) a = None ->
  admin_insurance clock list_clock commit_ok list_commit_ok "" "approve" (IntOk i)
    form f_memo listed t
  = admin_insurance_raised t [].
Proof.
  intros Ha Hr. unfold admin_insurance. simpl. rewrite Ha. simpl. rewrite Hr.
  reflexivity.
Qed.

Lemma admin_bulk_stored (clock : Z) (list_clock : Z -> Z)
    (commit_ok list_commit_ok : bool) (action : string) (row_id : int_field)
    (form : edit_form) (f_memo : option string)
    (listed : InsuranceApplication -> bool) (t : app_table) :
  admin_insurance clock list_clock commit_ok list_commit_ok "1" action row_id
    form f_memo listed t
  = match for_each (admin_bulk_body (datetime_now clock)) t with
    | Some approved =>
        if commit_ok then
          admin_insurance_listing list_clock list_commit_ok listed approved
            [mkFlash "일괄 승인되었습니다." "success"]
        else
          admin_insurance_listing list_clock list_commit_ok listed t
            [mkFlash "일괄 승인 처리 중 오류가 발생했습니다." "danger"]
    | None => admin_insurance_raised t []
    end.
Proof. reflexivity. Qed.

(** *** The listing *)

Lemma listing_body_cases (list_clock : Z -> Z)
    (listed : InsuranceApplication -> bool) (x y : InsuranceApplication) :
  listing_body list_clock listed x = Some y ->
  y = x \/ recompute_status (list_clock (id x)) x = Returned y.
Proof.
  unfold listing_body. destruct (listed x); [|left; congruence].
  destruct (recompute_status _ x); [|discriminate]. right. congruence.
Qed.

Lemma listing_body_id (list_clock : Z -> Z)
    (listed : InsuranceApplication -> bool) (x y : InsuranceApplication) :
  listing_body list_clock listed x = Some y -> id y = id x.
Proof.
  intros H. apply listing_body_cases in H. destruct H as [->|H]; [reflexivity|].
  pose proof (recompute_status_id (list_clock (id x)) x) as E.
  rewrite H in E. exact E.
Qed.

Lemma listing_body_approved_at (list_clock : Z -> Z)
    (listed : InsuranceApplication -> bool) (x y : InsuranceApplication) :
  listing_body list_clock listed x = Some y -> approved_at y = approved_at x.
Proof.
  intros H. apply listing_body_cases in H. destruct H as [->|H]; [reflexivity|].
  pose proof (recompute_status_approved_at (list_clock (id x)) x) as E.
  rewrite H in E. exact E.
Qed.

Lemma recompute_listed_body (list_clock : Z -> Z)
    (listed : InsuranceApplication -> bool) (t : app_table) :
  recompute_listed list_clock listed t
  = for_each (listing_body list_clock listed) t.
Proof. reflexivity. Qed.

(* the table after the listing: the one before it, or the one its loop
   returned *)
Lemma listing_cases (list_clock : Z -> Z) (list_commit_ok : bool)
    (listed : InsuranceApplication -> bool) (stored : app_table)
    (messages : list flash) :
  table (admin_insurance_listing list_clock list_commit_ok listed stored messages)
  = stored
  \/ recompute_listed list_clock listed stored
     = Some (table (admin_insurance_listing list_clock list_commit_ok listed
                      stored messages)).
Proof.
  unfold admin_insurance_listing.
  destruct (recompute_listed list_clock listed stored) as [rows|];
    [|left; reflexivity].
  destruct list_commit_ok; [right|left]; reflexivity.
Qed.

Lemma listing_ids (list_clock : Z -> Z) (list_commit_ok : bool)
    (listed : InsuranceApplication -> bool) (stored : app_table)
    (messages : list flash) :
  let t' := table (admin_insurance_listing list_clock list_commit_ok listed stored
                     messages) in
  map id t' = map id stored /\ map approved_at t' = map approved_at stored.
Proof.
  cbv zeta.
  destruct (listing_cases list_clock list_commit_ok listed stored messages)
    as [->|H]; [auto|].
  rewrite recompute_listed_body in H. split.
  - apply (for_each_map_eq _ id _ _) with (2 := H).
    intros x y _. apply listing_body_id.
  - apply (for_each_map_eq _ approved_at _ _) with (2 := H).
    intros x y _. apply listing_body_approved_at.
Qed.

Lemma listing_get_app (list_clock : Z -> Z) (list_commit_ok : bool)
    (listed : InsuranceApplication -> bool) (stored : app_table)
    (messages : list flash) (i : Z) :
  let t' := table (admin_insurance_listing list_clock list_commit_ok listed stored
                     messages) in
  match get_app i stored with
  | Some r =>
      exists r', get_app i t' = Some r'
                 /\ (r' = r \/ recompute_status (list_clock (id r)) r = Returned r')
  | None => get_app i t' = None
  end.
Proof.
  cbv zeta.
  destruct (listing_cases list_clock list_commit_ok listed stored messages)
    as [->|H].
  - destruct (get_app i stored) as [r|]; eauto.
  - rewrite recompute_listed_body in H.
    pose proof (for_each_get_app _ _ _ i
                  (fun x y _ => listing_body_id list_clock listed x y) H) as G.
    destruct (get_app i stored) as [r|]; [|exact G].
    destruct G as (r' & B & G). exists r'. split; [exact G|].
    apply listing_body_cases in B. exact B.
Qed.

Lemma listing_In (list_clock : Z -> Z) (list_commit_ok : bool)
    (listed : InsuranceApplication -> bool) (stored : app_table)
    (messages : list flash) (r : InsuranceApplication) :
  In r stored ->
  exists r',
    In r' (table (admin_insurance_listing list_clock list_commit_ok listed stored
                    messages))
    /\ (r' = r \/ recompute_status (list_clock (id r)) r = Returned r').
Proof.
  intros Hr.
  destruct (listing_cases list_clock list_commit_ok listed stored messages)
    as [->|H]; [eauto|].
  rewrite recompute_listed_body in H.
  destruct (for_each_In _ _ _ r H Hr) as (r' & B & Hin).
  exists r'. split; [exact Hin|]. apply listing_body_cases in B. exact B.
Qed.

Lemma listing_In_inv (list_clock : Z -> Z) (list_commit_ok : bool)
    (listed : InsuranceApplication -> bool) (stored : app_table)
    (messages : list flash) (r' : InsuranceApplication) :
  In r' (table (admin_insurance_listing list_clock list_commit_ok listed stored
                  messages)) ->
  exists r,
    In r stored
    /\ (r' = r \/ recompute_status (list_clock (id r)) r = Returned r').
Proof.
  destruct (listing_cases list_clock list_commit_ok listed stored messages)
    as [->|H]; [eauto|].
  rewrite recompute_listed_body in H. intros Hin.
  destruct (for_each_In_inv _ _ _ r' H Hin) as (r & Hr & B).
  exists r. split; [exact Hr|]. apply listing_body_cases in B. exact B.
Qed.

(* a row with its window fixed, after the listing *)
Lemma window_fixed_after_listing (now : datetime) (clock : Z)
    (a r0 r : InsuranceApplication) :
  aware now = now ->
  window_fixed now a r0 ->
  r = r0 \/ recompute_status clock r0 = Returned r ->
  window_fixed_listed now (datetime_now clock) a r.
Proof.
  intros Hnow (H1 & H2 & (e & He & H3) & H4) [->|R].
  - repeat split; auto. exists e. auto.
  - pose proof (recompute_status_approved_at clock r0) as Ea.
    destruct (recompute_status_keeps_window clock r0) as [Es Ee]; [congruence|].
    rewrite R in Ea, Es, Ee. cbn [object_after] in Ea, Es, Ee.
    split; [congruence|]. split; [congruence|].
    exists e. split; [exact He|]. split; [congruence|].
    revert R. unfold recompute_status.
    rewrite H1, H3, H4, !ensure_aware_Some, Hnow.
    replace (aware e) with e
      by (symmetry; apply (dt_add_aware (midnight (desired_start_date a)) _ e He)).
    destruct (dt_add now (timedelta_hours 2)) as [due|] eqn:Hd; [|discriminate].
    cbn [start_at set_status]. rewrite H2.
    destruct (dt_ge (datetime_now clock) due) eqn:G1;
      destruct (dt_ge (datetime_now clock) e) eqn:G2;
      intros R; injection R as <-; simpl; eauto 8.
Qed.

(** *** Bulk approval run twice *)

Lemma partner_bulk_body_id (g : Z) (now : datetime) (x y : InsuranceApplication) :
  partner_bulk_body g now x = Some y -> id y = id x.
Proof.
  unfold partner_bulk_body. destruct (_ && _); intros B.
  - apply (partner_approve_one_stamp now x y B).
  - congruence.
Qed.

Lemma partner_bulk_twice (g : Z) (now now' : datetime) (t t1 : app_table) :
  for_each (partner_bulk_body g now) t = Some t1 ->
  for_each (partner_bulk_body g now') t1 = Some t1.
Proof.
  intros H. apply for_each_same. intros y Hy.
  destruct (for_each_In_inv _ _ _ y H Hy) as (x & _ & B).
  unfold partner_bulk_body in *.
  destruct ((partner_group_id x =? g) && is_none (approved_at x)) eqn:E.
  - destruct (partner_approve_one_stamp now x y B) as (-> & _).
    simpl. rewrite andb_false_r. reflexivity.
  - injection B as <-. rewrite E. reflexivity.
Qed.

Lemma partner_bulk_raises_again (g : Z) (now now' : datetime) (t : app_table) :
  for_each (partner_bulk_body g now) t = None ->
  for_each (partner_bulk_body g now') t = None.
Proof.
  intros H. destruct (for_each (partner_bulk_body g now') t) as [t'|] eqn:E;
    [|reflexivity].
  exfalso.
  destruct (for_each_returns (partner_bulk_body g now) t) as [t'' H'];
    [|congruence].
  intros x Hx. destruct (for_each_In _ _ _ x E Hx) as (y & B & _).
  unfold partner_bulk_body in *.
  destruct (_ && _); [|discriminate].
  intros N. rewrite (partner_approve_one_None now now' x N) in B. discriminate.
Qed.

Lemma admin_bulk_settled (now : datetime) (t : app_table) :
  (forall r, In r t -> approved_at r <> None) ->
  for_each (admin_bulk_body now) t = Some t.
Proof.
  intros H. apply for_each_same. intros r Hr. unfold admin_bulk_body.
  specialize (H r Hr). destruct (approved_at r); [reflexivity|congruence].
Qed.

Lemma admin_bulk_approves (now : datetime) (t t1 : app_table) :
  for_each (admin_bulk_body now) t = Some t1 ->
  forall r, In r t1 -> approved_at r <> None.
Proof.
  intros H y Hy.
  destruct (for_each_In_inv _ _ _ y H Hy) as (x & _ & B).
  unfold admin_bulk_body in B. destruct (approved_at x) eqn:E; simpl in B.
  - injection B as <-. congruence.
  - destruct (admin_approve_one_stamp now x y B) as (-> & _). discriminate.
Qed.

Lemma admin_bulk_raises_again (now now' : datetime) (t : app_table) :
  for_each (admin_bulk_body now) t = None ->
  for_each (admin_bulk_body now') t = None.
Proof.
  intros H. destruct (for_each (admin_bulk_body now') t) as [t'|] eqn:E;
    [|reflexivity].
  exfalso.
  destruct (for_each_returns (admin_bulk_body now) t) as [t'' H'];
    [|congruence].
  intros x Hx. destruct (for_each_In _ _ _ x E Hx) as (y & B & _).
  unfold admin_bulk_body in *.
  destruct (is_none _); [|discriminate].
  intros N. rewrite (admin_approve_one_None now now' x N) in B. discriminate.
Qed.

(* after the listing every row still has the approved_at it had *)
Lemma listing_keeps_approved (list_clock : Z -> Z) (list_commit_ok : bool)
    (listed : InsuranceApplication -> bool) (stored : app_table)
    (messages : list flash) :
  (forall r, In r stored -> approved_at r <> None) ->
  forall r, In r (table (admin_insurance_listing list_clock list_commit_ok listed
                           stored messages)) ->
            approved_at r <> None.
Proof.
  intros H r' Hr'. apply listing_In_inv in Hr'. destruct Hr' as (r & Hr & [->|R]).
  - apply H, Hr.
  - pose proof (recompute_status_approved_at (list_clock (id r)) r) as E.
    rewrite R in E. cbn [object_after] in E. rewrite E. apply H, Hr.
Qed.

(** C4, as amended.  Bulk approval, in the partner-admin and in the
    global-admin handler, stamps only applications whose approved_at is
    unset.  Run on the table a bulk approval left, at whatever time, the
    partner-admin one changes nothing; the global-admin one stamps nothing
    and changes no approved_at: the table it leaves is the one it found,
    or what the status recomputation of its listing made of it.  Single
    approval, in both handlers, stamps the application it is given
    unconditionally: whatever approved_at held, it holds the time of this
    approval afterwards, provided the thirty days the approval adds stay
    inside the range of datetime; otherwise the approval raises and the
    table stays as it was. *)
Theorem approval_idempotence (sess : session) (g clock clock' i : Z)
    (list_clock list_clock' : Z -> Z)
    (commit_ok list_commit_ok list_commit_ok' : bool)
    (app_id : int_field) (action : string)
    (form : edit_form) (f_memo : option string)
    (listed listed' : InsuranceApplication -> bool) (t : app_table)
    (a : InsuranceApplication) :
  partner_session sess g ->
  (let t1 := table (partner_admin_insurance_approval sess clock true "bulk_approve"
                      app_id form f_memo t) in
   table (partner_admin_insurance_approval sess clock' commit_ok "bulk_approve"
            app_id form f_memo t1) = t1)
  /\ (let t1 := table (admin_insurance clock list_clock true list_commit_ok "1"
                         action app_id form f_memo listed t) in
      let t2 := table (admin_insurance clock' list_clock' commit_ok list_commit_ok'
                         "1" action app_id form f_memo listed' t1) in
      (t2 = t1 \/ recompute_listed list_clock' listed' t1 = Some t2)
      /\ map id t2 = map id t1
      /\ map approved_at t2 = map approved_at t1)
  /\ (get_app i t = Some a -> partner_group_id a = g ->
      let t1 := table (partner_admin_insurance_approval sess clock true "approve"
                         (IntOk i) form f_memo t) in
      (partner_approvable a ->
       option_map approved_at (get_app i t1) = Some (Some (datetime_now clock)))
      /\ (~ partner_approvable a -> t1 = t))
  /\ (get_app i t = Some a ->
      let t1 := table (admin_insurance clock list_clock true list_commit_ok ""
                         "approve" (IntOk i) form f_memo listed t) in
      (admin_approvable a ->
       option_map approved_at (get_app i t1) = Some (Some (datetime_now clock)))
      /\ (~ admin_approvable a -> t1 = t)).
Proof.
  intros Hs. split; [|split; [|split]].
  - cbv zeta. rewrite !(partner_bulk_stored sess g) by exact Hs.
    destruct (for_each (partner_bulk_body g (datetime_now clock)) t)
      as [t1|] eqn:E.
    + rewrite (partner_bulk_twice g _ (datetime_now clock') t t1 E).
      destruct commit_ok; reflexivity.
    + rewrite (partner_bulk_raises_again g _ (datetime_now clock') t E).
      reflexivity.
  - cbv zeta. rewrite (admin_bulk_stored clock).
    destruct (for_each (admin_bulk_body (datetime_now clock)) t) as [ta|] eqn:E.
    + set (t1 := table (admin_insurance_listing list_clock list_commit_ok listed ta _)).
      assert (Happ : forall r, In r t1 -> approved_at r <> None).
      { apply listing_keeps_approved. apply (admin_bulk_approves _ t ta E). }
      rewrite (admin_bulk_stored clock').
      rewrite (admin_bulk_settled (datetime_now clock') t1 Happ).
      assert (Hl : forall messages,
                 let t2 := table (admin_insurance_listing list_clock' list_commit_ok'
                                    listed' t1 messages) in
                 (t2 = t1 \/ recompute_listed list_clock' listed' t1 = Some t2)
                 /\ map id t2 = map id t1
                 /\ map approved_at t2 = map approved_at t1).
      { intros messages. cbv zeta. split.
        - apply listing_cases.
        - apply listing_ids. }
      destruct commit_ok; apply Hl.
    + cbn [table admin_insurance_raised].
      rewrite (admin_bulk_stored clock').
      rewrite (admin_bulk_raises_again _ (datetime_now clock') t E).
      cbn [table admin_insurance_raised]. auto.
  - intros Ha Hg. cbv zeta. split.
    + intros Hp.
      destruct (partner_approve_one_Some (datetime_now clock) a Hp) as [r Hr].
      rewrite (partner_approve_stored sess g clock i form f_memo t a r)
        by assumption.
      destruct (partner_approve_one_stamp _ a r Hr) as (H1 & _ & H3 & _).
      rewrite (get_app_put_app i t a) by (auto; rewrite H3; eapply get_app_id; eauto).
      simpl. rewrite H1. reflexivity.
    + intros Hp. apply (partner_approve_raised sess g clock i true form f_memo t a);
        auto.
      destruct (partner_approve_one (datetime_now clock) a) eqn:E; [|reflexivity].
      exfalso. apply Hp. apply (partner_approve_one_returns (datetime_now clock)).
      congruence.
  - intros Ha. cbv zeta. split.
    + intros Hp.
      destruct (admin_approve_one_Some (datetime_now clock) a Hp) as [r Hr].
      rewrite (admin_approve_stored clock list_clock list_commit_ok i form f_memo
                 listed t a r) by assumption.
      destruct (admin_approve_one_stamp _ a r Hr) as (H1 & _ & H3).
      pose proof (listing_get_app list_clock list_commit_ok listed (put_app r t)
                    [mkFlash "승인되었습니다." "success"] i) as G.
      cbv zeta in G.
      rewrite (get_app_put_app i t a) in G
        by (auto; rewrite H3; eapply get_app_id; eauto).
      destruct G as (r' & -> & [->|R]); simpl.
      * rewrite H1. reflexivity.
      * pose proof (recompute_status_approved_at (list_clock (id r)) r) as E.
        rewrite R in E. cbn [object_after] in E. rewrite E, H1. reflexivity.
    + intros Hp.
      rewrite (admin_approve_raised clock list_clock true list_commit_ok i form
                 f_memo listed t a); auto.
      destruct (admin_approve_one (datetime_now clock) a) eqn:E; [|reflexivity].
      exfalso. apply Hp. apply (admin_approve_one_returns (datetime_now clock)).
      congruence.
Qed.

Lemma approval_idempotence_witness :
  partner_session sample_session 1
  /\ (let t1 := table (partner_admin_insurance_approval sample_session
                         (clock_at 2024 3 2 9 0) true "bulk_approve" IntAbsent
                         blank_form None [scenario_app; fresh_app]) in
      table (partner_admin_insurance_approval sample_session
               (clock_at 2024 3 5 9 0) true "bulk_approve" IntAbsent
               blank_form None t1) = t1)
  /\ option_map approved_at
       (get_app 1 (table (partner_admin_insurance_approval sample_session
                            (clock_at 2024 3 2 9 0) true "approve" (IntOk 1)
                            blank_form None [scenario_app; fresh_app])))
     = Some (Some (datetime_now (clock_at 2024 3 2 9 0))).
Proof.
  assert (H : partner_session sample_session 1)
    by (repeat split; discriminate).
  split; [exact H|].
  destruct (approval_idempotence sample_session 1 (clock_at 2024 3 2 9 0)
              (clock_at 2024 3 5 9 0) 1 (at_clock 0) (at_clock 0) true true true
              IntAbsent "" blank_form None all_listed all_listed
              [scenario_app; fresh_app] scenario_app H) as (H1 & _ & H3 & _).
  split; [exact H1|].
  apply H3; [reflexivity|reflexivity|]. intros _. discriminate.
Defined.

(** C4 as stated fails: the scenario application was approved on
    2024-03-01 10:00; a single approval on 2024-03-02 09:00, through the
    partner-admin or the global-admin handler, replaces that time. *)
Lemma approval_idempotence_counterexample :
  approved_at scenario_app = Some (kst_at 2024 3 1 10 0)
  /\ option_map approved_at
       (get_app 1 (table (partner_admin_insurance_approval sample_session
                            (clock_at 2024 3 2 9 0) true "approve" (IntOk 1)
                            blank_form None [scenario_app])))
     = Some (Some (kst_at 2024 3 2 9 0))
  /\ option_map approved_at
       (get_app 1 (table (admin_insurance (clock_at 2024 3 2 9 0)
                            (at_clock (clock_at 2024 3 2 9 0)) true true ""
                            "approve" (IntOk 1) blank_form None all_listed
                            [scenario_app])))
     = Some (Some (kst_at 2024 3 2 9 0))
  /\ kst_at 2024 3 2 9 0 <> kst_at 2024 3 1 10 0.
Proof. repeat split; discriminate. Qed.



(** ** Editing and deleting approved applications *)

Lemma is_none_false {A} (o : option A) : o <> None -> is_none o = false.
Proof. destruct o; [reflexivity|congruence]. Qed.

(** C5, as amended.  For every insurance application whose approved_at is
    set, an edit or delete request through a member screen (insurance,
    partner_insurance) leaves the table unchanged.  A warning is flashed
    when the request comes from the creator of the application on
    insurance (a request of anyone else is dropped there without a
    message), and when it comes from a member or partner admin of the
    application's partner group on partner_insurance.  The administrator
    screens still delete the application (admin_insurance,
    partner_admin_insurance_approval) and still edit it (admin_insurance). *)
Theorem approved_application_locked (uid clock g i : Z) (who : caller)
    (sess : session) (commit_ok : bool) (action : edit_action)
    (form : edit_form) (f_memo : option string) (t : app_table)
    (row : InsuranceApplication)
    (list_clock : Z -> Z) (list_commit_ok : bool)
    (listed : InsuranceApplication -> bool) :
  get_app i t = Some row ->
  approved_at row <> None ->
  (table (insurance uid commit_ok action (IntOk i) form f_memo t) = t
   /\ (created_by_member_id row = Some uid ->
       map category
         (flashed (insurance uid commit_ok action (IntOk i) form f_memo t))
       = ["warning"%string])
   /\ (created_by_member_id row <> Some uid ->
       flashed (insurance uid commit_ok action (IntOk i) form f_memo t) = []))
  /\ (table (partner_insurance who commit_ok action (IntOk i) form f_memo t) = t
      /\ (caller_in_group who (partner_group_id row) ->
          map category
            (flashed (partner_insurance who commit_ok action (IntOk i) form f_memo t))
          = ["warning"%string]))
  /\ get_app i (table (admin_insurance clock list_clock true list_commit_ok ""
                         "delete" (IntOk i) form f_memo listed t)) = None
  /\ (partner_session sess g -> partner_group_id row = g ->
      get_app i (table (partner_admin_insurance_approval sess clock true "delete"
                          (IntOk i) form f_memo t)) = None)
  /\ (forall d, f_desired_start_date form = DateOk d ->
      option_map desired_start_date
        (get_app i (table (admin_insurance clock list_clock true list_commit_ok
                             "" "save" (IntOk i) form f_memo listed t)))
      = Some d).
Proof.
  intros Hrow Happr.
  pose proof (is_none_false _ Happr) as Hn.
  pose proof (get_app_id _ _ _ Hrow) as Hid.
  split; [|split; [|split; [|split]]].
  - unfold insurance. rewrite Hrow. split; [|split].
    + destruct (negb (opt_Z_eqb (created_by_member_id row) uid)); [reflexivity|].
      destruct action; rewrite Hn; reflexivity.
    + intros Hc. rewrite Hc. simpl. rewrite Z.eqb_refl. simpl.
      destruct action; rewrite Hn; reflexivity.
    + intros Hc.
      assert (E : opt_Z_eqb (created_by_member_id row) uid = false).
      { destruct (created_by_member_id row) as [c|]; simpl; [|reflexivity].
        apply Z.eqb_neq. congruence. }
      rewrite E. reflexivity.
  - unfold partner_insurance. split.
    + destruct who as [[g'|]|u r [g'|]|]; simpl; try reflexivity.
      * destruct (g' =? 0); [reflexivity|]. rewrite Hrow.
        destruct (negb (partner_group_id row =? g')); [reflexivity|].
        simpl. rewrite Hn. reflexivity.
      * destruct (String.eqb r "member"); simpl; [|reflexivity].
        destruct (g' =? 0) eqn:Eg; simpl; [reflexivity|]. rewrite Eg, Hrow.
        destruct (negb (partner_group_id row =? g')); [reflexivity|].
        destruct (negb (opt_Z_eqb (created_by_member_id row) u)); [reflexivity|].
        simpl. rewrite Hn. reflexivity.
      * destruct (String.eqb r "member"); reflexivity.
    + destruct who as [[g'|]|u r [g'|]|]; simpl; try contradiction.
      * intros [-> Hz]. apply Z.eqb_neq in Hz. rewrite Hz, Hrow, Z.eqb_refl.
        simpl. rewrite Hn. reflexivity.
      * intros (-> & -> & Hz). apply Z.eqb_neq in Hz. simpl.
        rewrite Hz. simpl. rewrite Hz, Hrow, Z.eqb_refl. simpl.
        destruct (negb (opt_Z_eqb (created_by_member_id row) u)); [reflexivity|].
        rewrite Hn. reflexivity.
  - unfold admin_insurance. simpl. rewrite Hrow. simpl.
    pose proof (listing_get_app list_clock list_commit_ok listed
                  (delete_app (id row) t) [mkFlash "삭제되었습니다." "success"] i)
      as G.
    cbv zeta in G. rewrite Hid, get_app_delete_app in G. rewrite Hid. exact G.
  - intros Hs Hg. apply partner_session_gate in Hs. destruct Hs as (Hu & Hp & Hz).
    unfold partner_admin_insurance_approval. rewrite Hu, Hp, Hz, Hrow. simpl.
    rewrite Hg, Z.eqb_refl. simpl. rewrite Hid. apply get_app_delete_app.
  - intros d Hd. unfold admin_insurance. simpl. rewrite Hrow. simpl.
    unfold saved_date. rewrite Hd. simpl.
    erewrite get_app_put_app; [reflexivity|exact Hrow|exact Hid].
Qed.

Lemma approved_application_locked_witness :
  table (insurance 7 true Delete (IntOk 1) (dated_form (mkDate 2024 5 1)) None
           [scenario_app]) = [scenario_app]
  /\ map category
       (flashed (insurance 7 true Save (IntOk 1) (dated_form (mkDate 2024 5 1)) None
                   [scenario_app])) = ["warning"%string]
  /\ get_app 1 (table (admin_insurance (clock_at 2024 3 2 9 0)
                         (at_clock (clock_at 2024 3 2 9 0)) true true "" "delete"
                         (IntOk 1) (dated_form (mkDate 2024 5 1)) None
                         all_listed [scenario_app])) = None
  /\ option_map desired_start_date
       (get_app 1 (table (admin_insurance (clock_at 2024 3 2 9 0)
                            (at_clock (clock_at 2024 3 2 9 0)) true true "" "save"
                            (IntOk 1) (dated_form (mkDate 2024 5 1)) None
                            all_listed [scenario_app]))) = Some (mkDate 2024 5 1).
Proof.
  assert (Ha : approved_at scenario_app <> None) by discriminate.
  destruct (approved_application_locked 7 (clock_at 2024 3 2 9 0) 1 1 Anonymous
              sample_session true Delete (dated_form (mkDate 2024 5 1)) None
              [scenario_app] scenario_app (at_clock (clock_at 2024 3 2 9 0)) true
              all_listed eq_refl Ha)
    as ((H1 & _ & _) & _ & H3 & _ & H5).
  destruct (approved_application_locked 7 (clock_at 2024 3 2 9 0) 1 1 Anonymous
              sample_session true Save (dated_form (mkDate 2024 5 1)) None
              [scenario_app] scenario_app (at_clock (clock_at 2024 3 2 9 0)) true
              all_listed eq_refl Ha)
    as ((_ & H2 & _) & _).
  split; [exact H1|]. split; [apply H2; reflexivity|].
  split; [exact H3|]. apply (H5 (mkDate 2024 5 1)). reflexivity.
Defined.

(** C5 as stated fails on the warning: on insurance, a delete request of a
    member (id 8) for an approved application that another member (id 7)
    created is dropped, the application unchanged, with no message at
    all. *)
Lemma approved_application_locked_counterexample :
  approved_at scenario_app <> None
  /\ table (insurance 8 true Delete (IntOk 1) blank_form None [scenario_app])
     = [scenario_app]
  /\ flashed (insurance 8 true Delete (IntOk 1) blank_form None [scenario_app]) = [].
Proof. repeat split; discriminate. Qed.

(** ** Dictionaries *)

Section DictFacts.
Context {K V : Type} (eqb : K -> K -> bool).
Hypothesis eqb_refl : forall k, eqb k k = true.

Lemma dict_get_set_same (k : K) (v : V) (d : list (K * V)) :
  dict_get eqb k (dict_set eqb k v d) = Some v.
Proof.
  induction d as [|[k' v'] d IH]; simpl.
  - rewrite eqb_refl. reflexivity.
  - destruct (eqb k' k) eqn:E; simpl; rewrite E; [reflexivity|exact IH].
Qed.

Lemma dict_get_values (k : K) (v : V) (d : list (K * V)) :
  dict_get eqb k d = Some v -> In v (dict_values d).
Proof.
  induction d as [|[k' v'] d IH]; simpl; [discriminate|].
  destruct (eqb k' k); intros H; [left; congruence|right; auto].
Qed.

Lemma dict_set_Forall (P : V -> Prop) (k : K) (v : V) (d : list (K * V)) :
  Forall P (dict_values d) -> P v -> Forall P (dict_values (dict_set eqb k v d)).
Proof.
  unfold dict_values. intros Hd Hv.
  induction d as [|[k' v'] d IH]; simpl.
  - constructor; [exact Hv|constructor].
  - simpl in Hd. inversion Hd as [|? ? Hx Hr]; subst.
    destruct (eqb k' k); simpl; constructor; auto.
Qed.

Lemma dict_set_set (k : K) (v1 v2 : V) (d : list (K * V)) :
  dict_set eqb k v2 (dict_set eqb k v1 d) = dict_set eqb k v2 d.
Proof.
  induction d as [|[k' v'] d IH]; simpl.
  - rewrite eqb_refl. reflexivity.
  - destruct (eqb k' k) eqn:E; simpl; rewrite E; [reflexivity|].
    f_equal. exact IH.
Qed.

Lemma dict_set_sum (f : V -> Z) (k : K) (v : V) (d : list (K * V)) :
  sum_Z (map f (dict_values (dict_set eqb k v d)))
  = sum_Z (map f (dict_values d)) + f v
    - match dict_get eqb k d with Some o => f o | None => 0 end.
Proof.
  unfold dict_values.
  induction d as [|[k' v'] d IH]; simpl.
  - lia.
  - destruct (eqb k' k) eqn:E; simpl; [lia|]. rewrite IH. lia.
Qed.
End DictFacts.

Lemma key3_eqb_refl (k : key3) : key3_eqb k k = true.
Proof. destruct k as [[a b] c]. simpl. rewrite !String.eqb_refl. reflexivity. Qed.

Lemma opt_string_eqb_refl (o : option string) : opt_string_eqb o o = true.
Proof. destruct o; simpl; [apply String.eqb_refl|reflexivity]. Qed.

Lemma okey3_eqb_refl (k : okey3) : okey3_eqb k k = true.
Proof.
  destruct k as [[a b] c]. simpl. rewrite !opt_string_eqb_refl. reflexivity.
Qed.

Lemma okey2_eqb_refl (k : okey2) : okey2_eqb k k = true.
Proof.
  destruct k as [a b]. unfold okey2_eqb. simpl.
  rewrite !opt_string_eqb_refl. reflexivity.
Qed.

Lemma fold_left_invariant {A B} (P : A -> Prop) (f : A -> B -> A) (l : list B) (a : A) :
  (forall x b, P x -> P (f x b)) -> P a -> P (fold_left f l a).
Proof.
  intros Hf. revert a. induction l as [|b l IH]; simpl; auto.
Qed.

(** ** Unit prices *)

Lemma partner_settle_step_priced (db : database)
    (d : list (key3 * settlement)) (app : InsuranceApplication) :
  Forall priced_9500 (dict_values d) ->
  Forall priced_9500 (dict_values (partner_settle_step db d app)).
Proof.
  intros Hd. unfold partner_settle_step.
  destruct (created_by_member db app) as [m|]; [|exact Hd].
  set (k := (text_field (company_name m), text_field (representative m),
             text_field (business_number m))).
  set (d1 := match dict_get key3_eqb k d with
             | Some _ => d
             | None => dict_set key3_eqb k
                         (mkSettlement (text_field (company_name m))
                            (text_field (representative m))
                            (text_field (business_number m)) 0 0) d
             end).
  assert (H1 : Forall priced_9500 (dict_values d1)).
  { subst d1. destruct (dict_get key3_eqb k d); [exact Hd|].
    apply dict_set_Forall; [exact Hd|reflexivity]. }
  destruct (dict_get key3_eqb k d1) as [s|] eqn:Hs; [|exact H1].
  rewrite (dict_set_set key3_eqb key3_eqb_refl).
  apply dict_set_Forall; [exact H1|].
  apply (dict_get_values key3_eqb) in Hs.
  rewrite Forall_forall in H1. specialize (H1 s Hs).
  unfold priced_9500 in *. simpl. lia.
Qed.
Lemma admin_price_acc (bc : list (okey3 * Z)) (page : admin_settlement_page) :
  Forall admin_priced_9500 (a_settlements page) ->
  Forall admin_priced_9500 (a_settlements (fold_left admin_price_step bc page))
  /\ a_total_count (fold_left admin_price_step bc page)
     = a_total_count page + sum_Z (map snd bc).
Proof.
  revert page.
  induction bc as [|[[[c r] b] n] bc IH]; intros page Hp.
  - simpl. split; [exact Hp|lia].
  - cbn [fold_left].
    assert (Hq : Forall admin_priced_9500
                   (a_settlements (admin_price_step page (c, r, b, n)))).
    { simpl. apply Forall_app. split; [exact Hp|].
      constructor; [reflexivity|constructor]. }
    destruct (IH _ Hq) as [H1 H2].
    split; [exact H1|]. eapply eq_trans; [exact H2|]. simpl. lia.
Qed.

Lemma overview_step_priced (db : database)
    (d : list (Z * overview_group)) (app : InsuranceApplication) :
  Forall group_priced_95000 (dict_values d) ->
  Forall group_priced_95000 (dict_values (overview_step db d app)).
Proof.
  intros Hd. unfold overview_step.
  destruct (partner_group db app) as [pg|]; [|exact Hd].
  destruct (created_by_member db app) as [m|]; [|exact Hd].
  set (k := partner_group_id app).
  set (d1 := match dict_get Z.eqb k d with
             | Some _ => d
             | None => dict_set Z.eqb k (mkOverviewGroup (name pg) [] 0 0) d
             end).
  assert (H1 : Forall group_priced_95000 (dict_values d1)).
  { subst d1. destruct (dict_get Z.eqb k d); [exact Hd|].
    apply dict_set_Forall; [exact Hd|]. split; [constructor|reflexivity]. }
  destruct (dict_get Z.eqb k d1) as [grp|] eqn:Hg; [|exact H1].
  apply dict_set_Forall; [exact H1|].
  apply (dict_get_values Z.eqb) in Hg.
  rewrite Forall_forall in H1. destruct (H1 grp Hg) as [Hc Ht].
  set (ck := (company_name m, representative m)).
  set (c1 := match dict_get okey2_eqb ck (companies grp) with
             | Some _ => companies grp
             | None => dict_set okey2_eqb ck
                         (mkOverviewCompany (company_name m) (representative m) 0 0)
                         (companies grp)
             end).
  assert (Hc1 : Forall company_priced_95000 (dict_values c1)).
  { subst c1. destruct (dict_get okey2_eqb ck (companies grp)); [exact Hc|].
    apply dict_set_Forall; [exact Hc|reflexivity]. }
  split; simpl; [|lia].
  destruct (dict_get okey2_eqb ck c1) as [c|] eqn:Hck; [|exact Hc1].
  apply dict_set_Forall; [exact Hc1|].
  apply (dict_get_values okey2_eqb) in Hck.
  rewrite Forall_forall in Hc1. specialize (Hc1 c Hck).
  unfold company_priced_95000 in *. simpl. lia.
Qed.

(** C7, as amended.  In every settlement aggregation each group's amount
    equals its application count times a fixed unit price.  The unit
    price is 9,500 in the partner view (partner_admin_settlement) and in
    the global-admin view admin_settlement; it is 95,000 in the
    global-admin overview (admin_settlement_overview), for each company
    and for each partner group's total. *)
Theorem settlement_unit_price (db : database) (g clock local_clock : Z)
    (arg_year arg_month arg_group : int_field) :
  (forall page,
     partner_admin_settlement db g clock arg_year arg_month = Some page ->
     Forall priced_9500 (p_settlements page))
  /\ (forall page,
        admin_settlement db local_clock arg_year arg_month = Some page ->
        Forall admin_priced_9500 (a_settlements page))
  /\ (forall page,
        admin_settlement_overview db local_clock arg_year arg_month arg_group
        = Some page ->
        Forall group_priced_95000 (dict_values (settlements_by_group page))).
Proof.
  split; [|split]; intros page.
  - unfold partner_admin_settlement.
    destruct (partner_year_month _ _ _) as [y m].
    destruct (month_bounds y m) as [[sp nm]|]; [|discriminate].
    intros H. injection H as <-. simpl.
    apply (fold_left_invariant
             (fun d => Forall priced_9500 (dict_values d))).
    + intros x b. apply partner_settle_step_priced.
    + constructor.
  - unfold admin_settlement.
    destruct arg_year as [| |y]; try discriminate;
      destruct arg_month as [| |m]; try discriminate;
      match goal with
      | |- context [month_bounds ?a ?b] =>
          destruct (month_bounds a b) as [[sp nm]|]; [|discriminate]
      end;
      intros H; injection H as <-;
      apply admin_price_acc; constructor.
  - unfold admin_settlement_overview.
    destruct arg_year as [| |y]; try discriminate;
      destruct arg_month as [| |m]; try discriminate;
      match goal with
      | |- context [month_bounds ?a ?b] =>
          destruct (month_bounds a b) as [[sp nm]|]; [|discriminate]
      end;
      intros H; injection H as <-; simpl;
      apply (fold_left_invariant
               (fun d => Forall group_priced_95000 (dict_values d)));
      try (intros x b; apply overview_step_priced); constructor.
Qed.

Lemma settlement_unit_price_witness :
  option_map p_settlements
    (partner_admin_settlement march_db 1 (clock_at 2024 4 2 9 0)
       (IntOk 2024) (IntOk 3))
  = Some [mkSettlement "상사A" "김대표" "222-22-22222" 1 9500]
  /\ Forall priced_9500 [mkSettlement "상사A" "김대표" "222-22-22222" 1 9500].
Proof.
  split; [reflexivity|].
  destruct (settlement_unit_price march_db 1 (clock_at 2024 4 2 9 0) 0
              (IntOk 2024) (IntOk 3) IntAbsent) as (H & _).
  apply (H (mkPartnerPage [mkSettlement "상사A" "김대표" "222-22-22222" 1 9500]
              2024 3 1 9500)).
  reflexivity.
Defined.

(** C7 as stated fails: admin_settlement is a global-admin view, and for
    the one application of March 2024 it bills 9,500, not 95,000. *)
Lemma settlement_unit_price_counterexample :
  option_map a_settlements
    (admin_settlement march_db (clock_at 2024 4 2 9 0) (IntOk 2024) (IntOk 3))
  = Some [mkAdminRow (Some "상사A"%string) (Some "김대표"%string)
            (Some "222-22-22222"%string) 1 9500]
  /\ 9500 <> 1 * 95000.
Proof. split; [reflexivity|discriminate]. Qed.

(** ** Calendar *)

Lemma days_before_next_year (y : Z) :
  _days_before_year (y + 1)
  = _days_before_year y + 365 + (if _is_leap y then 1 else 0).
Proof.
  unfold _days_before_year, _is_leap. cbv zeta.
  replace (y + 1 - 1) with y by lia.
  destruct (Z.eqb_spec (y mod 4) 0); destruct (Z.eqb_spec (y mod 100) 0);
    destruct (Z.eqb_spec (y mod 400) 0); simpl;
    Z.div_mod_to_equations; lia.
Qed.

Lemma month_cases (m : Z) :
  1 <= m <= 12 ->
  m = 1 \/ m = 2 \/ m = 3 \/ m = 4 \/ m = 5 \/ m = 6
  \/ m = 7 \/ m = 8 \/ m = 9 \/ m = 10 \/ m = 11 \/ m = 12.
Proof. lia. Qed.

(* the first day of the next month is days_in_month days after the first
   day of this one *)
Lemma first_of_next_month (y m : Z) :
  1 <= m <= 12 ->
  (let '(y', m') := next_month_of y m in _ymd2ord y' m' 1)
  = _ymd2ord y m 1 + _days_in_month y m.
Proof.
  intros Hm. pose proof (days_before_next_year y) as Hy.
  unfold next_month_of, _ymd2ord, _days_before_month, _days_in_month.
  destruct (month_cases m Hm) as [H|[H|[H|[H|[H|[H|[H|[H|[H|[H|[H|H]]]]]]]]]]];
    subst m; simpl; destruct (_is_leap y); simpl; lia.
Qed.
Lemma month_bounds_walls (y m : Z) (sp nm : datetime) :
  month_bounds y m = Some (sp, nm) ->
  1 <= m <= 12
  /\ sp = mkDatetime (_ymd2ord y m 1 * usec_per_day) (Some KST)
  /\ nm = mkDatetime ((_ymd2ord y m 1 + _days_in_month y m) * usec_per_day)
            (Some KST).
Proof.
  unfold month_bounds, datetime_ymd.
  destruct (valid_ymd y m 1) eqn:Hv; [|discriminate].
  assert (Hm : 1 <= m <= 12).
  { unfold valid_ymd in Hv. rewrite !andb_true_iff in Hv.
    destruct Hv as [[[[[_ _] H1] H2] _] _]. lia. }
  pose proof (first_of_next_month y m Hm) as Hn. unfold next_month_of in Hn.
  destruct (m =? 12).
  - destruct (valid_ymd (y + 1) 1 1); [|discriminate].
    intros H. injection H as <- <-. rewrite <- Hn. auto.
  - destruct (valid_ymd y (m + 1) 1); [|discriminate].
    intros H. injection H as <- <-. rewrite <- Hn. auto.
Qed.

Lemma in_period_spec (sp nm : datetime) (a : InsuranceApplication) :
  in_period sp nm a = true
  <-> exists s, start_at a = Some s
                /\ dt_ge (aware s) sp = true /\ dt_lt (aware s) nm = true.
Proof.
  unfold in_period. destruct (start_at a) as [s|].
  - rewrite ensure_aware_Some, andb_true_iff. split.
    + intros H. exists s. auto.
    + intros (s' & Hs & H). injection Hs as <-. exact H.
  - simpl. split; [discriminate|]. intros (s & Hs & _). discriminate.
Qed.

Lemma in_period_midnight (d : date) (sp nm : datetime) (a : InsuranceApplication) :
  valid_date d = true ->
  month_bounds (year d) (month d) = Some (sp, nm) ->
  start_at a = Some (midnight d) ->
  in_period sp nm a = true.
Proof.
  intros Hv Hb Hs. apply month_bounds_walls in Hb. destruct Hb as (_ & -> & ->).
  unfold in_period. rewrite Hs, ensure_aware_Some, aware_midnight.
  unfold valid_date, valid_ymd in Hv. rewrite !andb_true_iff in Hv.
  destruct Hv as [[_ H1] H2].
  unfold dt_ge, dt_lt, utc_usec, midnight, combine_min, toordinal, _ymd2ord,
    usec_per_day in *. simpl.
  apply andb_true_iff. split; [apply Z.leb_le|apply Z.ltb_lt]; lia.
Qed.

Lemma in_period_previous (y m py pm : Z) (sp nm psp pnm : datetime)
    (a : InsuranceApplication) :
  next_month_of py pm = (y, m) ->
  month_bounds y m = Some (sp, nm) ->
  month_bounds py pm = Some (psp, pnm) ->
  in_period sp nm a = true ->
  in_period psp pnm a = false.
Proof.
  intros Hn Hb Hp Hin.
  assert (E : pnm = sp).
  { unfold month_bounds in Hp.
    destruct (datetime_ymd py pm 1 (Some KST)); [|discriminate].
    unfold next_month_of in Hn. unfold month_bounds in Hb.
    destruct (pm =? 12); injection Hn as Hy Hm; subst y m;
      match type of Hp with
      | context [datetime_ymd ?a ?b 1 (Some KST)] =>
          destruct (datetime_ymd a b 1 (Some KST)); [|discriminate]
      end;
      injection Hp as _ <-;
      match type of Hb with
      | context [if ?c then _ else _] =>
          destruct (if c then _ else _); [|discriminate]
      end;
      injection Hb as <- _; reflexivity. }
  subst pnm. unfold in_period in *.
  destruct (_ensure_aware (start_at a)) as [s|]; [|reflexivity].
  apply andb_true_iff in Hin. destruct Hin as [Hge _].
  rewrite dt_ge_lt, Hge. apply andb_false_r.
Qed.
(** ** Counting the applications of a settlement *)

Lemma filter_filter_length {A} (p q : A -> bool) (l : list A) :
  List.length (filter q (filter p l))
  = List.length (filter (fun a => p a && q a) l).
Proof.
  induction l as [|x l IH]; simpl; [reflexivity|].
  destruct (p x); simpl; [|exact IH]. destruct (q x); simpl; auto.
Qed.

Lemma partner_settle_step_count (db : database)
    (d : list (key3 * settlement)) (app : InsuranceApplication) :
  sum_Z (map count (dict_values (partner_settle_step db d app)))
  = sum_Z (map count (dict_values d)) + (if has_creator db app then 1 else 0).
Proof.
  unfold partner_settle_step, has_creator.
  destruct (created_by_member db app) as [m|]; simpl; [|lia].
  set (k := (text_field (company_name m), text_field (representative m),
             text_field (business_number m))).
  set (z := mkSettlement (text_field (company_name m))
              (text_field (representative m)) (text_field (business_number m)) 0 0).
  destruct (dict_get key3_eqb k d) as [s0|] eqn:Hk.
  - rewrite Hk, (dict_set_set key3_eqb key3_eqb_refl).
    rewrite (dict_set_sum key3_eqb), Hk. simpl. lia.
  - rewrite (dict_get_set_same key3_eqb key3_eqb_refl).
    rewrite !(dict_set_set key3_eqb key3_eqb_refl).
    rewrite (dict_set_sum key3_eqb), Hk. simpl. lia.
Qed.

Lemma partner_settle_count (db : database) (l : list InsuranceApplication)
    (d : list (key3 * settlement)) :
  sum_Z (map count (dict_values (fold_left (partner_settle_step db) l d)))
  = sum_Z (map count (dict_values d))
    + Z.of_nat (List.length (filter (has_creator db) l)).
Proof.
  revert d. induction l as [|a l IH]; intros d.
  - simpl. lia.
  - cbn [fold_left filter]. rewrite IH, partner_settle_step_count.
    destruct (has_creator db a); cbn [List.length]; lia.
Qed.

Lemma admin_group_step_count (db : database)
    (d : list (okey3 * Z)) (r : InsuranceApplication) :
  sum_Z (map snd (admin_group_step db d r)) = sum_Z (map snd d) + 1.
Proof.
  unfold admin_group_step.
  set (k := match created_by_member db r with
            | Some m => (company_name m, representative m, business_number m)
            | None => (Some "미상"%string, Some ""%string, Some ""%string)
            end).
  pose proof (dict_set_sum okey3_eqb (fun z : Z => z) k) as Hsum.
  unfold dict_values in Hsum. setoid_rewrite map_id in Hsum.
  destruct (dict_get okey3_eqb k d) as [c|] eqn:Hk.
  - rewrite Hk, Hsum, Hk. lia.
  - rewrite (dict_get_set_same okey3_eqb okey3_eqb_refl).
    rewrite (dict_set_set okey3_eqb okey3_eqb_refl), Hsum, Hk. lia.
Qed.

Lemma admin_group_count (db : database) (l : list InsuranceApplication)
    (d : list (okey3 * Z)) :
  sum_Z (map snd (fold_left (admin_group_step db) l d))
  = sum_Z (map snd d) + Z.of_nat (List.length l).
Proof.
  revert d. induction l as [|a l IH]; intros d.
  - simpl. lia.
  - cbn [fold_left List.length]. rewrite IH, admin_group_step_count. lia.
Qed.




(** ** Duplicate accounts *)

Lemma is_empty_false (s : string) : s <> ""%string -> is_empty s = false.
Proof. intros H. unfold is_empty. apply String.eqb_neq. exact H. Qed.

(** C8, as amended.  A registration that passes the earlier form checks
    (consent, an existing partner group) and whose (username,
    partner_group_id) pair already exists, or whose business_number is not
    blank and is already registered with a member, fails with a duplicate
    error; with or without the earlier checks it writes no row.  Likewise
    creating a partner group, with its required fields filled in, whose
    name, business_number or admin_username collides with an existing
    partner group fails with a duplicate error and writes no row. *)
Theorem duplicate_creation_rejected (hash : string -> string) (db : database)
    (commit_ok : bool) (form : register_form) (gform : group_form) (g : Z) :
  (rf_partner_group_id form = IntOk g ->
   username_taken db (rf_username form) g = true
   \/ (rf_business_number form <> ""%string
       /\ business_number_taken db (rf_business_number form) = true) ->
   db_after (register hash db commit_ok form) = db
   /\ (registration_admissible db form g ->
       exists f, db_flashed (register hash db commit_ok form) = [f]
                 /\ duplicate_member_flash f))
  /\ (group_taken db gform = true ->
      db_after (admin_partner_groups hash db commit_ok gform) = db
      /\ (group_form_complete gform ->
          db_flashed (admin_partner_groups hash db commit_ok gform)
          = [duplicate_group_flash])).
Proof.
  split.
  - intros Hg Hdup.
    assert (Hd : username_taken db (rf_username form) g = true
                 \/ username_taken db (rf_username form) g = false
                    /\ negb (is_empty (rf_business_number form))
                       && business_number_taken db (rf_business_number form) = true).
    { destruct (username_taken db (rf_username form) g); [left; reflexivity|].
      right. split; [reflexivity|].
      destruct Hdup as [H|[Hn Hb]]; [discriminate|].
      rewrite (is_empty_false _ Hn), Hb. reflexivity. }
    split.
    + unfold register. rewrite Hg.
      destruct (_ && negb _); [reflexivity|].
      destruct (get_group g (partner_groups db)); [|reflexivity].
      destruct Hd as [Hu|[Hu Hb]]; rewrite Hu; [reflexivity|].
      rewrite Hb. reflexivity.
    + intros (Hp & _ & Hgrp). unfold register. rewrite Hg.
      assert (E : String.eqb (rf_member_type form) "개인"
                  && negb (rf_privacy_agreement form) = false).
      { destruct (String.eqb_spec (rf_member_type form) "개인"); [|reflexivity].
        rewrite (Hp e). reflexivity. }
      rewrite E.
      destruct (get_group g (partner_groups db)); [|congruence].
      destruct Hd as [Hu|[Hu Hb]]; rewrite Hu.
      * eexists. split; [reflexivity|left; reflexivity].
      * rewrite Hb. eexists. split; [reflexivity|right; reflexivity].
  - intros Hdup. unfold admin_partner_groups. rewrite Hdup. split.
    + destruct (_ || _); reflexivity.
    + intros (H1 & H2 & H3 & H4).
      rewrite !is_empty_false by assumption. reflexivity.
Qed.

Lemma duplicate_creation_rejected_witness :
  db_after (register (fun s => s) accounts_db true (registration "dealer" "333"))
  = accounts_db
  /\ (exists f,
        db_flashed (register (fun s => s) accounts_db true
                      (registration "dealer" "333")) = [f]
        /\ duplicate_member_flash f)
  /\ db_after (admin_partner_groups (fun s => s) accounts_db true
                 (sample_group_form "새조합" "111-11-11111" "new"))
     = accounts_db
  /\ db_flashed (admin_partner_groups (fun s => s) accounts_db true
                   (sample_group_form "새조합" "111-11-11111" "new"))
     = [duplicate_group_flash].
Proof.
  destruct (duplicate_creation_rejected (fun s => s) accounts_db true
              (registration "dealer" "333")
              (sample_group_form "새조합" "111-11-11111" "new") 1) as (H1 & H2).
  destruct (H1 eq_refl (or_introl eq_refl)) as (Ha & Hb).
  destruct (H2 eq_refl) as (Hc & Hd).
  split; [exact Ha|]. split.
  - apply Hb. repeat split; discriminate.
  - split; [exact Hc|]. apply Hd. repeat split; discriminate.
Defined.

(** C8 as stated fails for a blank business number: a member without
    business number is stored (blank), and a second registration without
    business number is accepted and written, because the duplicate test
    on business numbers is skipped for a blank one. *)
Lemma duplicate_creation_rejected_counterexample :
  business_number_taken accounts_db (rf_business_number (registration "newcomer" ""))
  = true
  /\ List.length (members accounts_db) = 2%nat
  /\ List.length
       (members (db_after (register (fun s => s) accounts_db true
                             (registration "newcomer" "")))) = 3%nat
  /\ map category
       (db_flashed (register (fun s => s) accounts_db true
                      (registration "newcomer" ""))) = ["success"%string].
Proof. repeat split. Qed.

(** ** The gate of the global-admin screens *)

Lemma role_is_admin_str (o : option string) :
  role_is_admin (Some (RoleStr (text_field o))) = true -> o = Some "admin"%string.
Proof.
  destruct o as [s|]; simpl; [|discriminate].
  intros H. apply String.eqb_eq in H. congruence.
Qed.

Lemma get_member_id (i : Z) (ms : list Member) (m : Member) :
  get_member i ms = Some m -> member_id m = i.
Proof.
  unfold get_member. intros H. apply find_some in H. destruct H as [_ H].
  apply Z.eqb_eq, H.
Qed.

(* the logged-in user is the member stored under the id of the session *)
Lemma current_user_Some (ms : list Member) (db_present : bool) (f : faults)
    (session_user_id : option Z) (m : Member) :
  current_user ms db_present f session_user_id = Some m ->
  db_present = true
  /\ load_user_raises f = false
  /\ session_user_id = Some (member_id m)
  /\ get_member (member_id m) ms = Some m.
Proof.
  unfold current_user, load_user.
  destruct session_user_id as [uid|]; [|discriminate].
  destruct db_present; simpl; [|discriminate].
  destruct (load_user_raises f); [discriminate|].
  intros H. rewrite (get_member_id _ _ _ H). auto.
Qed.

Lemma lookup_role_admin (ms : list Member) (f : faults) (m : Member)
    (ur : option role_value) (user_role written : option role_value) :
  get_member (member_id m) ms = Some m ->
  lookup_role ms f m (member_id m) ur = inl (user_role, written) ->
  role_is_admin user_role = true ->
  role_query_raises f = true /\ attr_role_raises f = false
  /\ role m = Some "admin"%string
  /\ written = Some (RoleStr "admin").
Proof.
  intros Hm. unfold lookup_role. rewrite Hm.
  destruct (role_query_raises f); [|intros H; injection H as <- <-; discriminate].
  destruct (attr_role_raises f); [intros H; injection H as <- <-; discriminate|].
  destruct (truthy (role m)); intros H; injection H as <- <-; [|discriminate].
  intros Hr. pose proof (role_is_admin_str _ Hr) as E. rewrite E. auto.
Qed.

(* the role the gate goes by when the session holds one other than
   'member': the session's, with no read of Member.role *)
Lemma resolve_role_session (ms : list Member) (f : faults) (m : Member)
    (user_id : Z) (s : string) :
  s <> "member"%string ->
  resolve_role ms f m user_id (Some s) = inl (Some (RoleStr s), None).
Proof.
  intros H. unfold resolve_role. simpl.
  apply String.eqb_neq in H. rewrite H. reflexivity.
Qed.

(* The role query returns a Row, which goes into the session as it is: a
   logged-in request whose session holds no role or 'member' ends in
   HTTP 500 when the query returns, whatever the row holds. *)
Lemma admin_required_row_in_session (ms : list Member) (db_present : bool)
    (f : faults) (session_user_id : option Z) (srole : option string)
    (m : Member) :
  current_user ms db_present f session_user_id = Some m ->
  srole = None \/ srole = Some "member"%string ->
  role_query_raises f = false ->
  admin_required ms db_present f session_user_id srole = (ServerError, srole).
Proof.
  intros Hu Hs Hq. unfold admin_required. rewrite Hu.
  destruct (current_user_Some _ _ _ _ _ Hu) as (-> & _ & _ & Hm). cbn [negb].
  assert (E : resolve_role ms f m (member_id m) srole
              = inl (Some (RoleRow (role m)), Some (RoleRow (role m)))).
  { unfold resolve_role, lookup_role. rewrite Hq, Hm.
    destruct Hs as [->| ->]; reflexivity. }
  rewrite E. reflexivity.
Qed.

(** C9, as amended.  Whenever admin_required lets a request through to the
    view, the caller is logged in, has a Member row in storage whose
    approval_status, read from that row for this request, is approved
    ('승인'), and the role the gate went by is 'admin': the one the session
    holds, with no read of the stored role, or, when the session holds none
    or 'member' and the role query raises, the one of the login object.
    A logged-in caller whose session holds 'admin' and whose row is
    approved reaches the view.  A logged-in caller whose session holds a
    role other than 'admin' and 'member', and an admin by session whose row
    is not approved or whose approval cannot be read, are redirected to the
    login page with a warning.  An anonymous request is redirected to login
    with the message of flask-login, category 'message'.  A request whose
    session holds a role other than 'member' ends in the view or in a
    redirect to login with a flashed message, whichever read of storage or
    the view itself raises; every request ends in one of these or in
    HTTP 500. *)
Theorem admin_required_gate (ms : list Member) (db_present : bool) (f : faults)
    (session_user_id : option Z) (srole : option string) :
  let r := admin_required ms db_present f session_user_id srole in
  let user := current_user ms db_present f session_user_id in
  (fst r = ViewReturned ->
   exists m,
     user = Some m
     /\ get_member (member_id m) ms = Some m
     /\ approval_status m = Some ApprovalApproved
     /\ approval_query_raises f = false
     /\ (srole = Some "admin"%string
         \/ ((srole = None \/ srole = Some "member"%string)
             /\ role_query_raises f = true
             /\ role m = Some "admin"%string)))
  /\ (forall m,
        user = Some m -> srole = Some "admin"%string ->
        approval_query_raises f = false ->
        approval_status m = Some ApprovalApproved ->
        view_raises f = false ->
        r = (ViewReturned, srole))
  /\ (forall m s,
        user = Some m -> srole = Some s ->
        s <> "admin"%string -> s <> "member"%string ->
        r = (RedirectLogin (mkFlash "관리자만 접근 가능합니다." "warning"), srole))
  /\ (forall m,
        user = Some m -> srole = Some "admin"%string ->
        approval_query_raises f = true
        \/ approval_status m <> Some ApprovalApproved ->
        exists msg, r = (RedirectLogin (mkFlash msg "warning"), srole))
  /\ (user = None ->
      r = (RedirectLogin (mkFlash "Please log in to access this page." "message"),
           srole))
  /\ (forall s,
        srole = Some s -> s <> "member"%string ->
        fst r = ViewReturned
        \/ exists msg cat,
             fst r = RedirectLogin (mkFlash msg cat)
             /\ (cat = "warning"%string \/ cat = "danger"%string
                 \/ cat = "message"%string))
  /\ (fst r = ViewReturned
      \/ fst r = ServerError
      \/ exists msg cat,
           fst r = RedirectLogin (mkFlash msg cat)
           /\ (cat = "warning"%string \/ cat = "danger"%string
               \/ cat = "message"%string)).
Proof.
  intros r user. subst r user.
  split; [|split; [|split; [|split; [|split; [|split]]]]].
  - unfold admin_required.
    destruct (current_user ms db_present f session_user_id) as [m|] eqn:Hu;
      [|discriminate].
    destruct (current_user_Some _ _ _ _ _ Hu) as (-> & _ & _ & Hm). simpl.
    destruct (resolve_role ms f m (member_id m) srole)
      as [[ur written]|fl] eqn:Hres; [|discriminate].
    destruct (role_is_admin ur) eqn:Hadm; simpl;
      [|destruct written as [[s|o]|]; discriminate].
    destruct (approval_query_raises f);
      [destruct written as [[s|o]|]; discriminate|].
    rewrite Hm.
    destruct (approval_status m) as [[|]|] eqn:Ha; simpl;
      try (destruct written as [[s|o]|]; discriminate).
    intros _. exists m. repeat split; auto.
    unfold resolve_role in Hres.
    destruct (is_none srole || opt_str_eqb srole "member") eqn:Hs.
    + destruct (lookup_role_admin _ _ _ _ _ _ Hm Hres Hadm) as (H1 & _ & H3 & _).
      right. split; [|auto].
      destruct srole as [s|]; [|auto]. simpl in Hs.
      apply String.eqb_eq in Hs. right. congruence.
    + injection Hres as <- <-. left.
      destruct srole as [s|]; simpl in Hadm; [|discriminate].
      apply String.eqb_eq in Hadm. congruence.
  - intros m Hu -> Hq Ha Hv. unfold admin_required. rewrite Hu.
    destruct (current_user_Some _ _ _ _ _ Hu) as (-> & _ & _ & Hm). cbn [negb].
    rewrite resolve_role_session by discriminate. simpl.
    rewrite Hq, Hm, Ha, Hv. reflexivity.
  - intros m s Hu -> Hs1 Hs2. unfold admin_required. rewrite Hu.
    destruct (current_user_Some _ _ _ _ _ Hu) as (-> & _ & _ & Hm). cbn [negb].
    rewrite resolve_role_session by exact Hs2. simpl.
    apply String.eqb_neq in Hs1. rewrite Hs1. reflexivity.
  - intros m Hu -> H. unfold admin_required. rewrite Hu.
    destruct (current_user_Some _ _ _ _ _ Hu) as (-> & _ & _ & Hm). cbn [negb].
    rewrite resolve_role_session by discriminate. simpl.
    destruct (approval_query_raises f); [eexists; reflexivity|].
    destruct H as [H|H]; [discriminate|]. rewrite Hm.
    destruct (approval_status m) as [[|]|]; simpl;
      try (eexists; reflexivity). congruence.
  - intros Hu. unfold admin_required. rewrite Hu. reflexivity.
  - intros s -> Hs. unfold admin_required.
    destruct (current_user ms db_present f session_user_id) as [m|];
      [|right; do 2 eexists; split; [reflexivity|auto]].
    destruct (negb db_present);
      [right; do 2 eexists; split; [reflexivity|auto]|].
    rewrite resolve_role_session by exact Hs.
    destruct (negb _); [right; do 2 eexists; split; [reflexivity|auto]|].
    destruct (approval_query_raises f);
      [right; do 2 eexists; split; [reflexivity|auto]|].
    destruct (negb _); [right; do 2 eexists; split; [reflexivity|auto]|].
    destruct (view_raises f);
      [right; do 2 eexists; split; [reflexivity|auto]|left; reflexivity].
  - unfold admin_required.
    destruct (current_user ms db_present f session_user_id) as [m|];
      [|right; right; do 2 eexists; split; [reflexivity|auto]].
    destruct (negb db_present);
      [right; right; do 2 eexists; split; [reflexivity|auto]|].
    destruct (resolve_role ms f m (member_id m) srole)
      as [[ur written]|[msg cat]] eqn:Hres.
    + assert (Hw : forall msg cat,
                 cat = "warning"%string \/ cat = "danger"%string ->
                 let r := match written with
                          | Some (RoleRow _) => (ServerError, srole)
                          | Some (RoleStr s) =>
                              (RedirectLogin (mkFlash msg cat), Some s)
                          | None => (RedirectLogin (mkFlash msg cat), srole)
                          end in
                 fst r = ViewReturned \/ fst r = ServerError
                 \/ exists msg cat,
                      fst r = RedirectLogin (mkFlash msg cat)
                      /\ (cat = "warning"%string \/ cat = "danger"%string
                          \/ cat = "message"%string)).
      { intros msg cat Hc. destruct written as [[s|o]|]; simpl; auto;
          right; right; exists msg, cat; intuition. }
      destruct (negb (role_is_admin ur)); [apply Hw; auto|].
      destruct (approval_query_raises f); [apply Hw; auto|].
      destruct (negb _); [apply Hw; auto|].
      destruct (view_raises f); [apply Hw; auto|].
      destruct written as [[s|o]|]; simpl; auto.
    + right; right. exists msg, cat. split; [reflexivity|].
      unfold resolve_role in Hres.
      destruct (is_none srole || opt_str_eqb srole "member"); [|discriminate].
      unfold lookup_role in Hres.
      repeat match type of Hres with
             | context [if ?c then _ else _] => destruct c
             | context [match get_member ?i ?l with _ => _ end] =>
                 destruct (get_member i l)
             end;
        try discriminate; injection Hres as <- <-; auto.
Qed.

Lemma admin_required_gate_witness :
  admin_required [admin_member; waiting_admin] true no_faults (Some 1)
    (Some "admin"%string) = (ViewReturned, Some "admin"%string)
  /\ (exists msg,
        admin_required [admin_member; waiting_admin] true no_faults (Some 2)
          (Some "admin"%string)
        = (RedirectLogin (mkFlash msg "warning"), Some "admin"%string))
  /\ admin_required [admin_member; waiting_admin] true no_faults (Some 1)
       (Some "partner_admin"%string)
     = (RedirectLogin (mkFlash "관리자만 접근 가능합니다." "warning"),
        Some "partner_admin"%string).
Proof.
  split; [|split].
  - destruct (admin_required_gate [admin_member; waiting_admin] true no_faults
                (Some 1) (Some "admin"%string)) as (_ & H & _).
    apply (H admin_member); reflexivity.
  - destruct (admin_required_gate [admin_member; waiting_admin] true no_faults
                (Some 2) (Some "admin"%string)) as (_ & _ & _ & H & _).
    apply (H waiting_admin); [reflexivity|reflexivity|].
    right. discriminate.
  - destruct (admin_required_gate [admin_member; waiting_admin] true no_faults
                (Some 1) (Some "partner_admin"%string)) as (_ & _ & H & _).
    apply (H admin_member "partner_admin"%string); try reflexivity; discriminate.
Defined.

(** C9 as stated fails.  The role is not re-verified against storage: a
    member whose stored role is 'member' passes with a session that still
    holds 'admin'.  A failed check does not always redirect with a warning:
    an anonymous request is redirected with a message of category
    'message', and a logged-in member whose session holds 'member' ends in
    HTTP 500. *)
Lemma admin_required_gate_counterexample :
  role sample_member = Some "member"%string
  /\ admin_required [admin_member; sample_member] true no_faults (Some 7)
       (Some "admin"%string)
     = (ViewReturned, Some "admin"%string)
  /\ admin_required [admin_member; sample_member] true no_faults (Some 7)
       (Some "member"%string)
     = (ServerError, Some "member"%string)
  /\ admin_required [admin_member; sample_member] true no_faults None None
     = (RedirectLogin (mkFlash "Please log in to access this page." "message"),
        None).
Proof. repeat split. Qed.
(** * Further properties of the code *)

(** ** recompute_status: what it leaves alone, and how it moves with time *)

(** X1. A recomputation writes status, start_at and end_at and nothing
    else, also on the object it leaves when it raises; it never moves a
    start_at that is already stored, nor the end_at stored with it; and on
    an expired application it returns and changes nothing. *)
Theorem recompute_status_frame (clock : Z) (a : InsuranceApplication) :
  let r := object_after (recompute_status clock a) in
  set_end_at (end_at a) (set_start_at (start_at a) (set_status (status a) r)) = a
  /\ (start_at a <> None -> start_at r = start_at a /\ end_at r = end_at a)
  /\ (status a = Expired -> recompute_status clock a = Returned a).
Proof.
  cbv zeta. split; [|split].
  - apply recompute_status_writes.
  - apply recompute_status_keeps_window.
  - intros H. rewrite recompute_status_phases.
    rewrite activate_settled by (right; exact H).
    destruct (expire_cases clock (_ensure_aware (end_at a)) a) as [E|E];
      rewrite E; [reflexivity|].
    destruct a; simpl in H; subst; reflexivity.
Qed.

Lemma recompute_status_frame_witness :
  start_at (object_after (recompute_status (clock_at 2024 5 1 0 0) running_app))
  = Some (kst_at 2024 3 15 0 0)
  /\ end_at (object_after (recompute_status (clock_at 2024 5 1 0 0) running_app))
     = Some (kst_at 2024 4 14 0 0).
Proof.
  destruct (recompute_status_frame (clock_at 2024 5 1 0 0) running_app)
    as (_ & H & _).
  apply H. discriminate.
Defined.

Lemma status_recompute (clock : Z) (a r : InsuranceApplication) :
  recompute_status clock a = Returned r ->
  status r
  = if ended clock a then Expired
    else if is_pending (status a) && due clock a then Active
    else status a.
Proof.
  unfold recompute_status, ended, due.
  destruct (_ensure_aware (end_at a)) as [e|];
    destruct (_ensure_aware (approved_at a)) as [t|];
    destruct (status a) eqn:Hs; simpl;
    try destruct (dt_add t _);
    split_bools; simpl; try destruct (start_at a); simpl;
    repeat match goal with
           | |- context [dt_add ?x ?y] => destruct (dt_add x y)
           end;
    intros R; try discriminate; injection R as <-; simpl;
    rewrite ?Hs; reflexivity.
Qed.

Lemma dt_ge_later (clock clock' : Z) (x : datetime) :
  clock <= clock' ->
  dt_ge (datetime_now clock) x = true -> dt_ge (datetime_now clock') x = true.
Proof.
  unfold dt_ge, utc_usec, datetime_now. simpl. intros H H1.
  apply Z.leb_le in H1. apply Z.leb_le. lia.
Qed.

(** X2. Time only moves the status forward: when the recomputations at an
    earlier and at a later clock reading both return, the status at the
    later one is never behind the status at the earlier one, for the same
    stored application; and both return when the dates the recomputation
    adds to stay inside the range of datetime. *)
Theorem recompute_status_clock_monotone (clock clock' : Z)
    (a : InsuranceApplication) :
  clock <= clock' ->
  (forall r r',
     recompute_status clock a = Returned r ->
     recompute_status clock' a = Returned r' ->
     status_rank (status r) <= status_rank (status r'))
  /\ (in_range a ->
      exists r r',
        recompute_status clock a = Returned r
        /\ recompute_status clock' a = Returned r'
        /\ status_rank (status r) <= status_rank (status r')).
Proof.
  intros H.
  assert (Hm : forall r r',
             recompute_status clock a = Returned r ->
             recompute_status clock' a = Returned r' ->
             status_rank (status r) <= status_rank (status r')).
  { intros r r' R R'.
    rewrite (status_recompute clock a r R), (status_recompute clock' a r' R').
    assert (He : ended clock a = true -> ended clock' a = true).
    { unfold ended. destruct (_ensure_aware (end_at a)); [|discriminate].
      apply dt_ge_later, H. }
    assert (Hd : due clock a = true -> due clock' a = true).
    { unfold due. destruct (_ensure_aware (approved_at a)); [|discriminate].
      destruct (dt_add _ _); [|discriminate]. apply dt_ge_later, H. }
    destruct (ended clock a); [rewrite He by reflexivity; lia|].
    destruct (due clock a); [rewrite Hd by reflexivity|];
      destruct (ended clock' a), (due clock' a), (status a); simpl; lia. }
  split; [exact Hm|].
  intros Hr.
  destruct (recompute_status_in_range clock a Hr) as [r R].
  destruct (recompute_status_in_range clock' a Hr) as [r' R'].
  exists r, r'. auto.
Qed.

Lemma recompute_status_clock_monotone_witness :
  exists r r',
    recompute_status (clock_at 2024 3 1 11 0) scenario_app = Returned r
    /\ recompute_status (clock_at 2024 5 1 0 0) scenario_app = Returned r'
    /\ status_rank (status r) <= status_rank (status r').
Proof.
  apply (recompute_status_clock_monotone (clock_at 2024 3 1 11 0)
           (clock_at 2024 5 1 0 0) scenario_app).
  - vm_compute. discriminate.
  - split; [intros t Ht; injection Ht as <-|intros _]; discriminate.
Defined.

(* an application with its window fixed, recomputed *)
Lemma window_fixed_timeline (clock0 clock : Z) (a r0 : InsuranceApplication)
    (window_end active_from : datetime) :
  window_fixed (datetime_now clock0) a r0 ->
  dt_add (midnight (desired_start_date a)) (timedelta_days 30) = Some window_end ->
  dt_add (datetime_now clock0) (timedelta_hours 2) = Some active_from ->
  exists r,
    recompute_status clock r0 = Returned r
    /\ status r
       = (if dt_ge (datetime_now clock) window_end then Expired
          else if dt_ge (datetime_now clock) active_from then Active
          else UnionApproved)
    /\ approved_at r = Some (datetime_now clock0)
    /\ start_at r = Some (midnight (desired_start_date a))
    /\ end_at r = Some window_end.
Proof.
  intros (H1 & H2 & (e & He' & H3) & H4) He Hd.
  assert (e = window_end) by congruence. subst e.
  destruct (recompute_status_in_range clock r0) as [r R].
  { split.
    - intros t Ht. assert (t = datetime_now clock0) by congruence. subst t.
      change (aware (datetime_now clock0)) with (datetime_now clock0). congruence.
    - congruence. }
  exists r. split; [exact R|].
  pose proof (recompute_status_approved_at clock r0) as Ea.
  destruct (recompute_status_keeps_window clock r0) as [Es Ee]; [congruence|].
  rewrite R in Ea, Es, Ee. cbn [object_after] in Ea, Es, Ee.
  split; [|repeat split; congruence].
  rewrite (status_recompute clock r0 r R). unfold ended, due.
  rewrite H1, H3, H4, !ensure_aware_Some.
  change (aware (datetime_now clock0)) with (datetime_now clock0). rewrite Hd.
  replace (aware window_end) with window_end
    by (symmetry;
        apply (dt_add_aware (midnight (desired_start_date a)) _ _ He)).
  reflexivity.
Qed.

(** X3. The whole timeline of an application approved with no start yet
    (global-admin handler; partner-admin handler when end_at was unset
    too), when desired_start_date + 30 days and the approval time + 2 hours
    are inside the range of datetime.  The approval returns, and the
    recomputation of what it returned, at any reading of the clock,
    returns: expired from Seoul midnight of desired_start_date + 30 days
    on, even within two hours of the approval; otherwise active from two
    hours after the approval on; otherwise still union_approved.  The
    window and the approval time stay as the approval fixed them. *)
Theorem approved_timeline (clock0 clock : Z) (a : InsuranceApplication)
    (window_end active_from : datetime) :
  start_at a = None ->
  let now0 := datetime_now clock0 in
  let now := datetime_now clock in
  dt_add (midnight (desired_start_date a)) (timedelta_days 30) = Some window_end ->
  dt_add now0 (timedelta_hours 2) = Some active_from ->
  let expected :=
    if dt_ge now window_end then Expired
    else if dt_ge now active_from then Active
    else UnionApproved in
  let as_expected (approved : option InsuranceApplication) :=
    exists r0 r,
      approved = Some r0
      /\ recompute_status clock r0 = Returned r
      /\ status r = expected
      /\ approved_at r = Some now0
      /\ start_at r = Some (midnight (desired_start_date a))
      /\ end_at r = Some window_end in
  as_expected (admin_approve_one now0 a)
  /\ (end_at a = None -> as_expected (partner_approve_one now0 a)).
Proof.
  intros Hs now0 now He Hd expected as_expected.
  assert (Ha : forall r0, window_fixed now0 a r0 ->
                          as_expected (Some r0)).
  { intros r0 Hw.
    destruct (window_fixed_timeline clock0 clock a r0 window_end active_from
                Hw He Hd) as (r & H).
    exists r0, r. split; [reflexivity|exact H]. }
  split.
  - destruct (admin_approve_one_window now0 a window_end Hs He) as (r0 & -> & Hw).
    apply Ha, Hw.
  - intros Hen.
    destruct (partner_approve_one_window now0 a window_end Hs Hen He)
      as (r0 & -> & Hw).
    apply Ha, Hw.
Qed.

Lemma approved_timeline_witness :
  (exists r0 r,
     admin_approve_one (datetime_now (clock_at 2024 3 1 10 0)) fresh_app = Some r0
     /\ recompute_status (clock_at 2024 3 1 11 0) r0 = Returned r
     /\ status r = UnionApproved)
  /\ (exists r0 r,
        admin_approve_one (datetime_now (clock_at 2024 3 1 10 0)) fresh_app = Some r0
        /\ recompute_status (clock_at 2024 3 20 0 0) r0 = Returned r
        /\ status r = Active)
  /\ (exists r0 r,
        admin_approve_one (datetime_now (clock_at 2024 3 1 10 0)) fresh_app = Some r0
        /\ recompute_status (clock_at 2024 4 14 0 0) r0 = Returned r
        /\ status r = Expired).
Proof.
  split; [|split].
  - destruct (approved_timeline (clock_at 2024 3 1 10 0) (clock_at 2024 3 1 11 0)
                fresh_app (kst_at 2024 4 14 0 0) (kst_at 2024 3 1 12 0)
                eq_refl eq_refl eq_refl) as ((r0 & r & H1 & H2 & H3 & _) & _).
    exists r0, r. auto.
  - destruct (approved_timeline (clock_at 2024 3 1 10 0) (clock_at 2024 3 20 0 0)
                fresh_app (kst_at 2024 4 14 0 0) (kst_at 2024 3 1 12 0)
                eq_refl eq_refl eq_refl) as ((r0 & r & H1 & H2 & H3 & _) & _).
    exists r0, r. auto.
  - destruct (approved_timeline (clock_at 2024 3 1 10 0) (clock_at 2024 4 14 0 0)
                fresh_app (kst_at 2024 4 14 0 0) (kst_at 2024 3 1 12 0)
                eq_refl eq_refl eq_refl) as ((r0 & r & H1 & H2 & H3 & _) & _).
    exists r0, r. auto.
Defined.
(** ** Tables under the primary key *)

Lemma id_unique (t : app_table) (x y : InsuranceApplication) :
  NoDup (map id t) -> In x t -> In y t -> id x = id y -> x = y.
Proof.
  induction t as [|z t IH]; simpl; [contradiction|].
  intros Hn Hx Hy E. inversion Hn as [|? ? Hz Hn']; subst.
  destruct Hx as [<-|Hx], Hy as [<-|Hy]; auto.
  - exfalso. apply Hz. rewrite E. apply in_map, Hy.
  - exfalso. apply Hz. rewrite <- E. apply in_map, Hx.
Qed.

Lemma filter_map_frame {A} (p : A -> bool) (f : A -> A) (l : list A) :
  (forall x, In x l -> f x = x \/ (p x = false /\ p (f x) = false)) ->
  filter p (map f l) = filter p l.
Proof.
  induction l as [|x l IH]; simpl; intros H; [reflexivity|].
  rewrite IH by (intros y Hy; apply H; auto).
  destruct (H x (or_introl eq_refl)) as [E|[E1 E2]].
  - rewrite E. reflexivity.
  - rewrite E1, E2. reflexivity.
Qed.

Lemma filter_filter_frame {A} (p q : A -> bool) (l : list A) :
  (forall x, In x l -> q x = false -> p x = false) ->
  filter p (filter q l) = filter p l.
Proof.
  induction l as [|x l IH]; simpl; intros H; [reflexivity|].
  rewrite <- IH by (intros y Hy; apply H; auto).
  destruct (q x) eqn:Q; simpl; [reflexivity|].
  rewrite (H x (or_introl eq_refl) Q). reflexivity.
Qed.

(* replacing or deleting the row found under a key leaves alone every row
   a filter keeps, when the filter drops both the old and the new row *)
Lemma filter_put_app (p : InsuranceApplication -> bool) (t : app_table)
    (a a' : InsuranceApplication) :
  NoDup (map id t) -> In a t -> id a' = id a ->
  p a = false -> p a' = false ->
  filter p (put_app a' t) = filter p t.
Proof.
  intros Hn Ha Hid Hp Hp'. unfold put_app. apply filter_map_frame.
  intros x Hx. destruct (id x =? id a') eqn:E; [|left; reflexivity].
  right. apply Z.eqb_eq in E.
  rewrite (id_unique t x a Hn Hx Ha) by congruence. auto.
Qed.

Lemma filter_delete_app (p : InsuranceApplication -> bool) (t : app_table)
    (a : InsuranceApplication) :
  NoDup (map id t) -> In a t -> p a = false ->
  filter p (delete_app (id a) t) = filter p t.
Proof.
  intros Hn Ha Hp. unfold delete_app. apply filter_filter_frame.
  intros x Hx E. apply negb_false_iff, Z.eqb_eq in E.
  rewrite (id_unique t x a Hn Hx Ha E). exact Hp.
Qed.

Lemma get_app_put_app_other (j : Z) (a' : InsuranceApplication) (t : app_table) :
  id a' <> j -> get_app j (put_app a' t) = get_app j t.
Proof.
  intros H. unfold get_app, put_app.
  induction t as [|x t IH]; simpl; [reflexivity|].
  destruct (id x =? id a') eqn:E.
  - apply Z.eqb_eq in E.
    replace (id a' =? j) with false by (symmetry; apply Z.eqb_neq; lia).
    replace (id x =? j) with false by (symmetry; apply Z.eqb_neq; lia).
    exact IH.
  - destruct (id x =? j); [reflexivity|exact IH].
Qed.

Lemma get_app_delete_app_other (i j : Z) (t : app_table) :
  i <> j -> get_app j (delete_app i t) = get_app j t.
Proof.
  intros H. unfold get_app, delete_app.
  induction t as [|x t IH]; simpl; [reflexivity|].
  destruct (id x =? i) eqn:E; simpl.
  - apply Z.eqb_eq in E.
    replace (id x =? j) with false by (symmetry; apply Z.eqb_neq; lia).
    exact IH.
  - destruct (id x =? j); [reflexivity|exact IH].
Qed.

Lemma outside_own_group (g : Z) (a : InsuranceApplication) :
  partner_group_id a = g -> negb (partner_group_id a =? g) = false.
Proof. intros ->. rewrite Z.eqb_refl. reflexivity. Qed.

(** X4. Tenant isolation of the partner-admin approval screen: whatever
    the request (bulk approval, approval, deletion or edit of any
    application id, any form), the applications of every other partner
    group are afterwards exactly what they were. *)
Theorem partner_approval_isolated (sess : session) (g clock : Z)
    (commit_ok : bool) (action : string) (app_id : int_field)
    (form : edit_form) (f_memo : option string) (t : app_table) :
  NoDup (map id t) ->
  session_partner_group_id sess = Some g ->
  outside_group g
    (table (partner_admin_insurance_approval sess clock commit_ok action app_id
              form f_memo t))
  = outside_group g t.
Proof.
  intros Hn Hg. unfold partner_admin_insurance_approval. rewrite Hg.
  destruct (negb (opt_str_eqb (user_type sess) "partner_admin")); [reflexivity|].
  destruct (g =? 0); [reflexivity|].
  destruct (String.eqb action "bulk_approve").
  { destruct (for_each _ t) as [approved|] eqn:E; [|reflexivity].
    destruct commit_ok; [|reflexivity]. simpl.
    apply (for_each_filter _ _ _ _) with (2 := E). intros x y _ B.
    destruct ((partner_group_id x =? g) && is_none (approved_at x)) eqn:Ex;
      [|left; congruence].
    right. apply andb_true_iff in Ex. destruct Ex as [Ex _].
    destruct (partner_approve_one_stamp (datetime_now clock) x y B)
      as (_ & _ & _ & Hp).
    rewrite Hp, Ex. auto. }
  destruct (_ || _); [|reflexivity].
  destruct app_id as [| |i]; try reflexivity.
  destruct (get_app i t) as [a|] eqn:Ha; [|reflexivity].
  destruct (partner_group_id a =? g) eqn:Eg; simpl; [|reflexivity].
  apply Z.eqb_eq in Eg. pose proof (get_app_In _ _ _ Ha) as Hin.
  pose proof (outside_own_group g a Eg) as Ho.
  destruct (String.eqb action "approve").
  { destruct (partner_approve_one (datetime_now clock) a) as [r|] eqn:B;
      [|reflexivity].
    destruct commit_ok; [|reflexivity]. simpl.
    destruct (partner_approve_one_stamp (datetime_now clock) a r B)
      as (_ & _ & Hi & Hp).
    apply (filter_put_app _ t a); auto.
    apply outside_own_group. congruence. }
  destruct (String.eqb action "delete").
  { destruct commit_ok; [|reflexivity]. simpl.
    apply filter_delete_app; auto. }
  unfold saved_date. destruct (parse_date (f_desired_start_date form));
    [|reflexivity].
  destruct commit_ok; [|reflexivity]. simpl.
  apply (filter_put_app _ t a); auto.
Qed.

Lemma partner_approval_isolated_witness :
  outside_group 1
    (table (partner_admin_insurance_approval sample_session
              (clock_at 2024 3 1 10 0) true "bulk_approve" IntAbsent blank_form
              None [fresh_app; other_group_app]))
  = [other_group_app].
Proof.
  apply (partner_approval_isolated sample_session 1 (clock_at 2024 3 1 10 0) true
           "bulk_approve" IntAbsent blank_form None [fresh_app; other_group_app]).
  - repeat constructor; simpl; intuition discriminate.
  - reflexivity.
Defined.
Lemma in_put_app (a' r : InsuranceApplication) (t : app_table) :
  In r (put_app a' t) -> In r t \/ r = a'.
Proof.
  unfold put_app. intros H. apply in_map_iff in H. destruct H as (x & E & Hx).
  destruct (id x =? id a'); [right; congruence|left; congruence].
Qed.

Lemma in_delete_app (i : Z) (r : InsuranceApplication) (t : app_table) :
  In r (delete_app i t) -> In r t.
Proof. unfold delete_app. intros H. apply filter_In in H. apply H. Qed.

(** X5. On the member screens a member reaches only applications they
    created: whatever a logged-in member sends to insurance or to
    partner_insurance (save or delete, any id, any form), the applications
    created by anyone else, or by nobody, are afterwards exactly what they
    were. *)
Theorem member_screens_isolated (uid : Z) (role : string) (g : option Z)
    (commit_ok : bool) (action : edit_action) (row_id : int_field)
    (form : edit_form) (f_memo : option string) (t : app_table) :
  NoDup (map id t) ->
  created_by_others uid
    (table (insurance uid commit_ok action row_id form f_memo t))
  = created_by_others uid t
  /\ created_by_others uid
       (table (partner_insurance (MemberLogin uid role g) commit_ok action row_id
                 form f_memo t))
     = created_by_others uid t.
Proof.
  intros Hn. split.
  - unfold insurance. destruct row_id as [| |i]; try reflexivity.
    destruct (get_app i t) as [a|] eqn:Ha; [|reflexivity].
    pose proof (get_app_In _ _ _ Ha) as Hin.
    destruct (negb (opt_Z_eqb (created_by_member_id a) uid)) eqn:Ho; [reflexivity|].
    destruct action; destruct (is_none (approved_at a)); try reflexivity.
    + destruct (date_field_given _).
      * unfold saved_date. destruct (parse_date _); [|reflexivity].
        destruct commit_ok; [|reflexivity]. simpl.
        apply (filter_put_app _ t a); auto.
      * destruct commit_ok; [|reflexivity]. simpl.
        apply (filter_put_app _ t a); auto.
    + destruct commit_ok; [|reflexivity]. simpl.
      apply filter_delete_app; auto.
  - unfold partner_insurance.
    destruct (String.eqb role "member" && negb (is_none g) && negb (opt_Z_eqb g 0));
      [|reflexivity].
    destruct g as [g|]; [|reflexivity].
    destruct (g =? 0); [reflexivity|].
    destruct row_id as [| |i]; try reflexivity.
    destruct (get_app i t) as [a|] eqn:Ha; [|reflexivity].
    pose proof (get_app_In _ _ _ Ha) as Hin.
    destruct (negb (partner_group_id a =? g)); [reflexivity|].
    simpl.
    destruct (negb (opt_Z_eqb (created_by_member_id a) uid)) eqn:Ho; [reflexivity|].
    destruct (negb (is_none (approved_at a))); [reflexivity|].
    destruct action.
    + unfold saved_date. destruct (parse_date _); [|reflexivity].
      destruct commit_ok; [|reflexivity]. simpl.
      apply (filter_put_app _ t a); auto.
    + destruct commit_ok; [|reflexivity]. simpl.
      apply filter_delete_app; auto.
Qed.

Lemma member_screens_isolated_witness :
  created_by_others 7
    (table (insurance 7 true Delete (IntOk 12) blank_form None
              [fresh_app; other_member_app]))
  = [other_member_app].
Proof.
  apply (member_screens_isolated 7 "member" (Some 1) true Delete (IntOk 12)
           blank_form None [fresh_app; other_member_app]).
  repeat constructor; simpl; intuition discriminate.
Defined.

(** X6. The member screens never touch the lifecycle: after any request to
    insurance or partner_insurance, by any caller, every stored application
    is one that was stored before under the same id, with the same status,
    approved_at, start_at, end_at, partner group and creator. *)
Theorem member_screens_keep_lifecycle (uid : Z) (who : caller)
    (commit_ok : bool) (action : edit_action) (row_id : int_field)
    (form : edit_form) (f_memo : option string) (t : app_table)
    (r' : InsuranceApplication) :
  In r' (table (insurance uid commit_ok action row_id form f_memo t))
  \/ In r' (table (partner_insurance who commit_ok action row_id form f_memo t)) ->
  exists r, In r t /\ id r = id r' /\ lifecycle r = lifecycle r'.
Proof.
  assert (Hsame : In r' t -> exists r, In r t /\ id r = id r' /\ lifecycle r = lifecycle r')
    by (intros H; exists r'; auto).
  assert (Hput : forall a a', In a t -> id a = id a' -> lifecycle a = lifecycle a' ->
                 In r' (put_app a' t) ->
                 exists r, In r t /\ id r = id r' /\ lifecycle r = lifecycle r').
  { intros a a' Ha Hi Hl H. apply in_put_app in H. destruct H as [H| ->]; auto.
    exists a. auto. }
  assert (Hdel : forall i, In r' (delete_app i t) ->
                 exists r, In r t /\ id r = id r' /\ lifecycle r = lifecycle r')
    by (intros i H; apply Hsame; eapply in_delete_app; eauto).
  intros [H|H].
  - revert H. unfold insurance. destruct row_id as [| |i]; auto.
    destruct (get_app i t) as [a|] eqn:Ha; auto.
    pose proof (get_app_In _ _ _ Ha) as Hin.
    destruct (negb _); auto.
    destruct action; destruct (is_none (approved_at a)); auto.
    + destruct (date_field_given _).
      * unfold saved_date. destruct (parse_date _); auto.
        destruct commit_ok; auto. simpl. apply (Hput a); auto.
      * destruct commit_ok; auto. simpl. apply (Hput a); auto.
    + destruct commit_ok; auto. simpl. apply Hdel.
  - revert H. unfold partner_insurance.
    destruct who as [g|u role g|]; simpl; auto.
    + destruct g as [g|]; auto. destruct (g =? 0); auto.
      destruct row_id as [| |i]; auto.
      destruct (get_app i t) as [a|] eqn:Ha; auto.
      pose proof (get_app_In _ _ _ Ha) as Hin.
      destruct (negb (partner_group_id a =? g)); auto.
      destruct (negb (is_none (approved_at a))); auto.
      destruct action.
      * unfold saved_date. destruct (parse_date _); auto.
        destruct commit_ok; auto. simpl. apply (Hput a); auto.
      * destruct commit_ok; auto. simpl. apply Hdel.
    + destruct (String.eqb role "member" && negb (is_none g) && negb (opt_Z_eqb g 0));
        auto.
      destruct g as [g|]; auto. destruct (g =? 0); auto.
      destruct row_id as [| |i]; auto.
      destruct (get_app i t) as [a|] eqn:Ha; auto.
      pose proof (get_app_In _ _ _ Ha) as Hin.
      destruct (negb (partner_group_id a =? g)); auto.
      simpl. destruct (negb (opt_Z_eqb (created_by_member_id a) u)); auto.
      destruct (negb (is_none (approved_at a))); auto.
      destruct action.
      * unfold saved_date. destruct (parse_date _); auto.
        destruct commit_ok; auto. simpl. apply (Hput a); auto.
      * destruct commit_ok; auto. simpl. apply Hdel.
Qed.

Lemma member_screens_keep_lifecycle_witness :
  exists r, In r [fresh_app; other_member_app]
            /\ id r = 6
            /\ lifecycle r
               = (Applied, None, None, None, 1, Some 7).
Proof.
  destruct (member_screens_keep_lifecycle 7 Anonymous true Save (IntOk 6)
              (dated_form (mkDate 2024 5 1)) None [fresh_app; other_member_app]
              (set_memo (Some ""%string)
                 (set_vehicle "12가3456" "" "" None
                    (set_desired_start_date (mkDate 2024 5 1) fresh_app))))
    as (r & H1 & H2 & H3).
  - left. left. reflexivity.
  - exists r. auto.
Defined.

(* what an approval and a recomputation after it leave alone *)
Lemma approve_recompute_frame (a r r' : InsuranceApplication) :
  set_end_at (end_at a)
    (set_start_at (start_at a)
       (set_status (status a) (set_approved_at (approved_at a) r))) = a ->
  set_end_at (end_at r) (set_start_at (start_at r) (set_status (status r) r')) = r ->
  set_end_at (end_at a)
    (set_start_at (start_at a)
       (set_status (status a) (set_approved_at (approved_at a) r'))) = a.
Proof.
  destruct a, r, r'; simpl. intros H1 H2.
  injection H1; injection H2; intros; subst; reflexivity.
Qed.

Lemma lifecycle_frame_refl (a : InsuranceApplication) :
  set_end_at (end_at a)
    (set_start_at (start_at a)
       (set_status (status a) (set_approved_at (approved_at a) a))) = a.
Proof. destruct a; reflexivity. Qed.

Lemma recompute_lifecycle_frame (clock : Z) (a r : InsuranceApplication) :
  recompute_status clock a = Returned r ->
  set_end_at (end_at a)
    (set_start_at (start_at a)
       (set_status (status a) (set_approved_at (approved_at a) r))) = a.
Proof.
  intros R. apply (approve_recompute_frame a a r (lifecycle_frame_refl a)).
  pose proof (recompute_status_writes clock a) as H. rewrite R in H. exact H.
Qed.

(** X7. What a bulk approval leaves behind.  Through the partner-admin
    handler: the same ids in the same order, and, when the approval of
    every pending application of the caller's group returns, no application
    of that group without approved_at.  Through the global-admin handler:
    the same ids, and, when the approval of every pending application
    returns, no application at all without approved_at.  When the approval
    of one pending application in scope raises (its thirty days leave the
    range of datetime), the table is left as it was.  In every case a
    stored application differs from the one stored before under its id in
    nothing but approved_at, status, start_at and end_at. *)
Theorem bulk_approval_complete (sess : session) (g clock : Z)
    (list_clock : Z -> Z) (list_commit_ok : bool)
    (app_id : int_field) (action : string) (form : edit_form)
    (f_memo : option string) (listed : InsuranceApplication -> bool)
    (t : app_table) :
  partner_session sess g ->
  let tp := table (partner_admin_insurance_approval sess clock true "bulk_approve"
                     app_id form f_memo t) in
  let ta := table (admin_insurance clock list_clock true list_commit_ok "1" action
                     app_id form f_memo listed t) in
  let same_but_lifecycle (r r' : InsuranceApplication) :=
    set_end_at (end_at r) (set_start_at (start_at r) (set_status (status r)
      (set_approved_at (approved_at r) r'))) = r in
  map id tp = map id t
  /\ map id ta = map id t
  /\ ((forall x, In x t -> partner_group_id x = g -> approved_at x = None ->
                 partner_approvable x) ->
      forall r, In r tp -> partner_group_id r = g -> approved_at r <> None)
  /\ ((forall x, In x t -> approved_at x = None -> admin_approvable x) ->
      forall r, In r ta -> approved_at r <> None)
  /\ (forall x, In x t -> partner_group_id x = g -> approved_at x = None ->
                ~ partner_approvable x -> tp = t)
  /\ (forall x, In x t -> approved_at x = None -> ~ admin_approvable x -> ta = t)
  /\ (forall r', In r' tp \/ In r' ta ->
                 exists r, In r t /\ id r = id r' /\ same_but_lifecycle r r').
Proof.
  intros Hs tp ta same. subst tp ta same.
  rewrite (partner_bulk_stored sess g clock true app_id form f_memo t Hs).
  rewrite admin_bulk_stored.
  set (now := datetime_now clock).
  assert (Pframe : forall x y, partner_bulk_body g now x = Some y ->
            id y = id x
            /\ set_end_at (end_at x) (set_start_at (start_at x)
                 (set_status (status x) (set_approved_at (approved_at x) y))) = x).
  { intros x y B. unfold partner_bulk_body in B.
    destruct (_ && _).
    - split; [apply (partner_approve_one_stamp now x y B)
             |apply (partner_approve_one_frame now x y B)].
    - injection B as <-. split; [reflexivity|apply lifecycle_frame_refl]. }
  assert (Aframe : forall x y, admin_bulk_body now x = Some y ->
            id y = id x
            /\ set_end_at (end_at x) (set_start_at (start_at x)
                 (set_status (status x) (set_approved_at (approved_at x) y))) = x).
  { intros x y B. unfold admin_bulk_body in B.
    destruct (is_none _).
    - split; [apply (admin_approve_one_stamp now x y B)
             |apply (admin_approve_one_frame now x y B)].
    - injection B as <-. split; [reflexivity|apply lifecycle_frame_refl]. }
  split; [|split; [|split; [|split; [|split; [|split]]]]].
  - destruct (for_each (partner_bulk_body g now) t) as [tp|] eqn:E; [|reflexivity].
    apply (for_each_map_eq _ id _ _) with (2 := E).
    intros x y _ B. apply (Pframe x y B).
  - destruct (for_each (admin_bulk_body now) t) as [ta|] eqn:E; [|reflexivity].
    destruct (listing_ids list_clock list_commit_ok listed ta
                [mkFlash "일괄 승인되었습니다." "success"]) as [-> _].
    apply (for_each_map_eq _ id _ _) with (2 := E).
    intros x y _ B. apply (Aframe x y B).
  - intros Hall.
    destruct (for_each_returns (partner_bulk_body g now) t) as [tp E].
    { intros x Hx. unfold partner_bulk_body.
      destruct (partner_group_id x =? g) eqn:Eg; simpl; [|discriminate].
      destruct (approved_at x) eqn:Ea; simpl; [discriminate|].
      apply partner_approve_one_returns, Hall; auto. apply Z.eqb_eq, Eg. }
    rewrite E. intros r Hr Hg.
    destruct (for_each_In_inv _ _ _ r E Hr) as (x & _ & B).
    unfold partner_bulk_body in B.
    destruct ((partner_group_id x =? g) && is_none (approved_at x)) eqn:Ex.
    + destruct (partner_approve_one_stamp now x r B) as (-> & _). discriminate.
    + injection B as Exr. subst x. rewrite Hg, Z.eqb_refl in Ex. simpl in Ex.
      destruct (approved_at r); [discriminate|discriminate].
  - intros Hall.
    destruct (for_each_returns (admin_bulk_body now) t) as [ta E].
    { intros x Hx. unfold admin_bulk_body.
      destruct (approved_at x) eqn:Ea; simpl; [discriminate|].
      apply admin_approve_one_returns, Hall; auto. }
    rewrite E. apply listing_keeps_approved.
    apply (admin_bulk_approves now t ta E).
  - intros x Hx Hg Ha Hn.
    rewrite (for_each_raises (partner_bulk_body g now) t x Hx); [reflexivity|].
    unfold partner_bulk_body. rewrite Hg, Z.eqb_refl, Ha. simpl.
    destruct (partner_approve_one now x) eqn:B; [|reflexivity].
    exfalso. apply Hn. apply (partner_approve_one_returns now). congruence.
  - intros x Hx Ha Hn.
    rewrite (for_each_raises (admin_bulk_body now) t x Hx); [reflexivity|].
    unfold admin_bulk_body. rewrite Ha. simpl.
    destruct (admin_approve_one now x) eqn:B; [|reflexivity].
    exfalso. apply Hn. apply (admin_approve_one_returns now). congruence.
  - intros r' [Hr|Hr].
    + destruct (for_each (partner_bulk_body g now) t) as [tp|] eqn:E.
      * destruct (for_each_In_inv _ _ _ r' E Hr) as (x & Hx & B).
        exists x. split; [exact Hx|]. destruct (Pframe x r' B). auto.
      * exists r'. split; [exact Hr|]. split; [reflexivity|].
        apply lifecycle_frame_refl.
    + destruct (for_each (admin_bulk_body now) t) as [ta|] eqn:E.
      * apply listing_In_inv in Hr. destruct Hr as (y & Hy & Hr).
        destruct (for_each_In_inv _ _ _ y E Hy) as (x & Hx & B).
        destruct (Aframe x y B) as [Hi Hf].
        exists x. split; [exact Hx|].
        destruct Hr as [->|R]; [auto|].
        pose proof (recompute_status_id (list_clock (id y)) y) as Ei.
        pose proof (recompute_status_writes (list_clock (id y)) y) as Ew.
        rewrite R in Ei, Ew. cbn [object_after] in Ei, Ew.
        split; [congruence|].
        apply (approve_recompute_frame x y r' Hf Ew).
      * exists r'. split; [exact Hr|]. split; [reflexivity|].
        apply lifecycle_frame_refl.
Qed.

Lemma bulk_approval_complete_witness :
  map id (table (partner_admin_insurance_approval sample_session
                   (clock_at 2024 3 1 10 0) true "bulk_approve" IntAbsent
                   blank_form None [fresh_app; other_group_app]))
  = [6; 11].
Proof.
  apply (bulk_approval_complete sample_session 1 (clock_at 2024 3 1 10 0)
           (at_clock 0) true IntAbsent "" blank_form None all_listed
           [fresh_app; other_group_app]).
  repeat split; discriminate.
Defined.

(** X8. A request that names application i changes no other application
    through its action: in the partner-admin approval screen (any action
    but bulk approval) and in both member screens, the application stored
    under any other id j is afterwards what it was, whether the request
    succeeded, was refused or failed.  In the global-admin screen (without
    the bulk flag) the same holds for action 'save'; after any other action
    the listing of the same request has run, and the application stored
    under j is what it was, or what recompute_status returned for it at the
    reading of the clock of the listing ('save' for an id that is not
    stored goes on to the listing as well). *)
Theorem single_row_request_frame (i j : Z) (sess : session) (uid clock : Z)
    (list_clock : Z -> Z) (who : caller) (commit_ok list_commit_ok : bool)
    (bulk_approve action : string)
    (act : edit_action) (form : edit_form) (f_memo : option string)
    (listed : InsuranceApplication -> bool) (t : app_table) :
  i <> j ->
  let ta := table (admin_insurance clock list_clock commit_ok list_commit_ok
                     bulk_approve action (IntOk i) form f_memo listed t) in
  (action <> "bulk_approve"%string ->
   get_app j (table (partner_admin_insurance_approval sess clock commit_ok action
                       (IntOk i) form f_memo t)) = get_app j t)
  /\ (bulk_approve <> "1"%string ->
      match get_app j t with
      | Some r =>
          exists r', get_app j ta = Some r'
                     /\ (r' = r \/ recompute_status (list_clock j) r = Returned r')
      | None => get_app j ta = None
      end)
  /\ (bulk_approve <> "1"%string -> action = "save"%string ->
      get_app i t <> None ->
      get_app j ta = get_app j t)
  /\ get_app j (table (insurance uid commit_ok act (IntOk i) form f_memo t))
     = get_app j t
  /\ get_app j (table (partner_insurance who commit_ok act (IntOk i) form f_memo t))
     = get_app j t.
Proof.
  intros Hij ta. subst ta.
  assert (Hput : forall a a', get_app i t = Some a -> id a' = id a ->
                   get_app j (put_app a' t) = get_app j t).
  { intros a a' Ha E. apply get_app_put_app_other.
    rewrite E, (get_app_id _ _ _ Ha). exact Hij. }
  assert (Hdel : forall a, get_app i t = Some a ->
                   get_app j (delete_app (id a) t) = get_app j t).
  { intros a Ha. apply get_app_delete_app_other.
    rewrite (get_app_id _ _ _ Ha). exact Hij. }
  assert (Hlist : forall stored messages,
            get_app j stored = get_app j t ->
            match get_app j t with
            | Some r =>
                exists r',
                  get_app j (table (admin_insurance_listing list_clock
                                      list_commit_ok listed stored messages))
                  = Some r'
                  /\ (r' = r \/ recompute_status (list_clock j) r = Returned r')
            | None =>
                get_app j (table (admin_insurance_listing list_clock
                                    list_commit_ok listed stored messages))
                = None
            end).
  { intros stored messages E.
    pose proof (listing_get_app list_clock list_commit_ok listed stored messages j)
      as G.
    cbv zeta in G. rewrite E in G.
    destruct (get_app j t) as [r|] eqn:Hr; [|exact G].
    rewrite (get_app_id _ _ _ Hr) in G. exact G. }
  assert (Hsame : match get_app j t with
                  | Some r =>
                      exists r', get_app j t = Some r'
                                 /\ (r' = r
                                     \/ recompute_status (list_clock j) r
                                        = Returned r')
                  | None => get_app j t = None
                  end).
  { destruct (get_app j t) as [r|]; eauto. }
  split; [|split; [|split; [|split]]].
  - intros Hb. apply String.eqb_neq in Hb.
    unfold partner_admin_insurance_approval.
    destruct (negb _); [reflexivity|].
    destruct (session_partner_group_id sess) as [g|]; [|reflexivity].
    destruct (g =? 0); [reflexivity|]. rewrite Hb.
    destruct (_ || _); [|reflexivity].
    destruct (get_app i t) as [a|] eqn:Ha; [|reflexivity].
    destruct (negb _); [reflexivity|].
    destruct (String.eqb action "approve").
    { destruct (partner_approve_one (datetime_now clock) a) as [r|] eqn:B;
        [|reflexivity].
      destruct commit_ok; [|reflexivity]. simpl. apply (Hput a); auto.
      apply (partner_approve_one_stamp _ a r B). }
    destruct (String.eqb action "delete").
    { destruct commit_ok; [|reflexivity]. simpl. apply (Hdel a); auto. }
    unfold saved_date. destruct (parse_date _); [|reflexivity].
    destruct commit_ok; [|reflexivity]. simpl. apply (Hput a); auto.
  - intros Hb. apply String.eqb_neq in Hb.
    unfold admin_insurance. rewrite Hb.
    destruct (get_app i t) as [a|] eqn:Ha; [|apply Hlist; reflexivity].
    destruct (String.eqb action "approve").
    { destruct (admin_approve_one (datetime_now clock) a) as [r|] eqn:B;
        [|exact Hsame].
      destruct commit_ok; [|apply Hlist; reflexivity].
      apply Hlist. apply (Hput a); auto.
      apply (admin_approve_one_stamp _ a r B). }
    destruct (String.eqb action "delete").
    { destruct commit_ok; [|apply Hlist; reflexivity].
      apply Hlist. apply (Hdel a); auto. }
    destruct (String.eqb action "save_memo").
    { destruct commit_ok; [|apply Hlist; reflexivity].
      apply Hlist. apply (Hput a); auto. }
    destruct (String.eqb action "save"); [|apply Hlist; reflexivity].
    unfold saved_date. destruct (parse_date _); [|exact Hsame].
    destruct commit_ok; [|exact Hsame]. simpl.
    rewrite (Hput a) by auto. exact Hsame.
  - intros Hb -> Hrow. apply String.eqb_neq in Hb.
    unfold admin_insurance. rewrite Hb.
    destruct (get_app i t) as [a|] eqn:Ha; [|congruence].
    simpl. unfold saved_date. destruct (parse_date _); [|reflexivity].
    destruct commit_ok; [|reflexivity]. simpl. apply (Hput a); auto.
  - unfold insurance.
    destruct (get_app i t) as [a|] eqn:Ha; [|reflexivity].
    destruct (negb _); [reflexivity|].
    destruct act; destruct (is_none (approved_at a)); try reflexivity.
    + destruct (date_field_given _).
      * unfold saved_date. destruct (parse_date _); [|reflexivity].
        destruct commit_ok; [|reflexivity]. simpl. apply (Hput a); auto.
      * destruct commit_ok; [|reflexivity]. simpl. apply (Hput a); auto.
    + destruct commit_ok; [|reflexivity]. simpl. apply (Hdel a); auto.
  - unfold partner_insurance.
    destruct who as [g|u role g|]; simpl; [| |reflexivity].
    + destruct g as [g|]; [|reflexivity]. destruct (g =? 0); [reflexivity|].
      destruct (get_app i t) as [a|] eqn:Ha; [|reflexivity].
      destruct (negb (partner_group_id a =? g)); [reflexivity|].
      destruct (negb (is_none (approved_at a))); [reflexivity|].
      destruct act.
      * unfold saved_date. destruct (parse_date _); [|reflexivity].
        destruct commit_ok; [|reflexivity]. simpl. apply (Hput a); auto.
      * destruct commit_ok; [|reflexivity]. simpl. apply (Hdel a); auto.
    + destruct (String.eqb role "member" && negb (is_none g) && negb (opt_Z_eqb g 0));
        [|reflexivity].
      destruct g as [g|]; [|reflexivity]. destruct (g =? 0); [reflexivity|].
      destruct (get_app i t) as [a|] eqn:Ha; [|reflexivity].
      destruct (negb (partner_group_id a =? g)); [reflexivity|].
      simpl. destruct (negb (opt_Z_eqb (created_by_member_id a) u)); [reflexivity|].
      destruct (negb (is_none (approved_at a))); [reflexivity|].
      destruct act.
      * unfold saved_date. destruct (parse_date _); [|reflexivity].
        destruct commit_ok; [|reflexivity]. simpl. apply (Hput a); auto.
      * destruct commit_ok; [|reflexivity]. simpl. apply (Hdel a); auto.
Qed.

Lemma single_row_request_frame_witness :
  get_app 12 (table (insurance 7 true Delete (IntOk 6) blank_form None
                       [fresh_app; other_member_app]))
  = Some other_member_app.
Proof.
  apply (single_row_request_frame 6 12 sample_session 7 0 (at_clock 0) Anonymous
           true true "" "" Delete blank_form None all_listed
           [fresh_app; other_member_app]).
  discriminate.
Defined.

(** ** Dictionaries whose key test decides equality *)

Section DictKeys.
Context {K V : Type} (eqb : K -> K -> bool).
Hypothesis eqb_eq : forall a b, eqb a b = true <-> a = b.

Lemma dict_get_In (k : K) (v : V) (d : list (K * V)) :
  dict_get eqb k d = Some v -> In (k, v) d.
Proof.
  induction d as [|[k' v'] d IH]; simpl; [discriminate|].
  destruct (eqb k' k) eqn:E.
  - apply eqb_eq in E. intros H. left. congruence.
  - intros H. right. auto.
Qed.

Lemma dict_get_None (k : K) (d : list (K * V)) :
  dict_get eqb k d = None -> ~ In k (map fst d).
Proof.
  induction d as [|[k' v'] d IH]; simpl; [tauto|].
  destruct (eqb k' k) eqn:E; [discriminate|].
  intros H [Hk|Hk]; [|exact (IH H Hk)].
  apply eqb_eq in Hk. congruence.
Qed.

Lemma dict_set_keys (k : K) (v : V) (d : list (K * V)) :
  map fst (dict_set eqb k v d)
  = match dict_get eqb k d with
    | Some _ => map fst d
    | None => map fst d ++ [k]
    end.
Proof.
  induction d as [|[k' v'] d IH]; simpl; [reflexivity|].
  destruct (eqb k' k); simpl; [reflexivity|].
  rewrite IH. destruct (dict_get eqb k d); reflexivity.
Qed.

Lemma dict_set_NoDup (k : K) (v : V) (d : list (K * V)) :
  NoDup (map fst d) -> NoDup (map fst (dict_set eqb k v d)).
Proof.
  intros Hd. rewrite dict_set_keys.
  destruct (dict_get eqb k d) eqn:E; [exact Hd|].
  apply dict_get_None in E.
  apply NoDup_rev in Hd. rewrite <- (rev_involutive (map fst d ++ [k])).
  apply NoDup_rev. rewrite rev_app_distr. simpl.
  constructor; [|exact Hd]. rewrite <- in_rev. exact E.
Qed.

Lemma dict_set_Forall_items (P : K * V -> Prop) (k : K) (v : V) (d : list (K * V)) :
  Forall P d -> P (k, v) -> Forall P (dict_set eqb k v d).
Proof.
  intros Hd Hv. induction d as [|[k' v'] d IH]; simpl.
  - constructor; [exact Hv|constructor].
  - inversion Hd as [|? ? Hx Hr]; subst.
    destruct (eqb k' k) eqn:E.
    + apply eqb_eq in E. subst k'. constructor; auto.
    + constructor; auto.
Qed.
End DictKeys.

Lemma key3_eqb_eq (a b : key3) : key3_eqb a b = true <-> a = b.
Proof.
  destruct a as [[a1 a2] a3], b as [[b1 b2] b3]. simpl.
  rewrite !andb_true_iff, !String.eqb_eq. split.
  - intros [[-> ->] ->]. reflexivity.
  - intros H. injection H as -> -> ->. auto.
Qed.

Lemma opt_string_eqb_eq (a b : option string) : opt_string_eqb a b = true <-> a = b.
Proof.
  destruct a as [a|], b as [b|]; simpl; try (split; [discriminate|discriminate]).
  - rewrite String.eqb_eq. split; [intros ->; reflexivity|intros H; congruence].
  - tauto.
Qed.

Lemma okey3_eqb_eq (a b : okey3) : okey3_eqb a b = true <-> a = b.
Proof.
  destruct a as [[a1 a2] a3], b as [[b1 b2] b3]. simpl.
  rewrite !andb_true_iff, !opt_string_eqb_eq. split.
  - intros [[-> ->] ->]. reflexivity.
  - intros H. injection H as -> -> ->. auto.
Qed.

Lemma okey2_eqb_eq (a b : okey2) : okey2_eqb a b = true <-> a = b.
Proof.
  destruct a as [a1 a2], b as [b1 b2]. unfold okey2_eqb. simpl.
  rewrite !andb_true_iff, !opt_string_eqb_eq. split.
  - intros [-> ->]. reflexivity.
  - intros H. injection H as -> ->. auto.
Qed.

(** ** One line per company *)

Lemma partner_settle_step_lines (db : database)
    (d : list (key3 * settlement)) (app : InsuranceApplication) :
  let line (kv : key3 * settlement) :=
    fst kv = settlement_key (snd kv) /\ 1 <= count (snd kv) in
  NoDup (map fst d) /\ Forall line d ->
  NoDup (map fst (partner_settle_step db d app))
  /\ Forall line (partner_settle_step db d app).
Proof.
  intros line [Hn Hf]. unfold partner_settle_step.
  destruct (created_by_member db app) as [m|]; [|auto].
  set (k := (text_field (company_name m), text_field (representative m),
             text_field (business_number m))).
  destruct (dict_get key3_eqb k d) as [s0|] eqn:Hk.
  - rewrite Hk, (dict_set_set key3_eqb key3_eqb_refl).
    split; [apply (dict_set_NoDup key3_eqb key3_eqb_eq), Hn|].
    apply (dict_set_Forall_items key3_eqb key3_eqb_eq); [exact Hf|].
    apply (dict_get_In key3_eqb key3_eqb_eq) in Hk.
    rewrite Forall_forall in Hf. destruct (Hf _ Hk) as [H1 H2].
    subst line. simpl in *. split; [exact H1|lia].
  - rewrite (dict_get_set_same key3_eqb key3_eqb_refl).
    rewrite !(dict_set_set key3_eqb key3_eqb_refl).
    split; [apply (dict_set_NoDup key3_eqb key3_eqb_eq), Hn|].
    apply (dict_set_Forall_items key3_eqb key3_eqb_eq); [exact Hf|].
    subst line. simpl. split; [reflexivity|lia].
Qed.

Lemma admin_group_step_lines (db : database)
    (d : list (okey3 * Z)) (r : InsuranceApplication) :
  NoDup (map fst d) /\ Forall (fun kv => 1 <= snd kv) d ->
  NoDup (map fst (admin_group_step db d r))
  /\ Forall (fun kv => 1 <= snd kv) (admin_group_step db d r).
Proof.
  intros [Hn Hf]. unfold admin_group_step.
  set (k := match created_by_member db r with
            | Some m => (company_name m, representative m, business_number m)
            | None => (Some "미상"%string, Some ""%string, Some ""%string)
            end).
  destruct (dict_get okey3_eqb k d) as [c|] eqn:Hk.
  - rewrite Hk.
    split; [apply (dict_set_NoDup okey3_eqb okey3_eqb_eq), Hn|].
    apply (dict_set_Forall_items okey3_eqb okey3_eqb_eq); [exact Hf|].
    apply (dict_get_In okey3_eqb okey3_eqb_eq) in Hk.
    rewrite Forall_forall in Hf. specialize (Hf _ Hk). simpl in *. lia.
  - rewrite (dict_get_set_same okey3_eqb okey3_eqb_refl).
    rewrite (dict_set_set okey3_eqb okey3_eqb_refl).
    split; [apply (dict_set_NoDup okey3_eqb okey3_eqb_eq), Hn|].
    apply (dict_set_Forall_items okey3_eqb okey3_eqb_eq); [exact Hf|].
    simpl. lia.
Qed.

Lemma admin_price_lines (bc : list (okey3 * Z)) (page : admin_settlement_page) :
  let page' := fold_left admin_price_step bc page in
  map admin_row_key (a_settlements page')
  = map admin_row_key (a_settlements page) ++ map fst bc
  /\ map r_count (a_settlements page')
     = map r_count (a_settlements page) ++ map snd bc
  /\ a_total_amount page' - a_total_count page' * 9500
     = a_total_amount page - a_total_count page * 9500.
Proof.
  revert page. induction bc as [|[[[c r] b] n] bc IH]; intros page; cbn zeta.
  - simpl. rewrite !app_nil_r. auto.
  - cbn [fold_left]. destruct (IH (admin_price_step page (c, r, b, n)))
      as (H1 & H2 & H3).
    split; [|split].
    + eapply eq_trans; [exact H1|]. simpl. rewrite map_app, <- app_assoc.
      reflexivity.
    + eapply eq_trans; [exact H2|]. simpl. rewrite map_app, <- app_assoc.
      reflexivity.
    + eapply eq_trans; [exact H3|]. simpl. lia.
Qed.

Lemma sum_priced_9500 (l : list settlement) :
  Forall priced_9500 l -> sum_Z (map amount l) = sum_Z (map count l) * 9500.
Proof.
  induction 1 as [|s l Hs _ IH]; simpl; [reflexivity|].
  unfold priced_9500 in Hs. lia.
Qed.

Lemma sum_priced_95000 (l : list overview_group) :
  Forall group_priced_95000 l ->
  sum_Z (map total_amount l) = sum_Z (map total_count l) * 95000.
Proof.
  induction 1 as [|s l [_ Hs] _ IH]; simpl; [reflexivity|]. lia.
Qed.

Lemma overview_step_balanced (db : database)
    (d : list (Z * overview_group)) (app : InsuranceApplication) :
  Forall group_balanced (dict_values d) ->
  Forall group_balanced (dict_values (overview_step db d app)).
Proof.
  intros Hd. unfold overview_step.
  destruct (partner_group db app) as [pg|]; [|exact Hd].
  destruct (created_by_member db app) as [m|]; [|exact Hd].
  set (k := partner_group_id app).
  set (d1 := match dict_get Z.eqb k d with
             | Some _ => d
             | None => dict_set Z.eqb k (mkOverviewGroup (name pg) [] 0 0) d
             end).
  assert (H1 : Forall group_balanced (dict_values d1)).
  { subst d1. destruct (dict_get Z.eqb k d); [exact Hd|].
    apply dict_set_Forall; [exact Hd|reflexivity]. }
  destruct (dict_get Z.eqb k d1) as [grp|] eqn:Hg; [|exact H1].
  apply dict_set_Forall; [exact H1|].
  apply (dict_get_values Z.eqb) in Hg.
  rewrite Forall_forall in H1. specialize (H1 grp Hg).
  unfold group_balanced in *. simpl.
  set (ck := (company_name m, representative m)).
  destruct (dict_get okey2_eqb ck (companies grp)) as [c0|] eqn:Hc.
  - rewrite Hc, (dict_set_sum okey2_eqb), Hc. simpl. lia.
  - rewrite (dict_get_set_same okey2_eqb okey2_eqb_refl).
    rewrite (dict_set_set okey2_eqb okey2_eqb_refl).
    rewrite (dict_set_sum okey2_eqb), Hc. simpl. lia.
Qed.

(** X9. The pages of the three settlement views add up.  In the partner
    view and in admin_settlement every company is listed on one line only,
    every line counts at least one application, and the total amount is
    9,500 times the total count.  In the overview every partner group's
    count is the sum of the counts of its companies, and the grand total
    amount is 95,000 times the grand total count. *)
Theorem settlement_pages_add_up (db : database) (g clock local_clock : Z)
    (arg_year arg_month arg_group : int_field) :
  (forall page,
     partner_admin_settlement db g clock arg_year arg_month = Some page ->
     NoDup (map settlement_key (p_settlements page))
     /\ Forall (fun s => 1 <= count s) (p_settlements page)
     /\ p_total_amount page = p_total_count page * 9500)
  /\ (forall page,
        admin_settlement db local_clock arg_year arg_month = Some page ->
        NoDup (map admin_row_key (a_settlements page))
        /\ Forall (fun n => 1 <= n) (map r_count (a_settlements page))
        /\ a_total_amount page = a_total_count page * 9500)
  /\ (forall page,
        admin_settlement_overview db local_clock arg_year arg_month arg_group
        = Some page ->
        Forall group_balanced (dict_values (settlements_by_group page))
        /\ grand_total_amount page = grand_total_count page * 95000).
Proof.
  split; [|split]; intros page.
  - unfold partner_admin_settlement.
    destruct (partner_year_month _ _ _) as [y m].
    destruct (month_bounds y m) as [[sp nm]|]; [|discriminate].
    intros H. injection H as <-. simpl.
    set (apps := filter _ _).
    destruct (fold_left_invariant
                (fun d => NoDup (map fst d)
                          /\ Forall (fun kv : key3 * settlement =>
                                       fst kv = settlement_key (snd kv)
                                       /\ 1 <= count (snd kv)) d)
                (partner_settle_step db) apps [])
      as [Hn Hf].
    { intros x b. apply partner_settle_step_lines. }
    { split; constructor. }
    split; [|split].
    + unfold dict_values. rewrite map_map.
      erewrite map_ext_Forall; [exact Hn|].
      eapply Forall_impl; [|exact Hf]. intros kv [E _]. symmetry. exact E.
    + unfold dict_values. apply Forall_map.
      eapply Forall_impl; [|exact Hf]. intros kv [_ E]. exact E.
    + apply sum_priced_9500.
      apply (fold_left_invariant
               (fun d => Forall priced_9500 (dict_values d))).
      * intros x b. apply partner_settle_step_priced.
      * constructor.
  - unfold admin_settlement.
    destruct arg_year as [| |y]; try discriminate;
      destruct arg_month as [| |m]; try discriminate;
      match goal with
      | |- context [month_bounds ?a ?b] =>
          destruct (month_bounds a b) as [[sp nm]|]; [|discriminate]
      end;
      intros H; injection H as <-; unfold admin_price;
      match goal with
      | |- context [fold_left admin_price_step ?bc _] =>
          destruct (admin_price_lines bc (mkAdminPage [] 0 0)) as (H1 & H2 & H3);
          rewrite H1, H2
      end; simpl;
      match goal with
      | |- context [fold_left (admin_group_step db) ?rows []] =>
          destruct (fold_left_invariant
                      (fun d => NoDup (map fst d)
                                /\ Forall (fun kv : okey3 * Z => 1 <= snd kv) d)
                      (admin_group_step db) rows []) as [Hn Hf];
          [intros x b; apply admin_group_step_lines|split; constructor|]
      end;
      (split; [exact Hn|split; [apply Forall_map; exact Hf|simpl in H3; lia]]).
  - unfold admin_settlement_overview.
    destruct arg_year as [| |y]; try discriminate;
      destruct arg_month as [| |m]; try discriminate;
      match goal with
      | |- context [month_bounds ?a ?b] =>
          destruct (month_bounds a b) as [[sp nm]|]; [|discriminate]
      end;
      intros H; injection H as <-; simpl;
      (split;
       [apply (fold_left_invariant
                 (fun d => Forall group_balanced (dict_values d)));
        [intros x b; apply overview_step_balanced|constructor]
       |apply sum_priced_95000;
        apply (fold_left_invariant
                 (fun d => Forall group_priced_95000 (dict_values d)));
        [intros x b; apply overview_step_priced|constructor]]).
Qed.

Lemma settlement_pages_add_up_witness :
  partner_admin_settlement two_company_db 1 (clock_at 2024 4 2 9 0)
    (IntOk 2024) (IntOk 3)
  = Some (mkPartnerPage
            [mkSettlement "상사A" "김대표" "222-22-22222" 2 19000;
             mkSettlement "상사B" "박대표" "333-33-33333" 1 9500]
            2024 3 3 28500)
  /\ 28500 = 3 * 9500.
Proof.
  split; [reflexivity|].
  destruct (settlement_pages_add_up two_company_db 1 (clock_at 2024 4 2 9 0) 0
              (IntOk 2024) (IntOk 3) IntAbsent) as (H & _).
  destruct (H (mkPartnerPage
                 [mkSettlement "상사A" "김대표" "222-22-22222" 2 19000;
                  mkSettlement "상사B" "박대표" "333-33-33333" 1 9500]
                 2024 3 3 28500)) as (_ & _ & E); [reflexivity|exact E].
Defined.

(** ** The order of the months *)

Lemma days_before_year_mono (y y' : Z) :
  y <= y' -> _days_before_year y <= _days_before_year y'.
Proof.
  intros H. unfold _days_before_year. cbv zeta.
  Z.div_mod_to_equations. lia.
Qed.

Lemma days_before_month_bounds (y m : Z) :
  1 <= m <= 12 -> 0 <= _days_before_month y m.
Proof.
  intros Hm. unfold _days_before_month.
  destruct (month_cases m Hm) as [H|[H|[H|[H|[H|[H|[H|[H|[H|[H|[H|H]]]]]]]]]]];
    subst m; simpl; destruct (_is_leap y); simpl; lia.
Qed.

Lemma month_end_in_year (y m : Z) :
  1 <= m <= 12 ->
  _ymd2ord y m 1 + _days_in_month y m <= _days_before_year (y + 1) + 1.
Proof.
  intros Hm. rewrite days_before_next_year.
  unfold _ymd2ord, _days_before_month, _days_in_month.
  destruct (month_cases m Hm) as [H|[H|[H|[H|[H|[H|[H|[H|[H|[H|[H|H]]]]]]]]]]];
    subst m; simpl; destruct (_is_leap y); simpl; lia.
Qed.

Lemma month_end_step (y m : Z) :
  1 <= m < 12 ->
  _ymd2ord y m 1 + _days_in_month y m = _ymd2ord y (m + 1) 1.
Proof.
  intros Hm. pose proof (first_of_next_month y m) as H.
  unfold next_month_of in H. replace (m =? 12) with false in H
    by (symmetry; apply Z.eqb_neq; lia).
  symmetry. apply H. lia.
Qed.

Lemma first_of_month_mono (y m m' : Z) :
  1 <= m -> m <= m' -> m' <= 12 -> _ymd2ord y m 1 <= _ymd2ord y m' 1.
Proof.
  intros H1 H2 H3. unfold _ymd2ord, _days_before_month.
  assert (Hm : 1 <= m <= 12) by lia. assert (Hm' : 1 <= m' <= 12) by lia.
  destruct (_is_leap y);
    destruct (month_cases m Hm) as [H|[H|[H|[H|[H|[H|[H|[H|[H|[H|[H|H]]]]]]]]]]];
    subst m;
    destruct (month_cases m' Hm') as [H|[H|[H|[H|[H|[H|[H|[H|[H|[H|[H|H]]]]]]]]]]];
    subst m'; simpl; lia.
Qed.

Lemma month_order (y m y' m' : Z) :
  1 <= m <= 12 -> 1 <= m' <= 12 ->
  y < y' \/ (y = y' /\ m < m') ->
  _ymd2ord y m 1 + _days_in_month y m <= _ymd2ord y' m' 1.
Proof.
  intros Hm Hm' [Hy|[<- Hlt]].
  - pose proof (month_end_in_year y m Hm).
    pose proof (days_before_year_mono (y + 1) y' ltac:(lia)).
    pose proof (days_before_month_bounds y' m' Hm').
    unfold _ymd2ord at 2. lia.
  - rewrite month_end_step by lia. apply first_of_month_mono; lia.
Qed.

(** X10. The settlement months tile the time line: the window of a month
    ends where the window of the next month begins, and the windows of two
    different months share no application, so that no application is
    counted in the settlement of two months, in any of the three views. *)
Theorem settlement_months_disjoint (y m y' m' : Z) (sp nm sp' nm' : datetime) :
  month_bounds y m = Some (sp, nm) ->
  month_bounds y' m' = Some (sp', nm') ->
  (next_month_of y m = (y', m') -> sp' = nm)
  /\ ((y, m) <> (y', m') ->
      forall a, in_period sp nm a = true -> in_period sp' nm' a = false).
Proof.
  intros Hb Hb'.
  pose proof (month_bounds_walls _ _ _ _ Hb) as (Hm & Hsp & Hnm).
  pose proof (month_bounds_walls _ _ _ _ Hb') as (Hm' & Hsp' & Hnm').
  split.
  - intros Hn. pose proof (first_of_next_month y m Hm) as H.
    rewrite Hn in H. rewrite Hsp', Hnm, H. reflexivity.
  - intros Hne a Hin.
    assert (Hord : (y < y' \/ (y = y' /\ m < m')) \/ (y' < y \/ (y' = y /\ m' < m))).
    { destruct (Z.lt_trichotomy y y') as [H|[H|H]]; [auto| |auto].
      destruct (Z.lt_trichotomy m m') as [H'|[H'|H']]; [auto| |auto].
      subst. contradiction Hne. reflexivity. }
    unfold in_period in *.
    destruct (_ensure_aware (start_at a)) as [s|]; [|reflexivity].
    apply andb_true_iff in Hin. destruct Hin as [Hge Hlt].
    subst sp nm sp' nm'. unfold dt_ge, dt_lt, utc_usec in *. simpl in *.
    apply Z.leb_le in Hge. apply Z.ltb_lt in Hlt.
    assert (Hu : 0 < usec_per_day) by reflexivity.
    destruct Hord as [Ho|Ho].
    + pose proof (month_order y m y' m' Hm Hm' Ho).
      apply andb_false_iff. left. apply Z.leb_gt. nia.
    + pose proof (month_order y' m' y m Hm' Hm Ho).
      apply andb_false_iff. right. apply Z.ltb_ge. nia.
Qed.

Lemma settlement_months_disjoint_witness :
  in_period (kst_at 2024 1 1 0 0) (kst_at 2024 2 1 0 0) running_app = false.
Proof.
  destruct (settlement_months_disjoint 2024 3 2024 1
              (kst_at 2024 3 1 0 0) (kst_at 2024 4 1 0 0)
              (kst_at 2024 1 1 0 0) (kst_at 2024 2 1 0 0)) as [_ H];
    [reflexivity|reflexivity|].
  apply H; [discriminate|reflexivity].
Defined.

(** ** The month of a clock reading *)

Lemma ord2ymd_month (n0 : Z) :
  1 <= (let '(_, m, _) := _ord2ymd n0 in m) <= 12.
Proof.
  unfold _ord2ymd. cbv zeta.
  set (n := (((n0 - 1) mod 146097) mod 36524) mod 1461 mod 365).
  assert (Hn : 0 <= n < 365) by (apply Z.mod_pos_bound; lia).
  destruct (_ || _); [cbn iota beta; lia|].
  rewrite Z.shiftr_div_pow2 by lia. change (2 ^ 5) with 32.
  set (leap := ((_ =? 3) && _)). clearbody leap.
  assert (Hm : 1 <= (n + 50) / 32 <= 12).
  { clear - Hn. clearbody n. Z.div_mod_to_equations. lia. }
  clearbody n.
  revert Hm. generalize ((n + 50) / 32). intros m Hm.
  destruct (month_cases m Hm) as [H|[H|[H|[H|[H|[H|[H|[H|[H|[H|[H|H]]]]]]]]]]];
    subst m; destruct leap; simpl;
    match goal with
    | |- context [?a <? ?b] => destruct (Z.ltb_spec a b)
    end; cbn iota beta; lia.
Qed.

Lemma dt_month_range (dt : datetime) : 1 <= dt_month dt <= 12.
Proof.
  unfold dt_month. pose proof (ord2ymd_month (wall dt / usec_per_day)) as H.
  destruct (_ord2ymd _) as [[y m] d]. exact H.
Qed.

Lemma days_in_month_pos (y m : Z) : 1 <= m <= 12 -> 28 <= _days_in_month y m.
Proof.
  intros Hm. unfold _days_in_month.
  destruct (month_cases m Hm) as [H|[H|[H|[H|[H|[H|[H|[H|[H|[H|[H|H]]]]]]]]]]];
    subst m; simpl; destruct (_is_leap y); simpl; lia.
Qed.

Lemma valid_first_of_month (y m : Z) :
  1 <= y <= 9999 -> 1 <= m <= 12 -> valid_ymd y m 1 = true.
Proof.
  intros Hy Hm. pose proof (days_in_month_pos y m Hm).
  unfold valid_ymd. rewrite !andb_true_iff.
  repeat split; apply Z.leb_le; lia.
Qed.

Lemma month_bounds_defined (y m : Z) :
  1 <= y <= 9998 -> 1 <= m <= 12 -> month_bounds y m <> None.
Proof.
  intros Hy Hm. unfold month_bounds, datetime_ymd.
  rewrite valid_first_of_month by lia.
  destruct (m =? 12) eqn:E.
  - rewrite valid_first_of_month by lia. discriminate.
  - apply Z.eqb_neq in E. rewrite valid_first_of_month by lia. discriminate.
Qed.

Lemma month_bounds_month (y m : Z) :
  ~ 1 <= m <= 12 -> month_bounds y m = None.
Proof.
  intros Hm. destruct (month_bounds y m) as [[sp nm]|] eqn:E; [|reflexivity].
  apply month_bounds_walls in E. tauto.
Qed.


(** ** Logging in *)

Lemma find_global_admin_spec (db : database) (u : string) (m : Member) :
  find_global_admin db u = Some m ->
  In m (members db) /\ username m = u
  /\ member_partner_group_id m = None /\ role m = Some "admin"%string.
Proof.
  unfold find_global_admin. intros H. apply find_some in H.
  destruct H as [Hin H]. rewrite !andb_true_iff in H. destruct H as [[H1 H2] H3].
  apply String.eqb_eq in H1.
  destruct (member_partner_group_id m); [discriminate|].
  destruct (role m) as [r|]; [|discriminate]. apply String.eqb_eq in H3.
  subst. auto.
Qed.

Lemma find_group_member_spec (db : database) (u : string) (g : Z) (m : Member) :
  find_group_member db u g = Some m ->
  In m (members db) /\ username m = u
  /\ member_partner_group_id m = Some g /\ role m = Some "member"%string.
Proof.
  unfold find_group_member. intros H. apply find_some in H.
  destruct H as [Hin H]. rewrite !andb_true_iff in H. destruct H as [[H1 H2] H3].
  apply String.eqb_eq in H1.
  destruct (member_partner_group_id m) as [g'|]; [|discriminate].
  apply Z.eqb_eq in H2.
  destruct (role m) as [r|]; [|discriminate]. apply String.eqb_eq in H3.
  subst. auto.
Qed.

Lemma approval_eqb_approved (a : option approval) :
  approval_eqb a ApprovalApproved = true -> a = Some ApprovalApproved.
Proof. destruct a as [[|]|]; simpl; congruence. Qed.

(** X12. login fails closed.  Whatever the form, the session and the
    stored state, either the credentials are those of an account (the
    special account, a global administrator, an approved member of the
    chosen group or the administrator of the chosen group, with a password
    that check_password_hash accepts), or the request is turned down:
    nothing is stored, the session stays as it was, a message is flashed
    and the login page comes back. *)
Theorem login_fails_closed (hash : string -> string)
    (check : string -> string -> bool) (db : database)
    (db_present commit_ok : bool) (sess : web_session) (form : login_form) :
  authenticated check db form
  \/ turned_down db sess (login hash check db db_present commit_ok sess form).
Proof.
  unfold login, authenticated, turned_down.
  destruct form as [u p choice]. simpl.
  destruct (is_special_admin u p) eqn:Hsp; [left; left; reflexivity|].
  destruct (is_empty u || is_empty p);
    [right; repeat split; auto; discriminate|].
  destruct choice as [| | |g];
    try (right; repeat split; auto; discriminate);
    (destruct db_present; simpl; [|right; repeat split; auto; discriminate]).
  - destruct (find_global_admin db u) as [m|] eqn:Hm;
      [|right; repeat split; auto; discriminate].
    destruct (check (password_hash m) p) eqn:Hc;
      [|right; repeat split; auto; discriminate].
    apply find_global_admin_spec in Hm. destruct Hm as (H1 & H2 & H3 & H4).
    left. right. left. exists m. auto 10.
  - right; repeat split; auto; discriminate.
  - destruct (get_group g (partner_groups db)) as [grp|] eqn:Hg;
      [|right; repeat split; auto; discriminate].
    destruct (find_global_admin db u) as [m|] eqn:Hm.
    { destruct (check (password_hash m) p) eqn:Hc;
        [|right; repeat split; auto; discriminate].
      apply find_global_admin_spec in Hm. destruct Hm as (H1 & H2 & H3 & H4).
      left. right. left. exists m. auto 10. }
    destruct (String.eqb_spec (admin_username grp) u) as [Ha|Ha].
    { destruct (check (admin_password_hash grp) p) eqn:Hc;
        [|right; repeat split; auto; discriminate].
      left. right. right. exists g, grp. auto. }
    destruct (find_group_member db u g) as [m|] eqn:Hu;
      [|right; repeat split; auto; discriminate].
    destruct (check (password_hash m) p) eqn:Hc;
      [|right; repeat split; auto; discriminate].
    destruct (approval_eqb (approval_status m) ApprovalApproved) eqn:Hap; simpl;
      [|right; repeat split; auto; discriminate].
    apply find_group_member_spec in Hu. destruct Hu as (H1 & H2 & H3 & H4).
    apply approval_eqb_approved in Hap.
    left. right. left. exists m. repeat split; auto.
    right. exists g. auto.
Qed.

(** X13. Who gets the partner-admin keys.  A login leaves the keys that
    the partner-admin handlers read (user_type, partner_group_id) as they
    were found, unless it sets them to a partner-admin session of the
    chosen group; and it sets them only for the special account or for the
    group's admin_username with a password that check_password_hash
    accepts.  In particular a member's or a global administrator's login
    neither grants nor clears them. *)
Theorem login_partner_keys (hash : string -> string)
    (check : string -> string -> bool) (db : database)
    (db_present commit_ok : bool) (sess : web_session) (form : login_form) :
  let o := login hash check db db_present commit_ok sess form in
  handler_session (lo_session o) = handler_session sess
  \/ (exists g grp,
        lf_partner_group_id form = ChoiceId g
        /\ get_group g (partner_groups db) = Some grp
        /\ handler_session (lo_session o)
           = mkSession (Some "partner_admin"%string) (Some g)
        /\ (is_special_admin (lf_username form) (lf_password form) = true
            \/ (admin_username grp = lf_username form
                /\ check (admin_password_hash grp) (lf_password form) = true))).
Proof.
  unfold login. destruct form as [u p choice]. simpl.
  destruct (is_empty u || is_empty p); [left; reflexivity|].
  destruct choice as [| | |g]; try (left; reflexivity);
    (destruct db_present; simpl; [|left; reflexivity]).
  - destruct (is_special_admin u p).
    + destruct (special_admin_account hash db u p (find_global_admin db u)).
      destruct commit_ok; left; reflexivity.
    + destruct (find_global_admin db u) as [m|]; [|left; reflexivity].
      destruct (check (password_hash m) p); left; reflexivity.
  - left; reflexivity.
  - destruct (get_group g (partner_groups db)) as [grp|] eqn:Hg;
      [|left; reflexivity].
    destruct (is_special_admin u p) eqn:Hsp.
    + destruct (special_admin_account hash db u p (find_global_admin db u)).
      destruct (commit_ok && _); [|left; reflexivity].
      right. exists g, grp. repeat split; auto.
    + destruct (find_global_admin db u) as [m|].
      { destruct (check (password_hash m) p); left; reflexivity. }
      destruct (String.eqb_spec (admin_username grp) u) as [Ha|Ha].
      { destruct (check (admin_password_hash grp) p) eqn:Hc; [|left; reflexivity].
        right. exists g, grp. repeat split; auto. }
      destruct (find_group_member db u g) as [m|]; [|left; reflexivity].
      destruct (check (password_hash m) p); [|left; reflexivity].
      destruct (negb _); left; reflexivity.
Qed.

(** ** From registration to the first login *)

Lemma find_app_last {A} (p : A -> bool) (l : list A) (x : A) :
  (forall y, In y l -> p y = false) -> p x = true -> find p (l ++ [x]) = Some x.
Proof.
  intros Hl Hx. induction l as [|y l IH]; simpl.
  - rewrite Hx. reflexivity.
  - rewrite (Hl y (or_introl eq_refl)). apply IH. intros z Hz. apply Hl. right. exact Hz.
Qed.

Lemma find_app_none {A} (p : A -> bool) (l : list A) (x : A) :
  find p l = None -> p x = false -> find p (l ++ [x]) = None.
Proof.
  intros Hl Hx. induction l as [|y l IH]; simpl in *.
  - rewrite Hx. reflexivity.
  - destruct (p y); [discriminate|]. apply IH, Hl.
Qed.

Lemma next_id_fresh (ids : list Z) (z : Z) : In z ids -> z < next_id ids.
Proof.
  unfold next_id. induction ids as [|a ids IH]; simpl; [contradiction|].
  intros [->|H]; [lia|]. specialize (IH H). lia.
Qed.

Lemma member_id_fresh (ms : list Member) (m : Member) :
  In m ms -> (member_id m =? next_id (map member_id ms)) = false.
Proof.
  intros H. apply Z.eqb_neq.
  pose proof (next_id_fresh (map member_id ms) (member_id m) (in_map _ _ _ H)). lia.
Qed.

Lemma put_member_app_last (ms : list Member) (m m' : Member) :
  member_id m' = next_id (map member_id ms) -> member_id m = member_id m' ->
  put_member m' (ms ++ [m]) = ms ++ [m'].
Proof.
  intros Hi Hm. unfold put_member. rewrite map_app. simpl.
  rewrite Hm, Z.eqb_refl. f_equal.
  rewrite <- (map_id ms) at 2. apply map_ext_in. intros y Hy.
  rewrite Hi, (member_id_fresh ms y Hy). reflexivity.
Qed.

Lemma username_taken_false (db : database) (u : string) (g : Z) (m : Member) :
  username_taken db u g = false -> In m (members db) ->
  String.eqb (username m) u && opt_Z_eqb (member_partner_group_id m) g = false.
Proof.
  unfold username_taken. intros H Hin.
  destruct (String.eqb (username m) u && opt_Z_eqb (member_partner_group_id m) g)
    eqn:E; [|reflexivity].
  assert (Ht : existsb (fun m => String.eqb (username m) u
                                 && opt_Z_eqb (member_partner_group_id m) g)
                 (members db) = true)
    by (apply existsb_exists; exists m; auto).
  congruence.
Qed.

Lemma username_conflict_fresh (db : database) (u : string) (g : Z)
    (m m' : Member) :
  username_taken db u g = false ->
  username m' = u -> member_partner_group_id m' = Some g ->
  member_id m = member_id m' ->
  username_conflict m' (members db ++ [m]) = false.
Proof.
  intros Htaken Hu Hg Hid. unfold username_conflict.
  rewrite existsb_app. cbn [existsb]. rewrite Hid, Z.eqb_refl. cbn [negb andb].
  rewrite !orb_false_r.
  destruct (existsb _ (members db)) eqn:E; [|reflexivity].
  apply existsb_exists in E. destruct E as (y & Hy & E).
  rewrite !andb_true_iff in E. destruct E as [[_ E1] E2].
  pose proof (username_taken_false db u g y Htaken Hy) as Hf.
  rewrite Hu in E1. rewrite E1 in Hf. rewrite Hg in E2.
  destruct (member_partner_group_id y) as [gy|]; [|discriminate].
  simpl in Hf. congruence.
Qed.

Lemma register_success (hash : string -> string) (db : database)
    (form : register_form) (g : Z) :
  rf_partner_group_id form = IntOk g ->
  db_target (register hash db true form) = "login"%string ->
  exists grp m,
    get_group g (partner_groups db) = Some grp
    /\ username_taken db (rf_username form) g = false
    /\ db_after (register hash db true form)
       = set_members (members db ++ [m]) db
    /\ member_id m = next_id (map member_id (members db))
    /\ member_partner_group_id m = Some g
    /\ username m = rf_username form
    /\ password_hash m = hash (rf_password form)
    /\ approval_status m = Some ApprovalApplied
    /\ role m = Some "member"%string.
Proof.
  intros Hg. unfold register. rewrite Hg.
  destruct (_ && negb _); [discriminate|].
  destruct (get_group g (partner_groups db)) as [grp|]; [|discriminate].
  destruct (username_taken db (rf_username form) g); [discriminate|].
  destruct (negb _ && _); [discriminate|].
  intros _. eexists grp, _. repeat split.
Qed.

Lemma login_member_path (hash : string -> string)
    (check : string -> string -> bool) (db : database) (commit_ok : bool)
    (sess : web_session) (u p : string) (g : Z) (grp : PartnerGroup) (m : Member) :
  u <> ""%string -> p <> ""%string ->
  is_special_admin u p = false ->
  get_group g (partner_groups db) = Some grp ->
  find_global_admin db u = None ->
  admin_username grp <> u ->
  find_group_member db u g = Some m ->
  check (password_hash m) p = true ->
  login hash check db true commit_ok sess (mkLoginForm u p (ChoiceId g))
  = if negb (approval_eqb (approval_status m) ApprovalApproved) then
      mkLoginOutcome db sess
        [mkFlash "관리자 승인 후 로그인 가능합니다." "warning"] "login"
    else
      mkLoginOutcome db
        (mkWebSession (Some (member_id m)) true (role m) (Some (display_name m))
           (ws_admin_selected_partner_group_id sess)
           (ws_admin_selected_partner_group_name sess)
           (ws_partner_group_id sess) (ws_partner_group_name sess)
           (ws_user_type sess) (ws_username sess))
        [] "partner_dashboard".
Proof.
  intros Hu Hp Hsp Hg Ha Hn Hm Hc. unfold login. simpl.
  rewrite (is_empty_false _ Hu), (is_empty_false _ Hp). simpl.
  rewrite Hg, Hsp, Ha.
  replace (String.eqb (admin_username grp) u) with false
    by (symmetry; apply String.eqb_neq; exact Hn).
  rewrite Hm, Hc. reflexivity.
Qed.

(** X14. From registration to the first login.  A member who has just
    registered (the registration went through) is turned down at login
    with the approval notice, the session untouched; once the
    administrator of the member's partner group has saved the member with
    approval_status '승인' (same username, password field left blank), the
    same credentials log the member in.  The credentials are not those of
    the special account, of a global administrator or of the group's
    administrator, and check_password_hash accepts what
    generate_password_hash made. *)
Theorem registration_approval_login (hash : string -> string)
    (check : string -> string -> bool) (db : database) (rform : register_form)
    (g : Z) (sess : web_session) (psess : session) (aform : member_form)
    (cert : cert_upload) (c1 c3 : bool) :
  (forall p, check (hash p) p = true) ->
  rf_partner_group_id rform = IntOk g ->
  db_target (register hash db true rform) = "login"%string ->
  rf_username rform <> ""%string -> rf_password rform <> ""%string ->
  is_special_admin (rf_username rform) (rf_password rform) = false ->
  find_global_admin db (rf_username rform) = None ->
  (forall grp, get_group g (partner_groups db) = Some grp ->
               admin_username grp <> rf_username rform) ->
  partner_session psess g ->
  mf_username aform = rf_username rform ->
  mf_password aform = ""%string ->
  mf_approval_status aform = Some "승인"%string ->
  let db1 := db_after (register hash db true rform) in
  let i := next_id (map member_id (members db)) in
  let lform := mkLoginForm (rf_username rform) (rf_password rform) (ChoiceId g) in
  let o1 := login hash check db1 true c1 sess lform in
  let o2 := partner_admin_member_approval hash psess true (SaveMember (IntOk i))
              aform cert (members db1) in
  let o3 := login hash check (set_members (mo_members o2) db1) true c3 sess lform in
  (lo_db o1 = db1 /\ lo_session o1 = sess
   /\ lo_flashed o1 = [mkFlash "관리자 승인 후 로그인 가능합니다." "warning"]
   /\ lo_target o1 = "login"%string)
  /\ (ws_user_id (lo_session o3) = Some i
      /\ ws_user_role (lo_session o3) = Some "member"%string
      /\ lo_flashed o3 = [] /\ lo_target o3 = "partner_dashboard"%string).
Proof.
  intros Hhash Hg Hreg Hu Hp Hsp Hadm Hgrp Hs Hau Hap Hast.
  destruct (register_success hash db rform g Hg Hreg)
    as (grp & m & Hget & Htaken & Hdb & Hid & Hpg & Hun & Hph & Hst & Hrole).
  cbv zeta. rewrite Hdb.
  set (u := rf_username rform) in *. set (p := rf_password rform) in *.
  assert (Hpred : forall m' : Member,
            member_id m' = member_id m -> username m' = u ->
            member_partner_group_id m' = Some g -> role m' = Some "member"%string ->
            find_group_member (set_members (members db ++ [m']) db) u g = Some m'
            /\ find_global_admin (set_members (members db ++ [m']) db) u = None).
  { intros m' _ Hu' Hg' Hr'. split.
    - unfold find_group_member. simpl. apply find_app_last.
      + intros y Hy. rewrite (username_taken_false db u g y Htaken Hy). reflexivity.
      + rewrite Hu', Hg', Hr'. simpl. rewrite String.eqb_refl, Z.eqb_refl. reflexivity.
    - unfold find_global_admin in *. simpl. apply find_app_none; [exact Hadm|].
      rewrite Hg'. simpl. rewrite andb_false_r. reflexivity. }
  split.
  - destruct (Hpred m eq_refl Hun Hpg Hrole) as [Hfm Hfa].
    rewrite (login_member_path hash check _ c1 sess u p g grp m); auto.
    + rewrite Hst. simpl. auto.
    + rewrite Hph. apply Hhash.
  - apply partner_session_gate in Hs. destruct Hs as (Hut & Hsg & Hz).
    simpl members.
    assert (Hget_m : get_member (next_id (map member_id (members db)))
                       (members db ++ [m]) = Some m).
    { unfold get_member. apply find_app_last.
      - intros y Hy. apply member_id_fresh, Hy.
      - rewrite Hid. apply Z.eqb_refl. }
    set (m' := saved_member hash aform cert ApprovalApproved m).
    assert (Ho2 : mo_members
                    (partner_admin_member_approval hash psess true
                       (SaveMember (IntOk (next_id (map member_id (members db)))))
                       aform cert (members db ++ [m]))
                  = members db ++ [m']).
    { unfold partner_admin_member_approval. rewrite Hut, Hsg. simpl.
      rewrite Hget_m, Hpg. simpl. rewrite Z.eqb_refl, Hast. simpl.
      fold m'.
      assert (Hconf : username_conflict m' (members db ++ [m]) = false)
        by (apply (username_conflict_fresh db u g); auto).
      rewrite Hconf. simpl. apply put_member_app_last; [exact Hid|reflexivity]. }
    rewrite Ho2.
    destruct (Hpred m' eq_refl) as [Hfm Hfa]; [exact Hau|exact Hpg|exact Hrole|].
    rewrite (login_member_path hash check _ c3 sess u p g grp m'); auto.
    + simpl. rewrite Hrole, Hid. auto.
    + simpl. rewrite Hap. simpl. rewrite Hph. apply Hhash.
Qed.

Lemma registration_approval_login_witness :
  lo_flashed
    (login sample_hash sample_check
       (db_after (register sample_hash accounts_db true
                    (registration "newdealer" "444-44-44444")))
       true true no_session (mkLoginForm "newdealer" "pw" (ChoiceId 1)))
  = [mkFlash "관리자 승인 후 로그인 가능합니다." "warning"].
Proof.
  pose proof (registration_approval_login sample_hash sample_check accounts_db
                (registration "newdealer" "444-44-44444") 1 no_session
                sample_session approving_form NoCert true true
                (fun p => String.eqb_refl (sample_hash p))
                eq_refl eq_refl
                ltac:(discriminate) ltac:(discriminate) eq_refl eq_refl
                ltac:(intros grp H; injection H as <-; discriminate)
                ltac:(repeat split; discriminate)
                eq_refl eq_refl eq_refl) as T.
  destruct T as ((_ & _ & H & _) & _). exact H.
Defined.

(** ** The special account *)

Lemma find_put_member (p : Member -> bool) (ms : list Member) (m0 m' : Member) :
  find p ms = Some m0 -> member_id m' = member_id m0 -> p m' = true ->
  find p (put_member m' ms) = Some m'.
Proof.
  intros Hf Hid Hp. unfold put_member.
  induction ms as [|x ms IH]; simpl in *; [discriminate|].
  destruct (member_id x =? member_id m') eqn:E.
  - rewrite Hp. reflexivity.
  - destruct (p x) eqn:Px.
    + injection Hf as <-. rewrite Hid, Z.eqb_refl in E. discriminate.
    + apply IH, Hf.
Qed.

Lemma get_member_put_member (i : Z) (ms : list Member) (m0 m' : Member) :
  In m0 ms -> member_id m' = member_id m0 -> i = member_id m' ->
  get_member i (put_member m' ms) = Some m'.
Proof.
  intros Hin Hid ->. unfold get_member, put_member.
  induction ms as [|x ms IH]; simpl in *; [contradiction|].
  destruct (member_id x =? member_id m') eqn:E.
  - rewrite Z.eqb_refl. reflexivity.
  - rewrite E. destruct Hin as [->|Hin]; [|auto].
    rewrite Hid, Z.eqb_refl in E. discriminate.
Qed.

Lemma put_member_ids (m' : Member) (ms : list Member) :
  map member_id (put_member m' ms) = map member_id ms.
Proof.
  unfold put_member. rewrite map_map. apply map_ext. intros x.
  destruct (member_id x =? member_id m') eqn:E; [|reflexivity].
  apply Z.eqb_eq in E. congruence.
Qed.

Lemma special_admin_account_spec (hash : string -> string) (db : database)
    (u p : string) :
  let r := special_admin_account hash db u p (find_global_admin db u) in
  find_global_admin (set_members (fst r) db) u = Some (snd r)
  /\ get_member (member_id (snd r)) (fst r) = Some (snd r)
  /\ approval_status (snd r) = Some ApprovalApproved
  /\ password_hash (snd r) = hash p
  /\ (forall m0, find_global_admin db u = Some m0 ->
                 map member_id (fst r) = map member_id (members db)).
Proof.
  cbv zeta. destruct (find_global_admin db u) as [m0|] eqn:Hf.
  - pose proof (find_global_admin_spec db u m0 Hf) as (Hin & Hu & Hg & Hr).
    simpl. repeat split.
    + unfold find_global_admin in *. simpl.
      eapply find_put_member; [exact Hf|reflexivity|].
      simpl. rewrite Hu, Hg, String.eqb_refl. reflexivity.
    + apply (get_member_put_member _ (members db) m0); [exact Hin|reflexivity..].
    + intros _ _. apply put_member_ids.
  - simpl. repeat split.
    + unfold find_global_admin in *. simpl. apply find_app_last.
      * intros y Hy. apply (find_none _ _ Hf y Hy).
      * simpl. rewrite String.eqb_refl. reflexivity.
    + unfold get_member. apply find_app_last.
      * intros y Hy. apply member_id_fresh, Hy.
      * simpl. apply Z.eqb_refl.
    + intros m0 H. discriminate.
Qed.

Lemma login_special_admin (hash : string -> string)
    (check : string -> string -> bool) (db : database) (commit_ok : bool)
    (sess : web_session) :
  login hash check db true commit_ok sess
    (mkLoginForm "hyundai" "#admin1004" ChoiceAdmin)
  = let r := special_admin_account hash db "hyundai" "#admin1004"
               (find_global_admin db "hyundai") in
    if commit_ok then
      mkLoginOutcome (set_members (fst r) db)
        (unselect_group (admin_logged_in (snd r) sess)) [] "admin_dashboard"
    else
      mkLoginOutcome db sess
        [mkFlash "관리자 계정 설정 중 오류가 발생했습니다." "danger"] "auth/login.html".
Proof.
  unfold login. simpl.
  destruct (special_admin_account hash db "hyundai" "#admin1004"
              (find_global_admin db "hyundai")). reflexivity.
Qed.

(** X15. The special account.  With the username 'hyundai' and the
    password '#admin1004' a login as global administrator goes through
    whatever is stored (the commit succeeding): afterwards storage holds a
    global administrator of that name, approved and with that password,
    the session holds that account with the role 'admin', and
    admin_required lets the session in.  A second such login adds no
    account. *)
Theorem special_admin_login (hash : string -> string)
    (check : string -> string -> bool) (db : database) (sess : web_session)
    (c2 : bool) (sess2 : web_session) :
  let form := mkLoginForm "hyundai" "#admin1004" ChoiceAdmin in
  let o := login hash check db true true sess form in
  let o2 := login hash check (lo_db o) true c2 sess2 form in
  lo_target o = "admin_dashboard"%string
  /\ (exists m,
        find_global_admin (lo_db o) "hyundai" = Some m
        /\ approval_status m = Some ApprovalApproved
        /\ password_hash m = hash "#admin1004"%string
        /\ ws_user_id (lo_session o) = Some (member_id m)
        /\ ws_user_role (lo_session o) = Some "admin"%string)
  /\ admin_required (members (lo_db o)) true no_faults
       (ws_user_id (lo_session o)) (ws_user_role (lo_session o))
     = (ViewReturned, Some "admin"%string)
  /\ map member_id (members (lo_db o2)) = map member_id (members (lo_db o)).
Proof.
  cbv zeta. rewrite !login_special_admin. cbv zeta.
  pose proof (special_admin_account_spec hash db "hyundai" "#admin1004")
    as (H1 & H2 & H3 & H4 & _).
  destruct (special_admin_account hash db "hyundai" "#admin1004"
              (find_global_admin db "hyundai")) as [ms user] eqn:E.
  simpl in *. split; [reflexivity|]. split; [|split].
  - exists user. auto.
  - unfold admin_required, current_user, load_user. simpl.
    rewrite H2. simpl. rewrite H2, H3. reflexivity.
  - pose proof (special_admin_account_spec hash (set_members ms db) "hyundai"
                  "#admin1004") as (_ & _ & _ & _ & H5).
    destruct c2; [|reflexivity]. simpl. apply (H5 user), H1.
Qed.
Lemma get_group_put_group (g : Z) (gs : list PartnerGroup) (grp grp' : PartnerGroup) :
  get_group g gs = Some grp -> group_id grp' = g ->
  get_group g (put_group grp' gs) = Some grp'.
Proof.
  unfold get_group, put_group. intros H Hid. subst g.
  induction gs as [|x gs IH]; simpl in *; [discriminate|].
  destruct (group_id x =? group_id grp') eqn:E.
  - simpl. rewrite Z.eqb_refl. reflexivity.
  - simpl. rewrite E. apply IH, H.
Qed.

Lemma get_group_spec (g : Z) (gs : list PartnerGroup) (grp : PartnerGroup) :
  get_group g gs = Some grp -> In grp gs /\ group_id grp = g.
Proof.
  unfold get_group. intros H. apply find_some in H. destruct H as [Hin H].
  apply Z.eqb_eq in H. auto.
Qed.

Lemma login_keys_unchanged (hash : string -> string)
    (check : string -> string -> bool) (db : database)
    (db_present commit_ok : bool) (sess : web_session) (u p : string) (g : Z) :
  is_special_admin u p = false ->
  (forall grp, get_group g (partner_groups db) = Some grp -> admin_username grp <> u) ->
  handler_session
    (lo_session (login hash check db db_present commit_ok sess
                   (mkLoginForm u p (ChoiceId g))))
  = handler_session sess.
Proof.
  intros Hsp Hn. unfold login. simpl.
  destruct (is_empty u || is_empty p); [reflexivity|].
  destruct db_present; [|reflexivity]. simpl.
  destruct (get_group g (partner_groups db)) as [grp|] eqn:Hg; [|reflexivity].
  rewrite Hsp.
  destruct (find_global_admin db u) as [m|].
  { destruct (check (password_hash m) p); reflexivity. }
  replace (String.eqb (admin_username grp) u) with false
    by (symmetry; apply String.eqb_neq, Hn; reflexivity).
  destruct (find_group_member db u g) as [m|]; [|reflexivity].
  destruct (check (password_hash m) p); [|reflexivity].
  destruct (negb _); reflexivity.
Qed.

(** X16. The special account in a partner group.  Logging in with
    'hyundai' / '#admin1004' and a partner group g (no other group has the
    admin_username 'hyundai', the commit succeeding) gives the session the
    partner-admin keys of g and rewrites the group's administrator:
    admin_username becomes 'hyundai' and the admin password the special
    one.  Afterwards no other username obtains the partner-admin keys of g
    at login, whatever the password, and the same special login into any
    other group is turned down. *)
Theorem special_login_takes_group (hash : string -> string)
    (check : string -> string -> bool) (db : database) (sess : web_session)
    (g : Z) (grp : PartnerGroup) :
  get_group g (partner_groups db) = Some grp ->
  (forall x, In x (partner_groups db) -> group_id x <> g ->
             admin_username x <> "hyundai"%string) ->
  let o := login hash check db true true sess
             (mkLoginForm "hyundai" "#admin1004" (ChoiceId g)) in
  lo_target o = "partner_dashboard"%string
  /\ handler_session (lo_session o) = mkSession (Some "partner_admin"%string) (Some g)
  /\ (exists grp',
        get_group g (partner_groups (lo_db o)) = Some grp'
        /\ admin_username grp' = "hyundai"%string
        /\ admin_password_hash grp' = hash "#admin1004"%string
        /\ name grp' = name grp)
  /\ (forall u0 p0 c s,
        u0 <> "hyundai"%string ->
        handler_session
          (lo_session (login hash check (lo_db o) true c s
                         (mkLoginForm u0 p0 (ChoiceId g))))
        = handler_session s)
  /\ (forall g2 c s,
        g2 <> g ->
        turned_down (lo_db o) s
          (login hash check (lo_db o) true c s
             (mkLoginForm "hyundai" "#admin1004" (ChoiceId g2)))).
Proof.
  intros Hg Hfree. cbv zeta.
  pose proof (get_group_spec _ _ _ Hg) as [Hin Hid].
  set (grp' := mkPartnerGroup (group_id grp) (name grp) "hyundai"
                 (hash "#admin1004"%string) (group_business_number grp)
                 (group_representative grp) (group_phone grp) (group_mobile grp)
                 (group_address grp) (bank_name grp) (account_number grp)
                 (group_registration_cert_path grp) (logo_path grp)
                 (group_memo grp)).
  assert (Hconf : admin_username_conflict grp' (partner_groups db) = false).
  { unfold admin_username_conflict.
    destruct (existsb _ (partner_groups db)) eqn:E; [|reflexivity].
    apply existsb_exists in E. destruct E as (x & Hx & E).
    apply andb_true_iff in E. destruct E as [E1 E2].
    apply negb_true_iff, Z.eqb_neq in E1. apply String.eqb_eq in E2.
    simpl in E1, E2. exfalso. apply (Hfree x Hx); congruence. }
  destruct (special_admin_account hash db "hyundai" "#admin1004"
              (find_global_admin db "hyundai")) as [ms admin_user] eqn:Hacc.
  assert (Hlogin :
            login hash check db true true sess
              (mkLoginForm "hyundai" "#admin1004" (ChoiceId g))
            = mkLoginOutcome
                (set_partner_groups (put_group grp' (partner_groups db))
                   (set_members ms db))
                (mkWebSession (Some (member_id admin_user)) true
                   (Some "admin"%string) (Some (display_name admin_user))
                   (Some g) (Some (name grp)) (Some g) (Some (name grp))
                   (Some "partner_admin"%string) (ws_username sess))
                [] "partner_dashboard").
  { unfold login. simpl. rewrite Hg, Hacc. fold grp'. rewrite Hconf. reflexivity. }
  rewrite Hlogin. simpl.
  assert (Hg' : get_group g (put_group grp' (partner_groups db)) = Some grp')
    by (apply (get_group_put_group g _ grp); auto).
  split; [reflexivity|]. split; [reflexivity|]. split; [|split].
  - exists grp'. auto.
  - intros u0 p0 c s Hu0. apply login_keys_unchanged.
    + unfold is_special_admin.
      replace (String.eqb u0 "hyundai") with false
        by (symmetry; apply String.eqb_neq; exact Hu0).
      reflexivity.
    + simpl. rewrite Hg'. intros x Hx. injection Hx as <-. simpl. congruence.
  - intros g2 c s Hg2. unfold turned_down, login. simpl.
    destruct (get_group g2 (put_group grp' (partner_groups db))) as [grp2|] eqn:H2;
      [|repeat split; auto; discriminate].
    match goal with
    | |- context [admin_username_conflict ?x ?l] =>
        assert (Hc2 : admin_username_conflict x l = true)
    end.
    { unfold admin_username_conflict. apply existsb_exists. exists grp'.
      pose proof (get_group_spec _ _ _ Hg') as [Hin' _].
      pose proof (get_group_spec _ _ _ H2) as [_ Hid2].
      split; [exact Hin'|]. simpl. rewrite Hid2, Hid.
      replace (g =? g2) with false by (symmetry; apply Z.eqb_neq; congruence).
      reflexivity. }
    rewrite Hc2, andb_false_r.
    repeat match goal with
           | |- context [let '(_, _) := ?X in _] => destruct X
           end.
    repeat split; auto; discriminate.
Qed.

Lemma special_login_takes_group_witness :
  handler_session
    (lo_session (login sample_hash sample_check login_db true true no_session
                   (mkLoginForm "hyundai" "#admin1004" (ChoiceId 1))))
  = mkSession (Some "partner_admin"%string) (Some 1).
Proof.
  pose proof (special_login_takes_group sample_hash sample_check login_db
                no_session 1 _ eq_refl) as T.
  destruct T as (_ & H & _); [|exact H].
  intros x [<-|[]] Hx. exfalso. apply Hx. reflexivity.
Defined.

(** ** Logging out *)

(** X17. logout ends every right of the session.  Whatever the session
    held, after logout the partner-admin handlers turn the request away
    with the warning for non-administrators, partner_insurance asks for a
    login, and the login_required of admin_required sends the request to
    the login page with the message of flask-login; none of them changes
    what is stored. *)
Theorem logout_ends_session (hash : string -> string) (db : database)
    (w : web_session) :
  let w' := fst (logout w) in
  snd (logout w) = "login"%string
  /\ (forall clock commit_ok action app_id form f_memo t,
        partner_admin_insurance_approval (handler_session w') clock commit_ok
          action app_id form f_memo t
        = mkOutcome t [mkFlash "파트너그룹 관리자만 접근 가능합니다." "warning"]
            "partner_dashboard")
  /\ (forall commit_ok action form cert ms,
        partner_admin_member_approval hash (handler_session w') commit_ok action
          form cert ms
        = mkMemberOutcome ms
            [mkFlash "파트너그룹 관리자만 접근 가능합니다." "warning"]
            "partner_dashboard")
  /\ (forall commit_ok action app_id form f_memo t,
        partner_insurance (caller_of db w') commit_ok action app_id form f_memo t
        = mkOutcome t [mkFlash "로그인이 필요합니다." "warning"] "login")
  /\ (forall clock commit_ok form f_memo,
        partner_insurance_apply db (caller_of db w') clock commit_ok form f_memo
        = mkDbOutcome db [mkFlash "로그인이 필요합니다." "warning"] "login")
  /\ (forall ms db_present f,
        admin_required ms db_present f (ws_user_id w') (ws_user_role w')
        = (RedirectLogin
             (mkFlash "Please log in to access this page." "message"),
           None)).
Proof. repeat split. Qed.

(** ** The member table of a partner group *)

Lemma member_id_unique (ms : list Member) (x y : Member) :
  NoDup (map member_id ms) -> In x ms -> In y ms ->
  member_id x = member_id y -> x = y.
Proof.
  induction ms as [|z ms IH]; simpl; [contradiction|].
  intros Hn Hx Hy E. inversion Hn as [|? ? Hz Hn']; subst.
  destruct Hx as [<-|Hx], Hy as [<-|Hy]; auto.
  - exfalso. apply Hz. rewrite E. apply in_map, Hy.
  - exfalso. apply Hz. rewrite <- E. apply in_map, Hx.
Qed.

Lemma get_member_spec (i : Z) (ms : list Member) (m : Member) :
  get_member i ms = Some m -> In m ms /\ member_id m = i.
Proof.
  unfold get_member. intros H. apply find_some in H. destruct H as [Hin H].
  apply Z.eqb_eq in H. auto.
Qed.

Lemma opt_Z_eq_refl (a : option Z) : opt_Z_eq a a = true.
Proof. destruct a; simpl; [apply Z.eqb_refl|reflexivity]. Qed.

Lemma opt_Z_eq_eq (a b : option Z) : opt_Z_eq a b = true -> a = b.
Proof.
  destruct a, b; simpl; try discriminate; [|reflexivity].
  intros H. apply Z.eqb_eq in H. congruence.
Qed.

Lemma in_put_member (m' r : Member) (ms : list Member) :
  In r (put_member m' ms) -> In r ms \/ r = m'.
Proof.
  unfold put_member. intros H. apply in_map_iff in H. destruct H as (x & E & Hx).
  destruct (member_id x =? member_id m'); [right; congruence|left; congruence].
Qed.

(** X18. The member screen of a partner-group administrator stays inside
    the group.  Whatever the request (add, save or delete, any member id,
    any form), the members of the other partner groups, and the global
    administrators, are afterwards exactly what they were; and every
    member stored afterwards either was stored before, or belongs to the
    session's group and is a plain member or keeps the role it had: the
    screen creates no administrator and changes no role. *)
Theorem member_approval_isolated (hash : string -> string) (sess : session)
    (commit_ok : bool) (action : member_action) (form : member_form)
    (cert : cert_upload) (ms : list Member) :
  NoDup (map member_id ms) ->
  let pg := session_partner_group_id sess in
  let o := partner_admin_member_approval hash sess commit_ok action form cert ms in
  members_outside pg (mo_members o) = members_outside pg ms
  /\ (forall m', In m' (mo_members o) ->
        In m' ms
        \/ (member_partner_group_id m' = pg
            /\ (role m' = Some "member"%string
                \/ exists m, In m ms /\ member_id m = member_id m'
                             /\ role m = role m'))).
Proof.
  intros Hn pg o. subst o. unfold partner_admin_member_approval. fold pg.
  destruct (negb _); [split; [reflexivity|auto]|].
  assert (Hedit : forall i (k : Member -> member_outcome),
            (forall member, In member ms ->
               member_partner_group_id member = pg ->
               members_outside pg (mo_members (k member)) = members_outside pg ms
               /\ (forall m', In m' (mo_members (k member)) ->
                     In m' ms
                     \/ (member_partner_group_id m' = pg
                         /\ (role m' = Some "member"%string
                             \/ exists m, In m ms /\ member_id m = member_id m'
                                          /\ role m = role m')))) ->
            let r := match i with
                     | IntAbsent => mkMemberOutcome ms [] "partner_admin_member_approval"
                     | IntMalformed =>
                         mkMemberOutcome ms
                           [mkFlash "페이지 로드 중 오류가 발생했습니다." "danger"]
                           "partner_admin"
                     | IntOk i =>
                         match get_member i ms with
                         | Some member =>
                             if opt_Z_eq (member_partner_group_id member) pg
                             then k member
                             else mkMemberOutcome ms [] "partner_admin_member_approval"
                         | None => mkMemberOutcome ms [] "partner_admin_member_approval"
                         end
                     end in
            members_outside pg (mo_members r) = members_outside pg ms
            /\ (forall m', In m' (mo_members r) ->
                  In m' ms
                  \/ (member_partner_group_id m' = pg
                      /\ (role m' = Some "member"%string
                          \/ exists m, In m ms /\ member_id m = member_id m'
                                       /\ role m = role m')))).
  { intros i k Hk. cbv zeta. destruct i as [| |i]; try (split; [reflexivity|auto]).
    destruct (get_member i ms) as [member|] eqn:Hm; [|split; [reflexivity|auto]].
    destruct (opt_Z_eq (member_partner_group_id member) pg) eqn:Hg;
      [|split; [reflexivity|auto]].
    apply Hk; [apply (get_member_spec _ _ _ Hm)|apply opt_Z_eq_eq, Hg]. }
  destruct action as [|i|i|].
  - destruct (_ || _); [split; [reflexivity|auto]|].
    destruct (existsb _ ms); [split; [reflexivity|auto]|].
    destruct (approval_of _) as [a|]; [|split; [reflexivity|auto]].
    destruct commit_ok; [|split; [reflexivity|auto]].
    simpl. split.
    + unfold members_outside. rewrite filter_app. simpl.
      rewrite opt_Z_eq_refl. simpl. apply app_nil_r.
    + intros m' Hm'. apply in_app_or in Hm'. destruct Hm' as [H|[<-|[]]]; auto.
  - apply Hedit. intros member Hin Hg.
    destruct (approval_of _) as [a|]; [|split; [reflexivity|auto]].
    destruct (commit_ok && _); [|split; [reflexivity|auto]].
    simpl. split.
    + unfold members_outside, put_member. apply filter_map_frame.
      intros x Hx. destruct (member_id x =? member_id _) eqn:E; [|left; reflexivity].
      right. apply Z.eqb_eq in E. simpl in E.
      rewrite (member_id_unique ms x member Hn Hx Hin E).
      simpl. rewrite Hg, opt_Z_eq_refl. auto.
    + intros m' Hm'. apply in_put_member in Hm'. destruct Hm' as [H| ->]; auto.
      right. simpl. split; [exact Hg|]. right. exists member. auto.
  - apply Hedit. intros member Hin Hg.
    destruct commit_ok; [|split; [reflexivity|auto]].
    simpl. split.
    + unfold members_outside, delete_member. apply filter_filter_frame.
      intros x Hx E. apply negb_false_iff, Z.eqb_eq in E.
      rewrite (member_id_unique ms x member Hn Hx Hin E).
      rewrite Hg, opt_Z_eq_refl. reflexivity.
    + intros m' Hm'. left. unfold delete_member in Hm'.
      apply filter_In in Hm'. apply Hm'.
  - split; [reflexivity|auto].
Qed.

Lemma member_approval_isolated_witness :
  members_outside (Some 2)
    (mo_members
       (partner_admin_member_approval sample_hash
          (mkSession (Some "partner_admin"%string) (Some 2)) true
          (SaveMember (IntOk 9)) approving_form NoCert (members login_db)))
  = [sample_member; waiting_member].
Proof.
  apply (member_approval_isolated sample_hash
           (mkSession (Some "partner_admin"%string) (Some 2)) true
           (SaveMember (IntOk 9)) approving_form NoCert (members login_db)).
  repeat constructor; simpl; intuition discriminate.
Defined.

(** ** From the application to the settlement *)

Lemma app_id_fresh (t : app_table) (x : InsuranceApplication) :
  In x t -> (id x =? next_id (map id t)) = false.
Proof.
  intros H. apply Z.eqb_neq.
  pose proof (next_id_fresh (map id t) (id x) (in_map _ _ _ H)). lia.
Qed.

Lemma get_app_app_other (j : Z) (t : app_table) (a : InsuranceApplication) :
  id a <> j -> get_app j (t ++ [a]) = get_app j t.
Proof.
  intros Hj. unfold get_app. induction t as [|x t IH]; simpl.
  - replace (id a =? j) with false by (symmetry; apply Z.eqb_neq; exact Hj).
    reflexivity.
  - destruct (id x =? j); [reflexivity|exact IH].
Qed.

Lemma get_app_app_last (t : app_table) (a : InsuranceApplication) :
  id a = next_id (map id t) ->
  get_app (id a) (t ++ [a]) = Some a
  /\ forall j, j <> id a -> get_app j (t ++ [a]) = get_app j t.
Proof.
  intros Hid. split.
  - unfold get_app. apply find_app_last.
    + intros y Hy. rewrite Hid. apply app_id_fresh, Hy.
    + apply Z.eqb_refl.
  - intros j Hj. apply get_app_app_other. congruence.
Qed.

Lemma get_app_map (f : InsuranceApplication -> InsuranceApplication) (i : Z)
    (t : app_table) :
  (forall x, id (f x) = id x) ->
  get_app i (map f t) = option_map f (get_app i t).
Proof.
  intros Hf. unfold get_app. induction t as [|x t IH]; simpl; [reflexivity|].
  rewrite Hf. destruct (id x =? i); [reflexivity|exact IH].
Qed.

(** X19. From the application to the settlement.  A member's 'apply' on
    partner_insurance (date and plate given, the commit succeeding) stores
    one new application under a fresh id and leaves every other id as it
    was: status '신청', no approval, premium 9,500, the member's group and
    the member as creator.  A bulk approval by the administrator of that
    group, when the approval of every pending application of the group
    returns (the thirty days it adds stay inside the range of datetime, for
    the new application too), then fixes its window from the desired start
    date, so that the application passes the filter of the partner
    settlement for the month of its desired start date (group, creating
    member, start inside the month), whenever it was approved; recomputed
    later it is expired from the end of the window on, active from two
    hours after the approval on, and union-approved before. *)
Theorem application_lifecycle (db : database) (uid g : Z) (m : Member)
    (clock0 clock1 clock2 : Z) (form : edit_form) (f_memo : option string)
    (d : date) (psess : session) (app_id : int_field) (form2 : edit_form)
    (f_memo2 : option string) (window_end active_from : datetime) :
  get_member uid (members db) = Some m ->
  parse_date (f_desired_start_date form) = Some d ->
  f_car_plate form <> ""%string ->
  valid_date d = true ->
  partner_session psess g ->
  dt_add (midnight d) (timedelta_days 30) = Some window_end ->
  dt_add (datetime_now clock1) (timedelta_hours 2) = Some active_from ->
  (forall x, In x (insurance_applications db) -> partner_group_id x = g ->
             approved_at x = None -> partner_approvable x) ->
  let o := partner_insurance_apply db (MemberLogin uid "member" (Some g)) clock0
             true form f_memo in
  let i := next_id (map id (insurance_applications db)) in
  let t1 := insurance_applications (db_after o) in
  let t2 := table (partner_admin_insurance_approval psess clock1 true
                     "bulk_approve" app_id form2 f_memo2 t1) in
  let now2 := datetime_now clock2 in
  (forall j, j <> i -> get_app j t1 = get_app j (insurance_applications db))
  /\ exists a b,
       get_app i t1 = Some a /\ get_app i t2 = Some b
       /\ (status a = Applied /\ approved_at a = None /\ premium a = 9500
           /\ partner_group_id a = g /\ created_by_member_id a = Some uid
           /\ desired_start_date a = d)
       /\ window_fixed (datetime_now clock1) a b
       /\ partner_group_id b = g
       /\ has_creator (db_after o) b = true
       /\ (forall sp nm, month_bounds (year d) (month d) = Some (sp, nm) ->
                         in_period sp nm b = true)
       /\ exists r,
            recompute_status clock2 b = Returned r
            /\ status r
               = if dt_ge now2 window_end then Expired
                 else if dt_ge now2 active_from then Active
                 else UnionApproved.
Proof.
  intros Hm Hd Hplate Hv Hs He Hdue Hall. cbv zeta.
  pose proof (partner_session_gate _ _ Hs) as (_ & _ & Hz).
  set (a := mkInsuranceApplication
              (next_id (map id (insurance_applications db))) g
              (Some (datetime_now clock0)) d None None None
              (Some (text_field (business_number m)))
              (Some match get_group g (partner_groups db) with
                    | Some partner_group => name partner_group
                    | None => ""%string
                    end)
              (Some (f_car_plate form)) (Some (f_vin form)) (Some (f_car_name form))
              (parse_date (f_car_registered_at form)) 9500 Applied
              (Some (text_field f_memo)) None None (Some uid)).
  assert (Ho : partner_insurance_apply db (MemberLogin uid "member" (Some g)) clock0
                 true form f_memo
               = mkDbOutcome
                   (set_applications (insurance_applications db ++ [a]) db)
                   [mkFlash "보험 신청이 등록되었습니다." "success"]
                   "partner_insurance").
  { unfold partner_insurance_apply. simpl. rewrite Hz. simpl. rewrite Hz, Hd.
    rewrite (is_empty_false _ Hplate), Hm. reflexivity. }
  rewrite Ho. simpl.
  destruct (get_app_app_last (insurance_applications db) a eq_refl) as [Ha Hother].
  split; [exact Hother|].
  destruct (partner_approve_one_window (datetime_now clock1) a window_end
              eq_refl eq_refl He) as (b & Hb & Hw).
  destruct (partner_approve_one_stamp _ a b Hb) as (_ & _ & Hbid & Hbg).
  exists a, b. split; [exact Ha|]. split; [|split; [repeat split|split; [exact Hw|]]].
  - rewrite (partner_bulk_stored psess g clock1 true app_id form2 f_memo2 _ Hs).
    destruct (for_each_returns (partner_bulk_body g (datetime_now clock1))
                (insurance_applications db ++ [a])) as [t2 E].
    { intros x Hx. apply in_app_or in Hx. destruct Hx as [Hx|[<-|[]]].
      - unfold partner_bulk_body.
        destruct (partner_group_id x =? g) eqn:Eg; simpl; [|discriminate].
        destruct (approved_at x) eqn:Ea; simpl; [discriminate|].
        apply partner_approve_one_returns, Hall; auto. apply Z.eqb_eq, Eg.
      - unfold partner_bulk_body. simpl. rewrite Z.eqb_refl. simpl.
        rewrite Hb. discriminate. }
    rewrite E.
    pose proof (for_each_get_app (partner_bulk_body g (datetime_now clock1))
                  _ _ (id a)
                  (fun x y _ => partner_bulk_body_id g (datetime_now clock1) x y)
                  E) as G.
    rewrite Ha in G. destruct G as (r' & B & G).
    unfold partner_bulk_body in B. simpl in B. rewrite Z.eqb_refl in B.
    simpl in B. change (next_id (map id (insurance_applications db))) with (id a).
    rewrite G. congruence.
  - split; [exact Hbg|]. split; [|split].
    + unfold has_creator, created_by_member.
      pose proof (partner_approve_one_frame _ a b Hb) as F.
      apply (f_equal created_by_member_id) in F. simpl in F.
      rewrite F. simpl. rewrite Hm. reflexivity.
    + intros sp nm Hbm. apply (in_period_midnight d); auto.
      destruct Hw as (_ & H2 & _). exact H2.
    + destruct (window_fixed_timeline clock1 clock2 a b window_end active_from
                  Hw He Hdue) as (r & R & Hst & _).
      exists r. auto.
Qed.

Lemma application_lifecycle_witness :
  exists b,
    get_app 7
      (table (partner_admin_insurance_approval sample_session
                (clock_at 2024 3 1 10 0) true "bulk_approve" IntAbsent blank_form
                None
                (insurance_applications
                   (db_after (partner_insurance_apply login_db
                                (MemberLogin 7 "member" (Some 1))
                                (clock_at 2024 2 28 9 0) true
                                (dated_form (mkDate 2024 3 15)) None)))))
    = Some b
    /\ in_period (kst_at 2024 3 1 0 0) (kst_at 2024 4 1 0 0) b = true.
Proof.
  assert (Hall : forall x, In x (insurance_applications login_db) ->
                           partner_group_id x = 1 -> approved_at x = None ->
                           partner_approvable x).
  { intros x Hx. vm_compute in Hx.
    repeat (destruct Hx as [<-|Hx]; [intros _ H; try discriminate H;
                                     intros _; discriminate|]).
    destruct Hx. }
  pose proof (application_lifecycle login_db 7 1 sample_member
                (clock_at 2024 2 28 9 0) (clock_at 2024 3 1 10 0)
                (clock_at 2024 3 20 0 0) (dated_form (mkDate 2024 3 15)) None
                (mkDate 2024 3 15) sample_session IntAbsent blank_form None
                (kst_at 2024 4 14 0 0) (kst_at 2024 3 1 12 0)
                eq_refl eq_refl ltac:(discriminate) eq_refl
                ltac:(repeat split; discriminate) eq_refl eq_refl Hall) as T.
  destruct T as (_ & a & b & _ & Hb & _ & _ & _ & _ & Hp & _).
  exists b. split; [exact Hb|]. apply Hp. reflexivity.
Defined.
(** ** The administrators *)

Lemma get_member_put_member_other (j : Z) (m' : Member) (ms : list Member) :
  get_member j ms <> None -> get_member j (put_member m' ms) <> None.
Proof.
  unfold get_member, put_member.
  induction ms as [|x ms IH]; simpl; [auto|].
  destruct (member_id x =? j) eqn:E.
  - intros _. destruct (member_id x =? member_id m') eqn:E'.
    + apply Z.eqb_eq in E, E'. rewrite <- E', E, Z.eqb_refl. discriminate.
    + rewrite E. discriminate.
  - intros H. destruct (member_id x =? member_id m') eqn:E'.
    + destruct (member_id m' =? j); [discriminate|auto].
    + rewrite E. auto.
Qed.

Lemma get_member_delete_member_other (i j : Z) (ms : list Member) :
  i <> j -> get_member j (delete_member i ms) = get_member j ms.
Proof.
  intros H. unfold get_member, delete_member.
  induction ms as [|x ms IH]; simpl; [reflexivity|].
  destruct (member_id x =? i) eqn:E; simpl.
  - apply Z.eqb_eq in E.
    replace (member_id x =? j) with false by (symmetry; apply Z.eqb_neq; congruence).
    exact IH.
  - destruct (member_id x =? j); [reflexivity|exact IH].
Qed.

Lemma get_member_app (j : Z) (ms : list Member) (m : Member) :
  get_member j ms <> None -> get_member j (ms ++ [m]) <> None.
Proof.
  unfold get_member. induction ms as [|x ms IH]; simpl; [congruence|].
  destruct (member_id x =? j); [discriminate|exact IH].
Qed.

Lemma permission_role_allowed (permission : option string) :
  role_allowed (permission_role permission) = true ->
  permission = Some "admin"%string /\ permission_role permission = "admin"%string.
Proof.
  unfold permission_role. destruct permission as [s|]; simpl.
  - destruct (String.eqb_spec s "admin"); [subst; auto|discriminate].
  - discriminate.
Qed.

(** X20. The administrators screen.  Whatever the request that the view
    answers: with a permission other than 'admin' nothing is stored (the
    role 'viewer' that create and save would write is not among the roles
    the member table admits); every member stored afterwards was stored
    before or is a global administrator with the role 'admin'; the members
    of the partner groups are what they were; and the administrator who
    sends the request is still stored. *)
Theorem administrators_screen (hash : string -> string) (current_user_id : Z)
    (commit_ok : bool) (action : admin_action) (form : admin_form)
    (ms : list Member) (o : member_outcome) :
  NoDup (map member_id ms) ->
  admin_administrators hash current_user_id commit_ok action form ms = Some o ->
  (adf_permission form <> Some "admin"%string ->
   (forall i, action <> DeleteAdmin i) -> mo_members o = ms)
  /\ (forall m', In m' (mo_members o) ->
        In m' ms
        \/ (member_partner_group_id m' = None /\ role m' = Some "admin"%string))
  /\ group_members (mo_members o) = group_members ms
  /\ (get_member current_user_id ms <> None ->
      get_member current_user_id (mo_members o) <> None).
Proof.
  intros Hn. unfold admin_administrators.
  assert (Hsame : forall fl tg, Some (mkMemberOutcome ms fl tg) = Some o ->
            (adf_permission form <> Some "admin"%string ->
             (forall i, action <> DeleteAdmin i) -> mo_members o = ms)
            /\ (forall m', In m' (mo_members o) ->
                  In m' ms
                  \/ (member_partner_group_id m' = None
                      /\ role m' = Some "admin"%string))
            /\ group_members (mo_members o) = group_members ms
            /\ (get_member current_user_id ms <> None ->
                get_member current_user_id (mo_members o) <> None)).
  { intros fl tg H. injection H as <-. simpl. auto. }
  destruct action as [|i|i|].
  - destruct (_ || _); [apply Hsame|].
    destruct (existsb _ ms); [apply Hsame|].
    destruct (commit_ok && _) eqn:Hc; [|apply Hsame].
    apply andb_true_iff in Hc. destruct Hc as [_ Hr].
    apply permission_role_allowed in Hr. destruct Hr as [Hp Hr].
    intros H. injection H as <-. simpl. repeat split.
    + intros Hne. contradiction.
    + intros m' Hm'. apply in_app_or in Hm'. destruct Hm' as [H|[<-|[]]]; auto.
      right. simpl. rewrite Hr. auto.
    + unfold group_members. rewrite filter_app. simpl. apply app_nil_r.
    + apply get_member_app.
  - destruct i as [| |i]; [apply Hsame|discriminate|].
    destruct (get_member i ms) as [admin|] eqn:Ha; [|apply Hsame].
    destruct (is_none (member_partner_group_id admin)) eqn:Hg; [|apply Hsame].
    destruct (commit_ok && _) eqn:Hc; [|apply Hsame].
    apply andb_true_iff in Hc. destruct Hc as [_ Hr].
    apply permission_role_allowed in Hr. destruct Hr as [Hp Hr].
    pose proof (get_member_spec _ _ _ Ha) as [Hin Hid].
    intros H. injection H as <-. simpl. repeat split.
    + intros Hne. contradiction.
    + intros m' Hm'. apply in_put_member in Hm'. destruct Hm' as [H| ->]; auto.
      right. simpl. rewrite Hr. destruct (member_partner_group_id admin);
        [discriminate|auto].
    + unfold group_members, put_member. apply filter_map_frame.
      intros x Hx. destruct (member_id x =? _) eqn:E; [|left; reflexivity].
      right. apply Z.eqb_eq in E. simpl in E.
      rewrite (member_id_unique ms x admin Hn Hx Hin E). simpl.
      rewrite Hg. auto.
    + apply get_member_put_member_other.
  - destruct i as [| |i]; [apply Hsame|discriminate|].
    destruct (get_member i ms) as [admin|] eqn:Ha; [|apply Hsame].
    destruct (is_none (member_partner_group_id admin)) eqn:Hg; [|apply Hsame].
    destruct (member_id admin =? current_user_id) eqn:Hself; [apply Hsame|].
    destruct commit_ok; [|apply Hsame].
    pose proof (get_member_spec _ _ _ Ha) as [Hin Hid].
    intros H. injection H as <-. simpl. repeat split.
    + intros _ Hd. exfalso. apply (Hd (IntOk i)). reflexivity.
    + intros m' Hm'. left. unfold delete_member in Hm'.
      apply filter_In in Hm'. apply Hm'.
    + unfold group_members, delete_member. apply filter_filter_frame.
      intros x Hx E. apply negb_false_iff, Z.eqb_eq in E.
      rewrite (member_id_unique ms x admin Hn Hx Hin E), Hg. reflexivity.
    + rewrite get_member_delete_member_other; [auto|].
      apply Z.eqb_neq, Hself.
  - apply Hsame.
Qed.

Lemma administrators_screen_witness :
  let refused :=
    mkMemberOutcome [admin_member; sample_member]
      [mkFlash "관리자 추가 중 오류가 발생했습니다." "danger"] "admin_administrators" in
  admin_administrators sample_hash 1 true CreateAdmin viewer_form
    [admin_member; sample_member] = Some refused
  /\ mo_members refused = [admin_member; sample_member].
Proof.
  cbv zeta. split; [reflexivity|].
  pose proof (administrators_screen sample_hash 1 true CreateAdmin viewer_form
                [admin_member; sample_member] _
                ltac:(repeat constructor; simpl; intuition discriminate)
                eq_refl) as T.
  destruct T as (H & _). apply H; [discriminate|discriminate].
Defined.
